(** * BN core: persistence, lock file and self-update

    A shallow embedding of the resilience code of the two programs of the
    repository:

    - [Bn.py]: the state document ([load_or_repair], [atomic_save_json],
      [save_memory], the dirty flag and [autosave_loop]) and the PID lock
      ([write_lock], [remove_lock], [cleanup_stale_lock], the prologue
      of [main]);
    - [bn.py]: the state document of the updater ([save_memory],
      [load_memory], [autosave_loop]) and the update pipeline
      ([parse_version], [version_tuple], [version_gt],
      [extract_signature_line], [safe_update]).

    Python strings are sequences of code points, files hold bytes, and
    the file system, the fault schedule of the operating system and the
    program's globals are threaded through a small state-and-exception
    monad.  The functions of the Python runtime that the code calls
    (codecs, [json], [hmac], [hashlib]) are fields of a [runtime] record. *)

From Stdlib Require Import ZArith NArith List Bool Ascii String Lia.
From Stdlib Require Import SpecFloat.
From stdpp Require Import base option list gmap strings.

Local Open Scope Z_scope.

(** ** Python text *)

Module Py.

(** A [str] is a sequence of Unicode code points, a [bytes] a sequence
    of octets. *)
Abbreviation text := (list N).
Abbreviation bytes := (list N).

Definition lit (s : string) : text :=
  List.map N_of_ascii (list_ascii_of_string s).

Definition text_eqb (a b : text) : bool := bool_decide (a = b).

(** [str.isspace] on one code point: the characters that [str.strip]
    discards. *)
Definition is_space (c : N) : bool :=
  (((9 <=? c) && (c <=? 13)) || ((28 <=? c) && (c <=? 32))
   || (c =? 133) || (c =? 160) || (c =? 5760)
   || ((8192 <=? c) && (c <=? 8202))
   || (c =? 8232) || (c =? 8233) || (c =? 8239) || (c =? 8287)
   || (c =? 12288))%N.

Fixpoint lstrip (s : text) : text :=
  match s with
  | c :: s' => if is_space c then lstrip s' else s
  | [] => []
  end.

Definition rstrip (s : text) : text := rev (lstrip (rev s)).

(** [s.strip()] *)
Definition strip (s : text) : text := rstrip (lstrip s).

Fixpoint starts_with (p s : text) : bool :=
  match p, s with
  | [], _ => true
  | a :: p', b :: s' => (a =? b)%N && starts_with p' s'
  | _ :: _, [] => false
  end.

(** [needle in hay] on strings *)
Fixpoint contains (needle hay : text) : bool :=
  starts_with needle hay ||
  match hay with
  | [] => false
  | _ :: hay' => contains needle hay'
  end.

(** [s.split(sep)] for a non-empty separator: the fields between the
    non-overlapping occurrences of [sep], found from the left.  [skip]
    counts the characters of a matched separator still to be dropped and
    [cur] is the current field, reversed. *)
Fixpoint split_go (sep s : text) (skip : nat) (cur : text) : list text :=
  match s with
  | [] => [rev cur]
  | c :: s' =>
      match skip with
      | S k => split_go sep s' k cur
      | O =>
          if starts_with sep s
          then rev cur :: split_go sep s' (length sep - 1) []
          else split_go sep s' 0 (c :: cur)
      end
  end.

Definition split (sep s : text) : list text := split_go sep s 0 [].

(** [s.split(sep, 1)] for a one-character separator *)
Fixpoint split1_go (sep : N) (s cur : text) : list text :=
  match s with
  | [] => [rev cur]
  | c :: s' => if (c =? sep)%N then [rev cur; s'] else split1_go sep s' (c :: cur)
  end.

Definition split1 (sep : N) (s : text) : list text := split1_go sep s [].

(** The line boundaries of [str.splitlines]. *)
Definition is_linebreak (c : N) : bool :=
  (((10 <=? c) && (c <=? 13)) || ((28 <=? c) && (c <=? 30))
   || (c =? 133) || (c =? 8232) || (c =? 8233))%N.

(** [s.splitlines()]: a carriage return followed by a line feed is one
    boundary, and a boundary at the very end opens no further line. *)
Fixpoint splitlines_go (s cur : text) (after_cr : bool) : list text :=
  match s with
  | [] => match cur with [] => [] | _ => [rev cur] end
  | c :: s' =>
      if after_cr && (c =? 10)%N then splitlines_go s' cur false
      else if is_linebreak c then rev cur :: splitlines_go s' [] (c =? 13)%N
      else splitlines_go s' (c :: cur) false
  end.

Definition splitlines (s : text) : list text := splitlines_go s [] false.

(** [xs[-1]] of a non-empty list, with a default for the empty one. *)
Definition last_item (xs : list text) : text := List.last xs [].

(** [s.rfind(c)] for one character: the last index, or [None] for -1. *)
Fixpoint rfind_go (c : N) (s : text) (i : nat) (found : option nat) : option nat :=
  match s with
  | [] => found
  | x :: s' => rfind_go c s' (S i) (if (x =? c)%N then Some i else found)
  end.

Definition rfind (c : N) (s : text) : option nat := rfind_go c s 0%nat None.

(** The white space that [int] allows around a number.  [int] turns
    the white space outside ASCII into spaces and then skips what C's
    [isspace] accepts: the separators U+001C to U+001F, which
    [str.isspace] accepts and [str.strip] discards, are no white space
    for it. *)
Definition is_int_space (c : N) : bool :=
  (((9 <=? c) && (c <=? 13)) || (c =? 32) || ((127 <=? c) && is_space c))%N.

Fixpoint int_lstrip (s : text) : text :=
  match s with
  | c :: s' => if is_int_space c then int_lstrip s' else s
  | [] => []
  end.

Definition int_strip (s : text) : text := rev (int_lstrip (rev (int_lstrip s))).

(** The longest number [int] converts: the default of
    [sys.get_int_max_str_digits ()]. *)
Definition MAX_STR_DIGITS : nat := 4300.

(** The digits of a number, its underscores left out. *)
Fixpoint digit_count (s : text) : nat :=
  match s with
  | [] => O
  | c :: s' => if (c =? 95)%N then digit_count s' else S (digit_count s')
  end.

Section Int.
(** The decimal value of a code point outside ASCII that Unicode
    classes as a decimal digit ([None] for every other one). *)
Variable decimal_of : N -> option Z.

Definition digit_val (c : N) : option Z :=
  if ((48 <=? c) && (c <=? 57))%N then Some (Z.of_N (c - 48))
  else if (c <? 128)%N then None else decimal_of c.

(** Digits with single underscores between them. *)
Fixpoint int_digits (s : text) (acc : Z) (after_digit : bool) : option Z :=
  match s with
  | [] => if after_digit then Some acc else None
  | c :: s' =>
      if (c =? 95)%N
      then (if after_digit then int_digits s' acc false else None)
      else match digit_val c with
           | Some d => int_digits s' (10 * acc + d) true
           | None => None
           end
  end.

(** A number without its sign: digits, and no more of them than the
    conversion limit allows. *)
Definition int_unsigned (r : text) : option Z :=
  match int_digits r 0 false with
  | Some n => if (digit_count r <=? MAX_STR_DIGITS)%nat then Some n else None
  | None => None
  end.

(** [int(s)] for a string: [None] stands for [ValueError]. *)
Definition int_of_str (s : text) : option Z :=
  match int_strip s with
  | 43%N :: r => int_unsigned r
  | 45%N :: r => Z.opp <$> int_unsigned r
  | r => int_unsigned r
  end.
End Int.

(** [str(n)] for an integer. *)
Fixpoint digits_of_pos (fuel : nat) (n : Z) (acc : text) : text :=
  match fuel with
  | O => acc
  | S f =>
      let acc' := (Z.to_N (n mod 10) + 48)%N :: acc in
      if n <? 10 then acc' else digits_of_pos f (n / 10) acc'
  end.

Definition str_of_int (n : Z) : text :=
  if n <? 0 then 45%N :: digits_of_pos (Z.to_nat (Z.log2 (- n)) + 1) (- n) []
  else digits_of_pos (Z.to_nat (Z.log2 n) + 1) n [].

(** Comparison of two tuples of integers with [>]: the first differing
    component decides, and a proper prefix is the smaller one. *)
Fixpoint tuple_gt (a b : list Z) : bool :=
  match a, b with
  | [], _ => false
  | _ :: _, [] => true
  | x :: a', y :: b' => if x =? y then tuple_gt a' b' else y <? x
  end.

(** [sep.join (xs)] *)
Fixpoint join (sep : text) (xs : list text) : text :=
  match xs with
  | [] => []
  | x :: rest =>
      match rest with
      | [] => x
      | _ :: _ => x ++ sep ++ join sep rest
      end
  end.

(** [s.split ()]: the maximal runs of characters that are not white
    space; [cur] is the current run, reversed. *)
Fixpoint split_ws_go (s cur : text) : list text :=
  match s with
  | [] => match cur with [] => [] | _ :: _ => [rev cur] end
  | c :: s' =>
      if is_space c
      then match cur with
           | [] => split_ws_go s' []
           | _ :: _ => rev cur :: split_ws_go s' []
           end
      else split_ws_go s' (c :: cur)
  end.

Definition split_ws (s : text) : list text := split_ws_go s [].

(** What [read] hands out for a file opened in text mode: a carriage
    return, together with the line feed that may follow it, reads as
    one line feed. *)
Fixpoint universal_newlines (s : text) : text :=
  match s with
  | [] => []
  | c :: s' =>
      if (c =? 13)%N
      then 10%N :: match s' with
                   | [] => []
                   | d :: s'' =>
                       if (d =? 10)%N then universal_newlines s''
                       else universal_newlines s'
                   end
      else c :: universal_newlines s'
  end.

(** [xs[-n:]] for a positive [n]: the last [n] items, or all of them. *)
Definition last_n {A : Type} (n : nat) (xs : list A) : list A :=
  drop (length xs - n) xs.

(** [f"{n:02d}"]: two characters at least, filled with a zero. *)
Definition fmt02 (n : Z) : text :=
  if (0 <=? n) && (n <? 10) then 48%N :: str_of_int n else str_of_int n.

(** [str.lower] on the letters of ASCII. *)
Definition ascii_lower (s : text) : text :=
  List.map (fun c => if ((65 <=? c) && (c <=? 90))%N then (c + 32)%N else c) s.

End Py.

(** ** JSON values and exceptions *)

(** What [json.load] returns: Python objects built from [None], [bool],
    [int], [float], [str], [list] and [dict] (a dictionary keeps its keys
    in insertion order). *)
#[local] Set Warnings "-register-all".
Inductive json : Type :=
| JNull
| JBool (b : bool)
| JInt (n : Z)
| JFloat (f : spec_float)
| JStr (s : Py.text)
| JList (xs : list json)
| JDict (kv : list (Py.text * json)).

(** The exceptions the modelled code can meet; every one of them is an
    [Exception], and [FileNotFoundError] is the only one a handler of
    the code names on its own. *)
Inductive exn : Type :=
| OSError | FileNotFoundError | FileExistsError | ProcessLookupError
| PermissionError | OverflowError | ValueError | TypeError
| AttributeError | KeyError | UnicodeError | URLError.

Definition is_file_not_found (e : exn) : bool :=
  match e with FileNotFoundError => true | _ => false end.

Inductive res (A : Type) : Type :=
| Ok (a : A)
| Raise (e : exn).
Arguments Ok {A} a.
Arguments Raise {A} e.

(** Dictionary access on an association list with distinct keys. *)
Fixpoint dict_get (k : Py.text) (kv : list (Py.text * json)) : option json :=
  match kv with
  | [] => None
  | (k', v) :: kv' => if Py.text_eqb k' k then Some v else dict_get k kv'
  end.

Fixpoint dict_set (k : Py.text) (v : json) (kv : list (Py.text * json))
  : list (Py.text * json) :=
  match kv with
  | [] => [(k, v)]
  | (k', v') :: kv' =>
      if Py.text_eqb k' k then (k, v) :: kv' else (k', v') :: dict_set k v kv'
  end.

(** [bool(x)] *)
Definition truthy (x : json) : bool :=
  match x with
  | JNull => false
  | JBool b => b
  | JInt n => negb (n =? 0)
  | JFloat f => match f with S754_zero _ => false | _ => true end
  | JStr s => match s with [] => false | _ => true end
  | JList xs => match xs with [] => false | _ => true end
  | JDict kv => match kv with [] => false | _ => true end
  end.

(** [int(f)] for a float: the integer part, towards zero. *)
Definition int_of_float (f : spec_float) : res Z :=
  match f with
  | S754_zero _ => Ok 0
  | S754_infinity _ => Raise OverflowError
  | S754_nan => Raise ValueError
  | S754_finite s m e =>
      let a := match e with
               | Z0 => Zpos m
               | Zpos p => Zpos m * 2 ^ Zpos p
               | Zneg p => Zpos m / 2 ^ Zpos p
               end in
      Ok (if s then - a else a)
  end.

(** The float [1.0]. *)
Definition float_one : spec_float := S754_finite false 4503599627370496 (-52).

(** ** The Python runtime and the process environment *)

(** The library functions the code calls.  [utf8_decode] is the strict
    codec ([None] for [UnicodeDecodeError]); [json_loads] gives [None]
    where [json.loads] raises; [json_dump] is the sequence of encoded
    chunks that [json.dump (..., ensure_ascii=False, indent=2)] writes to
    its file; [hmac_sha256_hex key data] is
    [hmac.new (key.encode ("utf-8"), data, hashlib.sha256).hexdigest ()],
    [None] when the key cannot be encoded. *)
Record runtime : Type := Runtime {
  decimal_of : N -> option Z;
  utf8_decode : Py.bytes -> option Py.text;
  utf8_decode_ignore : Py.bytes -> Py.text;
  utf8_decode_replace : Py.bytes -> Py.text;
  utf8_encode : Py.text -> option Py.bytes;
  json_loads : Py.text -> option json;
  json_dump : json -> list Py.bytes;
  hmac_sha256_hex : Py.text -> Py.bytes -> option Py.text;
  sha256_hex : Py.bytes -> Py.text
}.

(** A file is named by its directory and its name in it. *)
Abbreviation path := (string * string)%type.

(** What the process finds around it: where the program lives, its
    process id, what [os.kill (pid, 0)] does for each pid ([None] when
    the call returns), the clock readings, the directory of temporary
    files and what a fetch of a URL yields. *)
Record environ : Type := Environ {
  BASE_DIR : string;
  getpid : Z;
  kill0 : Z -> option exn;
  utc_iso : Py.text;
  strftime_seconds : string;
  gettempdir : string;
  urlopen_read : string -> res Py.bytes
}.

(** ** Files, faults and the program state *)

(** The operating system may fail any file operation.  A failing write
    may still have put a prefix of its data into the file. *)
Inductive fault : Type :=
| NoFault
| Fail (written : nat).

Inductive event : Type :=
| EvCreate (p : path)
| EvTruncate (p : path)
| EvWrite (p : path) (data : Py.bytes)
| EvSync (p : path)
| EvReplace (src dst : path)
| EvRemove (p : path)
| EvAcquire
| EvRelease
| EvSetDirty (value locked : bool).

(** The state threaded through the program: the files, the faults still
    to come (one is consumed by each fallible operation), the names the
    temporary-file generator will propose, the log of what was done (the
    newest entry first, each with the files as they were right after
    it), and the globals of the program: the state document, the dirty
    flag and whether the lock object is held. *)
Record state : Type := State {
  fs : gmap path Py.bytes;
  faults : list fault;
  entropy : list string;
  trace : list (event * gmap path Py.bytes);
  mem : json;
  mem_dirty : bool;
  mem_lock : bool
}.

Definition set_fs (f : gmap path Py.bytes) (s : state) : state :=
  State f (faults s) (entropy s) (trace s) (mem s) (mem_dirty s) (mem_lock s).
Definition set_faults (l : list fault) (s : state) : state :=
  State (fs s) l (entropy s) (trace s) (mem s) (mem_dirty s) (mem_lock s).
Definition set_entropy (l : list string) (s : state) : state :=
  State (fs s) (faults s) l (trace s) (mem s) (mem_dirty s) (mem_lock s).
Definition set_mem (m : json) (s : state) : state :=
  State (fs s) (faults s) (entropy s) (trace s) m (mem_dirty s) (mem_lock s).
Definition set_mem_dirty (b : bool) (s : state) : state :=
  State (fs s) (faults s) (entropy s) (trace s) (mem s) b (mem_lock s).
Definition set_mem_lock (b : bool) (s : state) : state :=
  State (fs s) (faults s) (entropy s) (trace s) (mem s) (mem_dirty s) b.

(** Record an event together with the files as they now are. *)
Definition log_event (e : event) (s : state) : state :=
  State (fs s) (faults s) (entropy s) ((e, fs s) :: trace s)
        (mem s) (mem_dirty s) (mem_lock s).

(** ** The monad of the program *)

Definition IO (A : Type) : Type := state -> res A * state.

Definition ret {A} (a : A) : IO A := fun s => (Ok a, s).
Definition raise {A} (e : exn) : IO A := fun s => (Raise e, s).
Definition bind {A B} (m : IO A) (k : A -> IO B) : IO B :=
  fun s => match m s with
           | (Ok a, s') => k a s'
           | (Raise e, s') => (Raise e, s')
           end.

Notation "'let*' x ':=' m 'in' k" := (bind m (fun x => k))
  (at level 10, x name, m at level 100, k at level 200).

Definition lift_res {A} (r : res A) : IO A := fun s => (r, s).
Definition lift_opt {A} (e : exn) (o : option A) : IO A :=
  match o with Some a => ret a | None => raise e end.

Definition get_state : IO state := fun s => (Ok s, s).
Definition modify (f : state -> state) : IO unit := fun s => (Ok tt, f s).

(** [try: m except Exception as e: h e] *)
Definition try_except {A} (m : IO A) (h : exn -> IO A) : IO A :=
  fun s => match m s with
           | (Ok a, s') => (Ok a, s')
           | (Raise e, s') => h e s'
           end.

(** [try: m except FileNotFoundError: pass] *)
Definition ignore_file_not_found (m : IO unit) : IO unit :=
  fun s => match m s with
           | (Ok a, s') => (Ok a, s')
           | (Raise e, s') =>
               if is_file_not_found e then (Ok tt, s') else (Raise e, s')
           end.

(** [try: m finally: f]: [f] runs in either case, and an exception of
    [f] replaces the outcome of [m]. *)
Definition try_finally {A} (m : IO A) (f : IO unit) : IO A :=
  fun s => match m s with
           | (r, s') =>
               match f s' with
               | (Ok _, s'') => (r, s'')
               | (Raise e, s'') => (Raise e, s'')
               end
           end.

(** ** File operations *)

(** Take the next fault of the schedule. *)
Definition next_fault : IO fault :=
  fun s => match faults s with
           | [] => (Ok NoFault, s)
           | f :: l => (Ok f, set_faults l s)
           end.

(** An operation that only fails or succeeds. *)
Definition fallible : IO unit :=
  let* f := next_fault in
  match f with NoFault => ret tt | Fail _ => raise OSError end.

(** The effect of each successful operation on the files, logged. *)
Definition put_file (e : event) (p : path) (data : Py.bytes) (s : state) : state :=
  log_event e (set_fs (<[p := data]> (fs s)) s).
Definition append_to (p : path) (d : Py.bytes) (s : state) : state :=
  put_file (EvWrite p d) p (default [] (fs s !! p) ++ d) s.
Definition rename_file (src dst : path) (c : Py.bytes) (s : state) : state :=
  log_event (EvReplace src dst) (set_fs (<[dst := c]> (delete src (fs s))) s).
Definition delete_file (p : path) (s : state) : state :=
  log_event (EvRemove p) (set_fs (delete p (fs s)) s).

(** [os.path.exists (p)] *)
Definition path_exists (p : path) : IO bool :=
  fun s => (Ok (bool_decide (is_Some (fs s !! p))), s).

(** [open (p, "rb").read ()]: a missing file is reported as such, and
    reading one that is there may fail. *)
Definition read_file (p : path) : IO Py.bytes :=
  let* s := get_state in
  let* data := lift_opt FileNotFoundError (fs s !! p) in
  let* _ := fallible in
  ret data.

(** [open (p, "w")]: the file is created, or emptied. *)
Definition open_truncate (p : path) : IO unit :=
  let* _ := fallible in
  modify (put_file (EvTruncate p) p []).

(** A write to an open file, at its end. *)
Definition write (p : path) (data : Py.bytes) : IO unit :=
  let* f := next_fault in
  match f with
  | NoFault => modify (append_to p data)
  | Fail n => let* _ := modify (append_to p (take n data)) in raise OSError
  end.

Fixpoint write_all (p : path) (chunks : list Py.bytes) : IO unit :=
  match chunks with
  | [] => ret tt
  | c :: cs => let* _ := write p c in write_all p cs
  end.

(** [f.flush ()], [f.flush (); os.fsync (f.fileno ())] and [f.close ()]:
    none changes what the file holds. *)
Definition flush (p : path) : IO unit := fallible.
Definition fsync (p : path) : IO unit :=
  let* _ := fallible in modify (log_event (EvSync p)).
Definition close (p : path) : IO unit := fallible.

(** [os.replace (src, dst)]: one atomic step. *)
Definition replace (src dst : path) : IO unit :=
  let* s := get_state in
  match fs s !! src with
  | None => raise FileNotFoundError
  | Some c => let* _ := fallible in modify (rename_file src dst c)
  end.

(** [os.remove (p)] *)
Definition remove (p : path) : IO unit :=
  let* s := get_state in
  match fs s !! p with
  | None => raise FileNotFoundError
  | Some _ => let* _ := fallible in modify (delete_file p)
  end.

(** The temporary-file generator: it proposes names until one is free,
    and gives up with [FileExistsError] when it has none left. *)
Fixpoint free_name (d prefix suffix : string) (files : gmap path Py.bytes)
    (names : list string) : option (path * list string) :=
  match names with
  | [] => None
  | n :: rest =>
      let p := (d, prefix +:+ n +:+ suffix) in
      match files !! p with
      | None => Some (p, rest)
      | Some _ => free_name d prefix suffix files rest
      end
  end.

(** [tempfile.mkstemp]: a new, empty file. *)
Definition mkstemp (prefix suffix d : string) : IO path :=
  let* _ := fallible in
  let* s := get_state in
  match free_name d prefix suffix (fs s) (entropy s) with
  | None => let* _ := modify (set_entropy []) in raise FileExistsError
  | Some (p, rest) =>
      let* _ := modify (fun s => put_file (EvCreate p) p [] (set_entropy rest s)) in
      ret p
  end.

(** [with lock: m] *)
Definition with_lock {A} (m : IO A) : IO A :=
  let* _ := modify (fun s => log_event EvAcquire (set_mem_lock true s)) in
  try_finally m (modify (fun s => log_event EvRelease (set_mem_lock false s))).

(** What else the programs take from their surroundings.  The tables
    of Unicode: [str.lower] and [str.isdigit]; the conversions the
    model leaves to Python: [str] of a float, a list or a dictionary,
    [float] of a string ([None] for [ValueError]), a float with a fixed
    number of decimals ([f"{x:.1f}"]), and [json.dump] with its default
    settings; the local clock: [int (datetime.now ().strftime ("%H"))],
    [time.strftime ("%Y%m%d-%H%M")], the stamp
    [datetime.now ().strftime ("%Y-%m-%d %H:%M:%S")] and [time.time ()];
    the speech engine, if [pyttsx3] gave one: whether [say] followed by
    [runAndWait] comes back for a text; which directories exist; and
    what [os.execv] raises, if it fails. *)
Record host : Type := Host {
  str_lower : Py.text -> Py.text;
  str_isdigit : Py.text -> bool;
  str_of_other : json -> Py.text;
  float_of_str : Py.text -> option spec_float;
  format_fixed : nat -> spec_float -> Py.text;
  json_dump_default : json -> list Py.bytes;
  now_hour : Z;
  strftime_minutes : string;
  local_stamp : Py.text;
  time_time : spec_float;
  engine : option (Py.text -> bool);
  isdir : string -> bool;
  execv : option exn
}.

(** ** Python operations on loaded values *)

(** [d.get (k, dflt)]: only a dictionary has the method. *)
Definition py_get (d : json) (k : Py.text) (dflt : json) : res json :=
  match d with
  | JDict kv => Ok (default dflt (dict_get k kv))
  | _ => Raise AttributeError
  end.

(** [k in c], [c[k]] and [c[k] = v] for a string [k]: a dictionary looks
    the key up, a string is searched for it, a list is searched for an
    equal element and cannot be indexed by it, and nothing else is a
    container. *)
Definition py_contains (c : json) (k : Py.text) : res bool :=
  match c with
  | JDict kv => Ok (bool_decide (is_Some (dict_get k kv)))
  | JStr s => Ok (Py.contains k s)
  | JList xs =>
      Ok (existsb (fun x => match x with JStr s => Py.text_eqb s k | _ => false end) xs)
  | _ => Raise TypeError
  end.

Definition py_getitem (c : json) (k : Py.text) : res json :=
  match c with
  | JDict kv => match dict_get k kv with Some v => Ok v | None => Raise KeyError end
  | _ => Raise TypeError
  end.

Definition py_setitem (c : json) (k : Py.text) (v : json) : res json :=
  match c with
  | JDict kv => Ok (JDict (dict_set k v kv))
  | _ => Raise TypeError
  end.

Section Runtime.
Variable rt : runtime.

(** [int (x)] *)
Definition py_int (x : json) : res Z :=
  match x with
  | JInt n => Ok n
  | JBool b => Ok (if b then 1 else 0)
  | JFloat f => int_of_float f
  | JStr s => match Py.int_of_str (decimal_of rt) s with
              | Some n => Ok n
              | None => Raise ValueError
              end
  | JNull | JList _ | JDict _ => Raise TypeError
  end.

(** Reading a whole text file with the strict codec. *)
Definition read_text (p : path) : IO Py.text :=
  let* b := read_file p in
  lift_opt UnicodeError (utf8_decode rt b).

(** Writing a string to an open text file. *)
Definition write_text (p : path) (t : Py.text) : IO unit :=
  let* b := lift_opt UnicodeError (utf8_encode rt t) in
  write p b.

(** [open (p, "a")]: the file is created when it is not there. *)
Definition open_append (p : path) : IO unit :=
  let* _ := fallible in
  let* s := get_state in
  match fs s !! p with
  | Some _ => ret tt
  | None => modify (put_file (EvCreate p) p [])
  end.

(** [json.load (open (p, encoding="utf-8"))] *)
Definition json_load (p : path) : IO json :=
  let* t := read_text p in
  lift_opt ValueError (json_loads rt t).

(** [json.dump (data, f, ensure_ascii=False, indent=2)] on the open
    file [p]. *)
Definition json_dump_to (data : json) (p : path) : IO unit :=
  write_all p (json_dump rt data).
End Runtime.

(** [open (p)] for reading: the file has to be there. *)
Definition open_read (p : path) : IO unit :=
  let* s := get_state in
  match fs s !! p with
  | None => raise FileNotFoundError
  | Some _ => fallible
  end.

Section Conversions.
Variable rt : runtime.
Variable hs : host.

(** [open (p, encoding="utf-8").read ()]: the text of a file, with the
    line ends as text mode gives them. *)
Definition read_text_universal (p : path) : IO Py.text :=
  let* t := read_text rt p in
  ret (Py.universal_newlines t).

(** [str (x)] *)
Definition py_str (x : json) : Py.text :=
  match x with
  | JStr s => s
  | JInt n => Py.str_of_int n
  | JBool true => Py.lit "True"
  | JBool false => Py.lit "False"
  | JNull => Py.lit "None"
  | JFloat _ | JList _ | JDict _ => str_of_other hs x
  end.
End Conversions.

(** ** Commands: what they print, the threads they start and the
    globals of a session *)

(** [len (x)] *)
Definition py_len (x : json) : res Z :=
  match x with
  | JStr s => Ok (Z.of_nat (length s))
  | JList xs => Ok (Z.of_nat (length xs))
  | JDict kv => Ok (Z.of_nat (length kv))
  | _ => Raise TypeError
  end.

(** [x[i]] for an index [i] that [%] has brought into range: an item
    of a list, a character of a string; a dictionary of a document has
    no integer key. *)
Definition py_index (x : json) (i : Z) : res json :=
  match x with
  | JList xs => match xs !! Z.to_nat i with Some v => Ok v | None => Raise KeyError end
  | JStr s => match s !! Z.to_nat i with Some c => Ok (JStr [c]) | None => Raise KeyError end
  | JDict _ => Raise KeyError
  | _ => Raise TypeError
  end.

(** [x[-n:]] for a positive [n] *)
Definition py_tail (n : Z) (x : json) : res json :=
  match x with
  | JList xs => Ok (JList (Py.last_n (Z.to_nat n) xs))
  | JStr s => Ok (JStr (Py.last_n (Z.to_nat n) s))
  | _ => Raise TypeError
  end.

(** [x == s] for a string [s] *)
Definition py_eq_str (x : json) (s : Py.text) : bool :=
  match x with
  | JStr t => Py.text_eqb t s
  | _ => false
  end.

(** [float (n)] for an integer: the nearest float, and [OverflowError]
    beyond the largest one. *)
Definition float_of_int (n : Z) : res spec_float :=
  match binary_normalize 53 1024 n 0 false with
  | S754_infinity _ => Raise OverflowError
  | f => Ok f
  end.

(** The floats [0.0] and [0.5]. *)
Definition float_zero : spec_float := S754_zero false.
Definition float_half : spec_float := S754_finite false 4503599627370496 (-53).

Section Floats.
Variable hs : host.

(** [float (x)] *)
Definition py_float (x : json) : res spec_float :=
  match x with
  | JFloat f => Ok f
  | JInt n => float_of_int n
  | JBool b => float_of_int (if b then 1 else 0)
  | JStr s => match float_of_str hs s with
              | Some f => Ok f
              | None => Raise ValueError
              end
  | JNull | JList _ | JDict _ => Raise TypeError
  end.

(** [f"{x:.nf}"] *)
Definition format_f (n : nat) (x : json) : res Py.text :=
  match x with
  | JFloat f => Ok (format_fixed hs n f)
  | JInt k => match float_of_int k with
              | Ok f => Ok (format_fixed hs n f)
              | Raise e => Raise e
              end
  | JBool b => match float_of_int (if b then 1 else 0) with
               | Ok f => Ok (format_fixed hs n f)
               | Raise e => Raise e
               end
  | JStr _ => Raise ValueError
  | JNull | JList _ | JDict _ => Raise TypeError
  end.
End Floats.

(** [x >= n] for an integer [n] that a float holds exactly *)
Definition py_ge_int (x : json) (n : Z) : res bool :=
  match x with
  | JInt k => Ok (n <=? k)
  | JBool b => Ok (n <=? (if b then 1 else 0))
  | JFloat f => match float_of_int n with
                | Ok g => Ok (SFleb g f)
                | Raise e => Raise e
                end
  | _ => Raise TypeError
  end.

(** A thread that a command starts, by its target. *)
Inductive job : Type :=
| SleepRoutine (countdown_sec : Z)
| BlackoutSequence
| HandleCommand (cmd : json).

(** The state of a session: the state of the program, the globals of
    the sleep and blackout protocols, the lines printed so far and the
    threads started so far (the newest first in both). *)
Record console : Type := Console {
  core : state;
  SLEEP_ACTIVE : bool;
  WAKE_AT : option (Z * Z);
  BLACKOUT_ACTIVE : bool;
  LAST_CMD_TS : spec_float;
  printed : list Py.text;
  started : list job
}.

Definition set_core (s : state) (c : console) : console :=
  Console s (SLEEP_ACTIVE c) (WAKE_AT c) (BLACKOUT_ACTIVE c) (LAST_CMD_TS c)
          (printed c) (started c).
Definition set_SLEEP_ACTIVE (b : bool) (c : console) : console :=
  Console (core c) b (WAKE_AT c) (BLACKOUT_ACTIVE c) (LAST_CMD_TS c)
          (printed c) (started c).
Definition set_WAKE_AT (w : option (Z * Z)) (c : console) : console :=
  Console (core c) (SLEEP_ACTIVE c) w (BLACKOUT_ACTIVE c) (LAST_CMD_TS c)
          (printed c) (started c).
Definition set_BLACKOUT_ACTIVE (b : bool) (c : console) : console :=
  Console (core c) (SLEEP_ACTIVE c) (WAKE_AT c) b (LAST_CMD_TS c)
          (printed c) (started c).
Definition set_LAST_CMD_TS (t : spec_float) (c : console) : console :=
  Console (core c) (SLEEP_ACTIVE c) (WAKE_AT c) (BLACKOUT_ACTIVE c) t
          (printed c) (started c).
Definition add_printed (line : Py.text) (c : console) : console :=
  Console (core c) (SLEEP_ACTIVE c) (WAKE_AT c) (BLACKOUT_ACTIVE c) (LAST_CMD_TS c)
          (line :: printed c) (started c).
Definition add_started (j : job) (c : console) : console :=
  Console (core c) (SLEEP_ACTIVE c) (WAKE_AT c) (BLACKOUT_ACTIVE c) (LAST_CMD_TS c)
          (printed c) (j :: started c).

(** How a command ends: it returns, it raises an exception that an
    [except Exception] would catch, or it raises [SystemExit], which
    none of them catches. *)
Inductive outcome (A : Type) : Type :=
| Done (a : A)
| Failed (e : exn)
| SystemExit.
Arguments Done {A} a.
Arguments Failed {A} e.
Arguments SystemExit {A}.

Definition Prog (A : Type) : Type := console -> outcome A * console.

Definition pret {A} (a : A) : Prog A := fun c => (Done a, c).
Definition pbind {A B} (m : Prog A) (k : A -> Prog B) : Prog B :=
  fun c => match m c with
           | (Done a, c') => k a c'
           | (Failed e, c') => (Failed e, c')
           | (SystemExit, c') => (SystemExit, c')
           end.

Notation "'let+' x ':=' m 'in' k" := (pbind m (fun x => k))
  (at level 10, x name, m at level 100, k at level 200).

(** A step of the program inside a command. *)
Definition io {A} (m : IO A) : Prog A :=
  fun c => match m (core c) with
           | (Ok a, s) => (Done a, set_core s c)
           | (Raise e, s) => (Failed e, set_core s c)
           end.

(** [try: m except Exception: h] *)
Definition ptry {A} (m : Prog A) (h : Prog A) : Prog A :=
  fun c => match m c with
           | (Failed _, c') => h c'
           | out => out
           end.

(** [print (a, b, ...)]: one line, the arguments a space apart. *)
Definition print (args : list Py.text) : Prog unit :=
  fun c => (Done tt, add_printed (Py.join (Py.lit " ") args) c).

(** [threading.Thread (target=..., daemon=True).start ()] *)
Definition start_thread (j : job) : Prog unit :=
  fun c => (Done tt, add_started j c).

Definition assign (f : console -> console) : Prog unit :=
  fun c => (Done tt, f c).

(** ** [Bn.py]: the daemon *)

Module BnDaemon.
Section Daemon.
Variable rt : runtime.
Variable ev : environ.

Definition STATE_DIR : string := BASE_DIR ev +:+ "/state".
Definition REC_DIR : string := STATE_DIR +:+ "/recovery".
Definition QUAR_DIR : string := STATE_DIR +:+ "/quarantine".

Definition MEM_PATH : path := (STATE_DIR, "memory.json"%string).
Definition WAL_PATH : path := (STATE_DIR, "memory.wal"%string).
Definition LOCK_PATH : path := (STATE_DIR, "bn.lock"%string).

Definition say (s : string) : json :=
  JDict [(Py.lit "type", JStr (Py.lit "say")); (Py.lit "text", JStr (Py.lit s))].

Definition default_memory : json :=
  JDict [
    (Py.lit "version", JInt 141);
    (Py.lit "created_utc", JStr (utc_iso ev));
    (Py.lit "last_repair_utc", JNull);
    (Py.lit "death_count", JInt 0);
    (Py.lit "learned", JList []);
    (Py.lit "facts", JDict []);
    (Py.lit "phases", JDict [
       (Py.lit "phase_persistence", JBool true);
       (Py.lit "current", JStr (Py.lit "Idle"))]);
    (Py.lit "vehicle", JDict [
       (Py.lit "make", JNull); (Py.lit "model", JNull); (Py.lit "year", JNull)]);
    (Py.lit "last_gps", JNull);
    (Py.lit "blackout", JDict [
       (Py.lit "minutes", JInt 60);
       (Py.lit "reminder_minutes", JInt 5);
       (Py.lit "posture", JStr (Py.lit "back"));
       (Py.lit "audio_file", JStr (Py.lit "loops/blackout.mp3"));
       (Py.lit "volume", JFloat float_one)]);
    (Py.lit "quiet_hours", JDict [
       (Py.lit "start", JInt 22); (Py.lit "end", JInt 6)]);
    (Py.lit "settings", JDict [
       (Py.lit "quiet", JBool false); (Py.lit "calm", JBool false);
       (Py.lit "enable_classroom", JBool false);
       (Py.lit "enable_autostudy", JBool false);
       (Py.lit "bones_mode", JBool false)]);
    (Py.lit "caretaker", JDict [
       (Py.lit "enabled", JBool true);
       (Py.lit "auto_on_blackout", JBool true);
       (Py.lit "inactivity_minutes", JInt 15);
       (Py.lit "interval_minutes", JInt 5);
       (Py.lit "program", JList [
          JDict [(Py.lit "type", JStr (Py.lit "say"));
                 (Py.lit "text", JStr (Py.lit "Slow breaths. In four" ++ [8230%N]
                                        ++ Py.lit " hold six" ++ [8230%N]
                                        ++ Py.lit " out four."))];
          say "Lay on your back. Unclench the jaw.";
          say "If you wake, sip water and stay resting."]);
       (Py.lit "_idx", JInt 0)])
  ].

(** Where [load_or_repair] puts a state file it cannot read. *)
Definition quarantine_path : path :=
  (QUAR_DIR, "memory.json.corrupt." +:+ strftime_seconds ev).

(** The repair attempt: the text up to its last closing brace, decoded
    with undecodable bytes dropped.  [Some] is a [return] out of the
    function, [None] falls through to the quarantine. *)
Definition repair_by_truncation : IO (option json) :=
  let* b := read_file MEM_PATH in
  let t := utf8_decode_ignore rt b in
  match Py.rfind 125 t with
  | Some i =>
      let* j := lift_opt ValueError (json_loads rt (take (i + 1)%nat t)) in
      ret (Some j)
  | None => ret None
  end.

Definition load_or_repair : IO json :=
  let* there := path_exists MEM_PATH in
  if negb there then ret default_memory
  else
    try_except (json_load rt MEM_PATH) (fun _ =>
      let* r := try_except repair_by_truncation (fun _ => ret None) in
      match r with
      | Some j => ret j
      | None =>
          let* _ := try_except (replace MEM_PATH quarantine_path)
                               (fun _ => ret tt) in
          ret default_memory
      end).

(** The module's top level: [mem = load_or_repair ()] and
    [_mem_dirty = False]. *)
Definition module_init : IO unit :=
  let* m := load_or_repair in
  modify (fun s => set_mem_dirty false (set_mem m s)).

(** An assignment to [_mem_dirty]; the log keeps whether the lock was
    held at that moment. *)
Definition assign_dirty (b : bool) : IO unit :=
  modify (fun s => log_event (EvSetDirty b (mem_lock s)) (set_mem_dirty b s)).

Definition mark_dirty : IO unit := with_lock (assign_dirty true).

Definition dirname_or_dot (p : path) : string :=
  if String.eqb (fst p) "" then "."%string else fst p.

Definition atomic_save_json (data : json) (p : path) : IO unit :=
  let d := dirname_or_dot p in
  let* tmp := mkstemp ".tmp_" "" d in
  try_finally
    (let* _ := json_dump_to rt data tmp in
     let* _ := fsync tmp in
     let* _ := close tmp in
     replace tmp p)
    (ignore_file_not_found (remove tmp)).

Definition save_memory : IO unit :=
  with_lock
    (let* s := get_state in
     let* _ := atomic_save_json (mem s) MEM_PATH in
     assign_dirty false).

(** A run of saves: each document in turn becomes the state document
    and is saved, a failed save being given up as [autosave_loop] and
    the end of [main] do. *)
Fixpoint save_each (docs : list json) : IO unit :=
  match docs with
  | [] => ret tt
  | d :: ds =>
      let* _ := modify (set_mem d) in
      let* _ := try_except save_memory (fun _ => ret tt) in
      save_each ds
  end.

(** [wal_log (event)]: one line appended to the journal, any failure
    swallowed. *)
Definition wal_log (event : Py.text) : IO unit :=
  try_except
    (let* _ := open_append WAL_PATH in
     let* _ := write_text rt WAL_PATH
                 (utc_iso ev ++ Py.lit " " ++ event ++ [10%N]) in
     close WAL_PATH)
    (fun _ => ret tt).

(** [sget (k)] *)
Definition sget (k : Py.text) : IO bool :=
  let* s := get_state in
  let* settings := lift_res (py_get (mem s) (Py.lit "settings") (JDict [])) in
  let* v := lift_res (py_get settings k (JBool false)) in
  ret (truthy v).

(** *** PID lock and death count *)

Definition write_lock : IO unit :=
  let* _ := open_truncate LOCK_PATH in
  let* _ := write_text rt LOCK_PATH
              (Py.str_of_int (getpid ev) ++ Py.lit "|" ++ utc_iso ev ++ [10%N]) in
  close LOCK_PATH.

Definition remove_lock : IO unit := ignore_file_not_found (remove LOCK_PATH).

(** [int ((text.strip ().split ("|") or ["0"])[0])] *)
Definition parse_pid (t : Py.text) : option Z :=
  let fields := match Py.split (Py.lit "|") (Py.strip t) with
                | [] => [Py.lit "0"]
                | l => l
                end in
  Py.int_of_str (decimal_of rt) (List.hd [] fields).

(** The first [try] of [cleanup_stale_lock]: [None] is Python's [None]. *)
Definition read_old_pid : IO (option Z) :=
  try_except
    (let* t := read_text rt LOCK_PATH in
     let* n := lift_opt ValueError (parse_pid t) in
     ret (Some n))
    (fun _ => ret None).

(** [os.kill (old_pid, 0)] *)
Definition probe (old_pid : option Z) : IO unit :=
  match old_pid with
  | None => raise TypeError
  | Some n => match kill0 ev n with
              | None => ret tt
              | Some e => raise e
              end
  end.

Definition cleanup_stale_lock : IO bool :=
  let* there := path_exists LOCK_PATH in
  if negb there then ret true
  else
    let* old_pid := read_old_pid in
    try_except
      (let* _ := probe old_pid in ret false)
      (fun _ => let* _ := remove_lock in ret true).

(** The first statements of [main], up to [write_lock ()]. *)
Definition count_death : IO unit :=
  let* s := get_state in
  let* d := lift_res (py_get (mem s) (Py.lit "death_count") (JInt 0)) in
  let* n := lift_res (py_int rt d) in
  match mem s with
  | JDict kv =>
      modify (set_mem (JDict (dict_set (Py.lit "death_count") (JInt (n + 1)) kv)))
  | _ => raise TypeError
  end.

Definition main_prologue : IO unit :=
  let* stale := cleanup_stale_lock in
  let* _ := if (stale : bool)
            then (let* _ := count_death in
                  let* _ := wal_log (Py.lit "death:1") in
                  mark_dirty)
            else ret tt in
  write_lock.

(** The [finally] of [main]. *)
Definition main_epilogue : IO unit :=
  let* _ := try_except save_memory (fun _ => ret tt) in
  remove_lock.

(** One turn of [autosave_loop], after its sleep. *)
Definition autosave_cycle : IO unit :=
  try_except
    (let* _ := sget (Py.lit "calm") in
     let* dirty := with_lock (let* s := get_state in ret (mem_dirty s)) in
     if (dirty : bool) then save_memory else ret tt)
    (fun _ => ret tt).

(** [autosave_loop], cut after [n] turns. *)
Fixpoint autosave_loop (n : nat) : IO unit :=
  match n with
  | O => ret tt
  | S k => let* _ := autosave_cycle in autosave_loop k
  end.

(** *** Learned items and settings *)

Variable hs : host.

Definition LOGS_DIR : string := BASE_DIR ev +:+ "/logs".
Definition OUTBOX_DIR : string := BASE_DIR ev +:+ "/outbox".
Definition CONFIG_PATH : path := (STATE_DIR, "config.json"%string).

(** [learn (item)] for a string. *)
Definition learn (item : Py.text) : IO unit :=
  let* s := get_state in
  match mem s with
  | JDict kv =>
      match default (JList []) (dict_get (Py.lit "learned") kv) with
      | JList xs =>
          let* _ := modify (set_mem (JDict (dict_set (Py.lit "learned")
                                              (JList (xs ++ [JStr item])) kv))) in
          let* _ := wal_log (Py.lit "learn:" ++ item) in
          mark_dirty
      | _ => raise AttributeError
      end
  | _ => raise AttributeError
  end.

(** [mem.setdefault (outer, {})[k] = v] *)
Definition setdefault_setitem (outer k : Py.text) (v : json) : IO unit :=
  let* s := get_state in
  match mem s with
  | JDict kv =>
      let* inner := lift_res (py_setitem (default (JDict []) (dict_get outer kv)) k v) in
      modify (set_mem (JDict (dict_set outer inner kv)))
  | _ => raise AttributeError
  end.

(** [sset (k, v)] for [v] one of [True] and [False]. *)
Definition sset (k : Py.text) (v : bool) : IO unit :=
  let* _ := setdefault_setitem (Py.lit "settings") k (JBool v) in
  let* _ := mark_dirty in
  save_memory.

(** *** Backups *)

Definition hourly_path : path :=
  (REC_DIR, "memory-hourly-" +:+ strftime_minutes hs +:+ ".json").

(** One turn of [hourly_backup_loop], before its sleep. *)
Definition hourly_backup_cycle : IO unit :=
  try_except
    (let* there := path_exists MEM_PATH in
     if (there : bool)
     then
       let* data := read_text_universal rt MEM_PATH in
       let* _ := open_truncate hourly_path in
       let* _ := write_text rt hourly_path data in
       close hourly_path
     else ret tt)
    (fun _ => ret tt).

Definition panic_path : path :=
  (REC_DIR, "panic-" +:+ strftime_seconds ev +:+ ".json").

(** [panic_snapshot ()]: both files are opened, the state file first,
    before anything is read. *)
Definition panic_snapshot : IO path :=
  let* _ := try_except
              (let* _ := open_read MEM_PATH in
               let* _ := open_truncate panic_path in
               let* data := read_text_universal rt MEM_PATH in
               let* _ := write_text rt panic_path data in
               close panic_path)
              (fun _ => ret tt) in
  ret panic_path.

(** *** Speech *)

Definition outbox_path : path :=
  (OUTBOX_DIR, "say-" +:+ strftime_seconds ev +:+ ".txt").

Definition outbox_write (text : Py.text) : IO unit :=
  try_except
    (let* _ := open_truncate outbox_path in
     let* _ := write_text rt outbox_path (Py.strip text ++ [10%N]) in
     close outbox_path)
    (fun _ => ret tt).

Definition within_quiet_hours : IO bool :=
  try_except
    (let* st := get_state in
     let* q := lift_res (py_get (mem st) (Py.lit "quiet_hours")
                           (JDict [(Py.lit "start", JInt 22); (Py.lit "end", JInt 6)])) in
     let h := now_hour hs in
     let* s0 := lift_res (py_getitem q (Py.lit "start")) in
     let* s := lift_res (py_int rt s0) in
     let* e0 := lift_res (py_getitem q (Py.lit "end")) in
     let* e := lift_res (py_int rt e0) in
     ret ((s <=? h) || (h <? e)))
    (fun _ => ret false).

(** [speech.speak (text)] *)
Definition speak (text : Py.text) : IO bool :=
  let* _ := outbox_write text in
  match engine hs with
  | None => ret false
  | Some utter =>
      let* muted := sget (Py.lit "quiet") in
      if (muted : bool) then ret false
      else
        let* hush := within_quiet_hours in
        if (hush : bool) then ret false else ret (utter text)
  end.

(** [say (text)] of the source (here [say] names the steps of the
    default program): [text] is a string in most calls, and whatever
    a step of the caretaker program holds in one. *)
Definition say_msg (text : json) : IO unit :=
  let* msg := (if truthy text
               then match text with
                    | JStr t => ret (Py.strip t)
                    | _ => raise AttributeError
                    end
               else ret []) in
  match msg with
  | [] => ret tt
  | _ :: _ => let* _ := speak msg in ret tt
  end.

(** *** Vehicle and wake time *)

Definition vehicle_string : IO Py.text :=
  let* s := get_state in
  let* v0 := lift_res (py_get (mem s) (Py.lit "vehicle") JNull) in
  let v := if truthy v0 then v0 else JDict [] in
  let* mk := lift_res (py_get v (Py.lit "make") JNull) in
  let* md := lift_res (py_get v (Py.lit "model") JNull) in
  let* yr := lift_res (py_get v (Py.lit "year") JNull) in
  match List.map (py_str hs) (List.filter truthy [yr; mk; md]) with
  | [] => ret (Py.lit "no vehicle set")
  | parts => ret (Py.join (Py.lit " ") parts)
  end.

Definition parse_hhmm (s : Py.text) : option (Z * Z) :=
  match Py.split (Py.lit ":") (Py.strip s) with
  | [hh; mm] =>
      match Py.int_of_str (decimal_of rt) hh, Py.int_of_str (decimal_of rt) mm with
      | Some h, Some m =>
          if (0 <=? h) && (h <? 24) && (0 <=? m) && (m <? 60)
          then Some (h, m) else None
      | _, _ => None
      end
  | _ => None
  end.

(** *** The vehicle of the configuration file *)

(** The dictionary [load_config_vehicle] hands to [update]: every
    default is looked up, whether it is needed or not. *)
Definition vehicle_update (veh vehicle : json) : res (list (Py.text * json)) :=
  let field k :=
    match py_getitem vehicle k with
    | Raise e => Raise e
    | Ok old => match py_get veh k old with
                | Raise e => Raise e
                | Ok v => Ok (k, v)
                end
    end in
  match field (Py.lit "make") with
  | Raise e => Raise e
  | Ok a =>
      match field (Py.lit "model") with
      | Raise e => Raise e
      | Ok b =>
          match field (Py.lit "year") with
          | Raise e => Raise e
          | Ok c => Ok [a; b; c]
          end
      end
  end.

(** [d.update (pairs)] *)
Definition dict_update (pairs kv : list (Py.text * json)) : list (Py.text * json) :=
  fold_left (fun acc p => dict_set (fst p) (snd p) acc) pairs kv.

Definition load_config_vehicle : IO unit :=
  let* there := path_exists CONFIG_PATH in
  if negb there then ret tt
  else
    try_except
      (let* cfg := json_load rt CONFIG_PATH in
       let* v0 := lift_res (py_get cfg (Py.lit "vehicle") JNull) in
       let veh := if truthy v0 then v0 else JDict [] in
       let* mk := lift_res (py_get veh (Py.lit "make") JNull) in
       let* md := lift_res (py_get veh (Py.lit "model") JNull) in
       let* yr := lift_res (py_get veh (Py.lit "year") JNull) in
       if truthy mk || truthy md || truthy yr
       then
         let* s := get_state in
         let* vehicle := lift_res (py_getitem (mem s) (Py.lit "vehicle")) in
         match vehicle with
         | JDict vkv =>
             let* pairs := lift_res (vehicle_update veh vehicle) in
             let* m := lift_res (py_setitem (mem s) (Py.lit "vehicle")
                                   (JDict (dict_update pairs vkv))) in
             let* _ := modify (set_mem m) in
             mark_dirty
         | _ => raise AttributeError
         end
       else ret tt)
      (fun _ => ret tt).

(** *** Commands *)

Definition PLAY_REQ_PATH : path := (STATE_DIR, "play_request.json"%string).

(** A path as the string [os.path.join] made of it. *)
Definition path_text (p : path) : Py.text := Py.lit (fst p +:+ "/" +:+ snd p).

(** [request_player (action, file, loop, volume)] with [loop] one of
    [True] and [False]. *)
Definition request_player (action : Py.text) (file : json) (loop : bool)
    (volume : json) : IO unit :=
  try_except
    (let* _ := open_truncate PLAY_REQ_PATH in
     let* _ := write_all PLAY_REQ_PATH
                 (json_dump_default hs
                    (JDict [(Py.lit "action", JStr action);
                            (Py.lit "file", file);
                            (Py.lit "loop", JBool loop);
                            (Py.lit "volume", volume);
                            (Py.lit "ts", JStr (utc_iso ev))])) in
     close PLAY_REQ_PATH)
    (fun _ => ret tt).

(** [mem[outer][k] = v] *)
Definition nested_setitem (outer k : Py.text) (v : json) : IO unit :=
  let* s := get_state in
  let* inner := lift_res (py_getitem (mem s) outer) in
  let* inner' := lift_res (py_setitem inner k v) in
  let* m := lift_res (py_setitem (mem s) outer inner') in
  modify (set_mem m).

(** [mem["phases"]["current"] = name; wal_log (f"phase:{name}");
    mark_dirty ()] *)
Definition set_phase (name : Py.text) : IO unit :=
  let* _ := nested_setitem (Py.lit "phases") (Py.lit "current") (JStr name) in
  let* _ := wal_log (Py.lit "phase:" ++ name) in
  mark_dirty.

Definition suggestions : IO (list Py.text) :=
  let* muted := sget (Py.lit "quiet") in
  let s1 := if (muted : bool)
            then [Py.lit "Quiet mode ON " ++ [8212%N]
                  ++ Py.lit " turn it OFF if you want spoken responses."]
            else [] in
  let* st := get_state in
  let* g0 := lift_res (py_get (mem st) (Py.lit "last_gps") JNull) in
  let g := if truthy g0 then g0 else JDict [] in
  let* s2 := try_except
               (let* v := lift_res (py_get g (Py.lit "speed_kph") (JFloat float_zero)) in
                let* sp := lift_res (py_float hs v) in
                if SFltb float_half sp
                then ret [Py.lit "Moving " ++ format_fixed hs 1 sp ++ Py.lit " kph "
                          ++ [8212%N] ++ Py.lit " sleep/blackout require 'force'."]
                else ret [])
               (fun _ => ret []) in
  let* d := lift_res (py_get (mem st) (Py.lit "death_count") (JInt 0)) in
  let* high := lift_res (py_ge_int d 3) in
  let s3 := if (high : bool)
            then [Py.lit "High death count " ++ [8212%N]
                  ++ Py.lit " consider sturdier power/cable."]
            else [] in
  let* classroom := sget (Py.lit "enable_classroom") in
  let* off := (if negb classroom then ret true
               else let* autostudy := sget (Py.lit "enable_autostudy") in
                    ret (negb autostudy)) in
  let s4 := if (off : bool)
            then [Py.lit "Background study OFF " ++ [8212%N]
                  ++ Py.lit " enable with 'study on' if you want automatic logs."]
            else [] in
  ret (s1 ++ s2 ++ s3 ++ s4
       ++ [Py.lit "Tip: Add http://127.0.0.1:8765 to Home screen for one-tap control."]).

Definition selfcheck : Prog unit :=
  let missing :=
    List.map (fun p => Py.lit "missing dir:" ++ Py.lit p)
             (List.filter (fun p => negb (isdir hs p))
                          [STATE_DIR; LOGS_DIR; OUTBOX_DIR; REC_DIR]) in
  let+ there := io (path_exists MEM_PATH) in
  let issues := missing ++ (if (there : bool) then []
                            else [Py.lit "missing memory.json"]) in
  print [Py.lit "Selfcheck:";
         match issues with
         | [] => Py.lit "OK"
         | _ :: _ => Py.join (Py.lit "; ") issues
         end].

(** [x or ""] for a string or [None] *)
Definition or_empty (x : json) : Py.text :=
  match x with JStr s => s | _ => [] end.

Definition vehicle_set_from_parts (parts : list Py.text) : Prog unit :=
  let year := match parts with
              | p :: _ => if str_isdigit hs p then JStr p else JNull
              | [] => JNull
              end in
  let rest := if truthy year then List.tl parts else parts in
  let make := match rest with r :: _ => JStr r | [] => JNull end in
  let model := if (1 <? length rest)%nat
               then JStr (Py.join (Py.lit " ") (List.tl rest)) else JNull in
  let+ s := io get_state in
  let+ m := io (lift_res (py_setitem (mem s) (Py.lit "vehicle")
                   (JDict [(Py.lit "year", year); (Py.lit "make", make);
                           (Py.lit "model", model)]))) in
  let+ _ := io (modify (set_mem m)) in
  let+ _ := io (wal_log (Py.strip (Py.lit "vehicle:" ++ or_empty year ++ Py.lit " "
                                  ++ or_empty make ++ Py.lit " " ++ or_empty model))) in
  let+ _ := io mark_dirty in
  let+ v := io vehicle_string in
  print [Py.lit "Vehicle set:"; v].

Definition caretaker_tick : Prog unit :=
  let+ st := io get_state in
  let+ c := io (lift_res (py_get (mem st) (Py.lit "caretaker") (JDict []))) in
  let+ prog := io (lift_res (py_get c (Py.lit "program") (JList []))) in
  if negb (truthy prog) then pret tt
  else
    let+ i0 := io (lift_res (py_get c (Py.lit "_idx") (JInt 0))) in
    let+ idx := io (lift_res (py_int rt i0)) in
    let+ n := io (lift_res (py_len prog)) in
    let+ step := io (lift_res (py_index prog (idx mod n))) in
    let+ c' := io (lift_res (py_setitem c (Py.lit "_idx")
                               (JInt ((idx + 1) mod Z.max 1 n)))) in
    let+ m := io (lift_res (py_setitem (mem st) (Py.lit "caretaker") c')) in
    let+ _ := io (modify (set_mem m)) in
    let+ _ := io mark_dirty in
    ptry
      (let+ kind := io (lift_res (py_get step (Py.lit "type") JNull)) in
       if py_eq_str kind (Py.lit "say")
       then let+ text := io (lift_res (py_get step (Py.lit "text") (JStr []))) in
            io (say_msg text)
       else if py_eq_str kind (Py.lit "cmd")
       then let+ cmd := io (lift_res (py_get step (Py.lit "cmd") (JStr []))) in
            start_thread (HandleCommand cmd)
       else pret tt)
      (pret tt).

Definition HELP_TEXT : Py.text := Py.lit "
Commands:
  say <text> | remember <text> | learned [n] | study <topic> | study on|off | bones on|off
  phase <name> | vehicle <year> <make> <model>
  status | where | save | selfcheck | suggest
  quiet on|off | calm on|off | quiet hours <start> <end> | panic save
  caretaker on|off | caretaker interval <min> | caretaker idle <min> | caretaker auto_blackout on|off
  caretaker add say <text> | caretaker add cmd <command> | caretaker list | caretaker clear
  sleep now | sleep in <secs> | sleep force | sleep cancel | wake at HH:MM | wake
  blackout start | blackout stop | blackout force
  blackout set <minutes|reminder|posture|file|volume> <value>
  help | exit | quit
".

(** [x in (a, b, ...)] for strings *)
Definition one_of (x : Py.text) (options : list string) : bool :=
  existsb (fun o => Py.text_eqb x (Py.lit o)) options.

(** [int (s)] inside a [try]. *)
Definition int_of (s : Py.text) : IO Z :=
  lift_opt ValueError (Py.int_of_str (decimal_of rt) s).

(** A switch: [sset (k, v)] and the line that reports it. *)
Definition switch (k : Py.text) (v : bool) (line : Py.text) : Prog unit :=
  let+ _ := io (sset k v) in print [line].

(** The [status] command. *)
Definition cmd_status : Prog unit :=
  let+ s := io get_state in
  let+ phases := io (lift_res (py_get (mem s) (Py.lit "phases") (JDict []))) in
  let+ cur := io (lift_res (py_get phases (Py.lit "current") (JStr (Py.lit "Idle")))) in
  let+ _ := print [Py.lit "Current phase: " ++ py_str hs cur] in
  let+ learned := io (lift_res (py_get (mem s) (Py.lit "learned") (JList []))) in
  let+ n := io (lift_res (py_len learned)) in
  let+ _ := print [Py.lit "Learned items: " ++ Py.str_of_int n] in
  let+ facts := io (lift_res (py_get (mem s) (Py.lit "facts") (JDict []))) in
  let+ k := io (lift_res (py_len facts)) in
  let+ _ := print [Py.lit "Facts: " ++ Py.str_of_int k] in
  let+ d := io (lift_res (py_get (mem s) (Py.lit "death_count") (JInt 0))) in
  let+ _ := print [Py.lit "Deaths: " ++ py_str hs d] in
  let+ v := io vehicle_string in
  print [Py.lit "Vehicle: " ++ v].

(** The [where] command. *)
Definition cmd_where : Prog unit :=
  let+ v := io vehicle_string in
  let+ s := io get_state in
  let+ g := io (lift_res (py_get (mem s) (Py.lit "last_gps") JNull)) in
  let+ _ := print [Py.lit "Vehicle: " ++ v] in
  if truthy g
  then
    let field k n := io (let* x := lift_res (py_getitem g (Py.lit k)) in
                         lift_res (format_f hs n x)) in
    let+ lat := field "lat"%string 5%nat in
    let+ lon := field "lon"%string 5%nat in
    let+ speed := field "speed_kph"%string 1%nat in
    let+ heading := field "heading"%string 0%nat in
    let+ ts := io (lift_res (py_getitem g (Py.lit "ts"))) in
    print [Py.lit "GPS: lat " ++ lat ++ Py.lit ", lon " ++ lon ++ Py.lit ", speed "
           ++ speed ++ Py.lit " kph, heading " ++ heading ++ [176%N] ++ Py.lit ", ts "
           ++ py_str hs ts]
  else print [Py.lit "GPS: (no data yet " ++ [8212%N]
              ++ Py.lit " write state/gps_source.json)"].

(** The [learned] command. *)
Definition cmd_learned (c : Py.text) : Prog unit :=
  let n := match Py.split_ws c with
           | _ :: x :: _ => default 10 (Py.int_of_str (decimal_of rt) x)
           | _ => 10
           end in
  let+ s := io get_state in
  let+ items := io (lift_res (py_get (mem s) (Py.lit "learned") (JList []))) in
  let+ tail := (if 0 <? n then io (lift_res (py_tail n items)) else pret (JList [])) in
  if negb (truthy tail) then print [Py.lit "(no learned items yet)"]
  else
    let each := fix each (xs : list json) : Prog unit :=
      match xs with
      | [] => pret tt
      | it :: rest => let+ _ := print [Py.lit "-"; py_str hs it] in each rest
      end in
    match tail with
    | JList xs => each xs
    | JStr t => each (List.map (fun ch => JStr [ch]) t)
    | _ => pret tt
    end.

(** The [quiet hours] command. *)
Definition cmd_quiet_hours (c : Py.text) : Prog unit :=
  ptry
    (match Py.split_ws c with
     | [_; a; b] =>
         let+ start := io (int_of a) in
         let+ _ := io (nested_setitem (Py.lit "quiet_hours") (Py.lit "start") (JInt start)) in
         let+ stop := io (int_of b) in
         let+ _ := io (nested_setitem (Py.lit "quiet_hours") (Py.lit "end") (JInt stop)) in
         let+ _ := io mark_dirty in
         let+ _ := io save_memory in
         let+ s := io get_state in
         let+ q := io (lift_res (py_getitem (mem s) (Py.lit "quiet_hours"))) in
         print [Py.lit "Quiet hours set:"; py_str hs q]
     | _ => io (raise ValueError)
     end)
    (print [Py.lit "Usage: quiet hours <startHour> <endHour> (24h)"]).

(** [mem.setdefault ("caretaker", {})[k] = v; mark_dirty (); save_memory ()] *)
Definition caretaker_set (k : Py.text) (v : json) : IO unit :=
  let* _ := setdefault_setitem (Py.lit "caretaker") k v in
  let* _ := mark_dirty in
  save_memory.

(** The [caretaker interval] and [caretaker idle] commands. *)
Definition cmd_caretaker_minutes (c k : Py.text) (reply usage : Py.text) : Prog unit :=
  ptry
    (let+ m := io (int_of (List.last (Py.split_ws c) [])) in
     let+ _ := io (caretaker_set k (JInt (Z.max 1 m))) in
     print [reply ++ Py.str_of_int m ++ Py.lit " min"])
    (print [usage]).

(** [ct = mem.setdefault ("caretaker", {});
    ct.setdefault ("program", []).append (step)] *)
Definition caretaker_append (step : json) : IO unit :=
  let* s := get_state in
  match mem s with
  | JDict kv =>
      match default (JDict []) (dict_get (Py.lit "caretaker") kv) with
      | JDict ct =>
          match default (JList []) (dict_get (Py.lit "program") ct) with
          | JList prog =>
              modify (set_mem (JDict (dict_set (Py.lit "caretaker")
                        (JDict (dict_set (Py.lit "program") (JList (prog ++ [step])) ct))
                        kv)))
          | _ => raise AttributeError
          end
      | _ => raise AttributeError
      end
  | _ => raise AttributeError
  end.

(** The [caretaker add say] and [caretaker add cmd] commands. *)
Definition cmd_caretaker_add (step : json) (reply : Py.text) : Prog unit :=
  let+ _ := io (caretaker_append step) in
  let+ _ := io mark_dirty in
  let+ _ := io save_memory in
  print [reply].

(** The [caretaker list] command. *)
Definition cmd_caretaker_list : Prog unit :=
  let+ s := io get_state in
  let+ ct := io (match mem s with
                 | JDict kv =>
                     match dict_get (Py.lit "caretaker") kv with
                     | Some ct => ret ct
                     | None =>
                         let* _ := modify (set_mem (JDict (dict_set (Py.lit "caretaker")
                                                             (JDict []) kv))) in
                         ret (JDict [])
                     end
                 | _ => raise AttributeError
                 end) in
  let+ prog := io (lift_res (py_get ct (Py.lit "program") (JList []))) in
  if negb (truthy prog) then print [Py.lit "(empty)"]
  else
    let each := fix each (i : Z) (xs : list json) : Prog unit :=
      match xs with
      | [] => pret tt
      | st :: rest =>
          let+ kind := io (lift_res (py_get st (Py.lit "type") JNull)) in
          let+ _ := (if py_eq_str kind (Py.lit "say")
                     then let+ t := io (lift_res (py_get st (Py.lit "text") (JStr []))) in
                          print [Py.str_of_int i ++ Py.lit ". say: " ++ py_str hs t]
                     else let+ t := io (lift_res (py_get st (Py.lit "cmd") (JStr []))) in
                          print [Py.str_of_int i ++ Py.lit ". cmd: " ++ py_str hs t]) in
          each (i + 1) rest
      end in
    match prog with
    | JList xs => each 1 xs
    | JStr _ | JDict _ => io (raise AttributeError)
    | _ => io (raise TypeError)
    end.

(** The [blackout set] command. *)
Definition cmd_blackout_set (c : Py.text) : Prog unit :=
  let parts := Py.split_ws c in
  ptry
    (match parts !! 2%nat with
     | None => io (raise ValueError)
     | Some key =>
         let val := Py.join (Py.lit " ") (drop 3 parts) in
         let+ s := io get_state in
         let+ b := io (match mem s with
                       | JDict kv =>
                           match dict_get (Py.lit "blackout") kv with
                           | Some b => ret b
                           | None =>
                               let* _ := modify (set_mem (JDict (dict_set (Py.lit "blackout")
                                                                   (JDict []) kv))) in
                               ret (JDict [])
                           end
                       | _ => raise AttributeError
                       end) in
         let store k (v : IO json) : Prog bool :=
           let+ x := io v in
           let+ b' := io (lift_res (py_setitem b k x)) in
           let+ s' := io get_state in
           let+ m := io (lift_res (py_setitem (mem s') (Py.lit "blackout") b')) in
           let+ _ := io (modify (set_mem m)) in
           pret true in
         let+ known :=
           (if Py.text_eqb key (Py.lit "minutes")
            then store (Py.lit "minutes") (let* n := int_of val in ret (JInt n))
            else if one_of key ["reminder"; "reminder_minutes"]%string
            then store (Py.lit "reminder_minutes") (let* n := int_of val in ret (JInt n))
            else if Py.text_eqb key (Py.lit "posture")
            then store (Py.lit "posture") (ret (JStr (str_lower hs (Py.strip val))))
            else if Py.text_eqb key (Py.lit "file")
            then store (Py.lit "audio_file") (ret (JStr (Py.strip val)))
            else if Py.text_eqb key (Py.lit "volume")
            then store (Py.lit "volume")
                       (let* f := lift_res (py_float hs (JStr val)) in ret (JFloat f))
            else let+ _ := print [Py.lit "Keys: minutes | reminder | posture | file | volume"] in
                 pret false) in
         if (known : bool)
         then
           let+ _ := io mark_dirty in
           let+ _ := io save_memory in
           let+ s' := io get_state in
           let+ cfg := io (lift_res (py_getitem (mem s') (Py.lit "blackout"))) in
           print [Py.lit "Blackout config:"; py_str hs cfg]
         else pret tt
     end)
    (print [Py.lit "Usage: blackout set <minutes|reminder|posture|file|volume> <value>"]).

(** [mem["phases"]["current"] = "Idle"] and what follows it in the
    commands that end a protocol. *)
Definition back_to_idle (line : Py.text) : Prog unit :=
  let+ _ := io (set_phase (Py.lit "Idle")) in
  io (say_msg (JStr line)).

Definition handle_command (cmd : json) : Prog unit :=
  let+ _ := assign (set_LAST_CMD_TS (time_time hs)) in
  let+ c := io (if truthy cmd
                then match cmd with
                     | JStr t => ret (Py.strip t)
                     | _ => raise AttributeError
                     end
                else ret []) in
  match c with
  | [] => pret tt
  | _ :: _ =>
  let low := str_lower hs c in
  let equals s := Py.text_eqb low (Py.lit s) in
  let starts s := Py.starts_with (Py.lit s) low in
  if one_of low ["help"; "?"]%string then print [HELP_TEXT]
  else if starts "say "%string then
    let msg := Py.strip (drop 4 c) in
    let+ _ := io (say_msg (JStr msg)) in print [msg]
  else if starts "remember "%string then
    let fact := Py.strip (drop 9 c) in
    let+ _ := io (setdefault_setitem (Py.lit "facts") (Py.lit "note@" ++ utc_iso ev)
                    (JStr fact)) in
    let+ _ := io (wal_log (Py.lit "remember:" ++ fact)) in
    let+ _ := io mark_dirty in
    print [Py.lit "OK, stored."]
  else if starts "study "%string then
    let+ _ := io (learn (Py.lit "studied:" ++ Py.strip (drop 6 c))) in
    print [Py.lit "Studying" ++ [8230%N]]
  else if equals "study on"%string then
    let+ _ := io (sset (Py.lit "enable_classroom") true) in
    switch (Py.lit "enable_autostudy") true (Py.lit "Study threads ON.")
  else if equals "study off"%string then
    let+ _ := io (sset (Py.lit "enable_classroom") false) in
    switch (Py.lit "enable_autostudy") false (Py.lit "Study threads OFF.")
  else if starts "phase "%string then
    let name := match Py.strip (drop 6 c) with [] => Py.lit "Idle" | n => n end in
    let+ _ := io (set_phase name) in
    print [Py.lit "Phase set -> " ++ name]
  else if starts "vehicle "%string then vehicle_set_from_parts (List.tl (Py.split_ws c))
  else if equals "status"%string then cmd_status
  else if equals "where"%string then cmd_where
  else if one_of low ["save"; "sync"]%string then
    let+ _ := io save_memory in print [Py.lit "Saved."]
  else if equals "selfcheck"%string then selfcheck
  else if equals "suggest"%string then
    let+ lines := io suggestions in
    (fix each (ls : list Py.text) : Prog unit :=
       match ls with
       | [] => pret tt
       | l :: rest => let+ _ := print [Py.lit "-"; l] in each rest
       end) lines
  else if starts "learned"%string then cmd_learned c
  else if equals "bones on"%string then
    switch (Py.lit "bones_mode") true
           (Py.lit "Bones mode ON. " ++ [8220%N] ++ Py.lit "I" ++ [8217%N]
            ++ Py.lit "m a doctor, not a mechanic." ++ [8221%N])
  else if equals "bones off"%string then
    switch (Py.lit "bones_mode") false (Py.lit "Bones mode OFF.")
  else if equals "quiet on"%string then switch (Py.lit "quiet") true (Py.lit "Quiet mode ON.")
  else if equals "quiet off"%string then switch (Py.lit "quiet") false (Py.lit "Quiet mode OFF.")
  else if equals "calm on"%string then switch (Py.lit "calm") true (Py.lit "Calm mode ON.")
  else if equals "calm off"%string then switch (Py.lit "calm") false (Py.lit "Calm mode OFF.")
  else if starts "quiet hours "%string then cmd_quiet_hours c
  else if equals "panic save"%string then
    let+ _ := io save_memory in
    let+ _ := print [Py.lit "Saved."] in
    let+ dst := io panic_snapshot in
    print [Py.lit "Snapshot:"; path_text dst]
  else if equals "caretaker on"%string then
    let+ _ := io (caretaker_set (Py.lit "enabled") (JBool true)) in
    print [Py.lit "Caretaker: ON"]
  else if equals "caretaker off"%string then
    let+ _ := io (caretaker_set (Py.lit "enabled") (JBool false)) in
    print [Py.lit "Caretaker: OFF"]
  else if starts "caretaker interval "%string then
    cmd_caretaker_minutes c (Py.lit "interval_minutes")
      (Py.lit "Caretaker interval set to ") (Py.lit "Usage: caretaker interval <minutes>")
  else if starts "caretaker idle "%string then
    cmd_caretaker_minutes c (Py.lit "inactivity_minutes")
      (Py.lit "Caretaker idle threshold set to ") (Py.lit "Usage: caretaker idle <minutes>")
  else if starts "caretaker auto_blackout "%string then
    let flag := one_of (str_lower hs (List.last (Py.split_ws c) []))
                       ["on"; "true"; "1"; "yes"]%string in
    let+ _ := io (caretaker_set (Py.lit "auto_on_blackout") (JBool flag)) in
    print [Py.lit "Caretaker auto_on_blackout = " ++ py_str hs (JBool flag)]
  else if starts "caretaker add say "%string then
    cmd_caretaker_add (JDict [(Py.lit "type", JStr (Py.lit "say"));
                              (Py.lit "text", JStr (Py.strip (drop 18 c)))])
                      (Py.lit "Added say-line.")
  else if starts "caretaker add cmd "%string then
    cmd_caretaker_add (JDict [(Py.lit "type", JStr (Py.lit "cmd"));
                              (Py.lit "cmd", JStr (Py.strip (drop 18 c)))])
                      (Py.lit "Added cmd-step.")
  else if equals "caretaker list"%string then cmd_caretaker_list
  else if equals "caretaker clear"%string then
    let+ _ := io (caretaker_set (Py.lit "program") (JList [])) in
    print [Py.lit "Caretaker program cleared."]
  else if equals "sleep now"%string then start_thread (SleepRoutine 30)
  else if starts "sleep in "%string then
    start_thread (SleepRoutine
      (default 60 (Py.int_of_str (decimal_of rt) (List.last (Py.split_ws c) []))))
  else if equals "sleep force"%string then start_thread (SleepRoutine 15)
  else if one_of low ["sleep cancel"; "cancel sleep"]%string then
    let+ _ := assign (set_SLEEP_ACTIVE false) in
    back_to_idle (Py.lit "Sleep cancelled.")
  else if starts "wake at "%string then
    match parse_hhmm (List.last (Py.split_ws c) []) with
    | Some (hh, mm) =>
        let+ _ := assign (set_WAKE_AT (Some (hh, mm))) in
        io (say_msg (JStr (Py.lit "Wake alarm set for " ++ Py.fmt02 hh ++ Py.lit ":"
                           ++ Py.fmt02 mm ++ Py.lit ".")))
    | None => print [Py.lit "Usage: wake at HH:MM"]
    end
  else if one_of low ["wake"; "wake now"]%string then
    let+ _ := assign (set_SLEEP_ACTIVE false) in
    let+ _ := assign (set_WAKE_AT None) in
    back_to_idle (Py.lit "Wake now.")
  else if equals "blackout start"%string then start_thread BlackoutSequence
  else if equals "blackout force"%string then start_thread BlackoutSequence
  else if equals "blackout stop"%string then
    let+ _ := assign (set_BLACKOUT_ACTIVE false) in
    let+ _ := io (request_player (Py.lit "stop") JNull true JNull) in
    back_to_idle (Py.lit "Blackout stopped.")
  else if starts "blackout set "%string then cmd_blackout_set c
  else if one_of low ["exit"; "quit"]%string then (fun k => (SystemExit, k))
  else print [Py.lit "Unknown command. Type 'help'."]
  end.
End Daemon.
End BnDaemon.

(** ** [bn.py]: the updater *)

(** [OSError] and its subclasses. *)
Definition is_oserror (e : exn) : bool :=
  match e with
  | OSError | FileNotFoundError | FileExistsError | ProcessLookupError
  | PermissionError => true
  | _ => false
  end.

(** [shutil.copy2 (src, dst)]: the contents, then the metadata. *)
Definition copy2 (src dst : path) : IO unit :=
  let* data := read_file src in
  let* _ := open_truncate dst in
  let* _ := write dst data in
  let* _ := close dst in
  fallible.

(** [shutil.move (src, dst)] for two files: a rename, and where the
    rename fails (another file system, or a platform whose rename does
    not replace) a copy followed by the removal of the source. *)
Definition move (src dst : path) : IO unit :=
  fun s => match replace src dst s with
           | (Ok a, s') => (Ok a, s')
           | (Raise e, s') =>
               if is_oserror e
               then (let* _ := copy2 src dst in remove src) s'
               else (Raise e, s')
           end.

(** What [safe_update] returns: each constructor is one of its strings. *)
Inductive update_msg : Type :=
| FetchError (e : exn)                     (* "fetch error: ..." *)
| RejectNotBN                              (* "reject: not a BN file" *)
| RejectMissingVersion                     (* "reject: missing version" *)
| UpToDate (remote local_ : Py.text)       (* "up-to-date (remote .. <= local ..)" *)
| RejectMissingSignature                   (* "reject: missing Nova-Signature" *)
| RejectKeyNotSet                          (* "reject: nova_key not set ..." *)
| RejectSignatureMismatch                  (* "reject: signature mismatch" *)
| SwapError (e : exn)                      (* "write/swap error: ..." *)
| UpdatedTo (remote sha12 : Py.text).      (* "updated to .. (sha256 ..)" *)

(** [msg.startswith ("updated to ")] *)
Definition starts_with_updated_to (m : update_msg) : bool :=
  match m with UpdatedTo _ _ => true | _ => false end.

Module BnUpdater.
Section Updater.
Variable rt : runtime.
Variable ev : environ.
(** The configuration switch of the signature gate. *)
Variable SIGNATURE_REQUIRED : bool.

Definition CURRENT_VERSION : Py.text := Py.lit "14.5".
Definition GITHUB_RAW_URL : string :=
  "https://raw.githubusercontent.com/Sallen81570/BN_core/main/bn.py".
Definition MEM_PATH : path := (""%string, "bn_memory.json"%string).
Definition SIGNATURE_HEADER : Py.text := Py.lit "Nova-Signature".
Definition DEFAULT_AUTO_MINUTES : Z := 60.

Definition DEFAULT_FLAGS : list (Py.text * json) :=
  [(Py.lit "phase_persistence", JBool true);
   (Py.lit "web_ui_enabled", JBool false);
   (Py.lit "auto_update_enabled", JBool false)].

Definition DEFAULT_MEM : list (Py.text * json) :=
  [(Py.lit "identity", JStr (Py.lit "ownself"));
   (Py.lit "name", JNull);
   (Py.lit "revision_count", JInt 0);
   (Py.lit "created_at", JNull);
   (Py.lit "updated_at", JNull);
   (Py.lit "flags", JDict DEFAULT_FLAGS);
   (Py.lit "auto_update_minutes", JInt DEFAULT_AUTO_MINUTES);
   (Py.lit "last_update_check", JNull);
   (Py.lit "last_update_result", JNull);
   (Py.lit "nova_key", JNull);
   (Py.lit "module_whitelist",
      JList [JStr (Py.lit "web_ui"); JStr (Py.lit "classroom"); JStr (Py.lit "voice")]);
   (Py.lit "module_active", JDict []);
   (Py.lit "notes", JList [])].

Definition _now_iso : Py.text := utc_iso ev.

(** [_mem[k] = v] on the global. *)
Definition mem_setitem (k : Py.text) (v : json) : IO unit :=
  let* s := get_state in
  let* m := lift_res (py_setitem (mem s) k v) in
  modify (set_mem m).

Definition save_memory : IO unit :=
  let* s := get_state in
  match mem s with
  | JNull => ret tt
  | _ =>
      try_except
        (with_lock
           (let* _ := mem_setitem (Py.lit "updated_at") (JStr _now_iso) in
            let* s := get_state in
            let* _ := open_truncate MEM_PATH in
            let* _ := json_dump_to rt (mem s) MEM_PATH in
            close MEM_PATH))
        (fun _ => ret tt)
  end.

(** [_mem = DEFAULT_MEM.copy ()] with both time stamps set, saved. *)
Definition fresh_memory : IO json :=
  let* _ := modify (set_mem (JDict DEFAULT_MEM)) in
  let* _ := mem_setitem (Py.lit "created_at") (JStr _now_iso) in
  let* _ := mem_setitem (Py.lit "updated_at") (JStr _now_iso) in
  let* _ := save_memory in
  let* s := get_state in
  ret (mem s).

(** [for k, v in defaults.items (): if k not in c: c[k] = v; changed = True] *)
Fixpoint patch_missing (defaults : list (Py.text * json)) (c : json)
    (changed : bool) : res (json * bool) :=
  match defaults with
  | [] => Ok (c, changed)
  | (k, v) :: rest =>
      match py_contains c k with
      | Raise e => Raise e
      | Ok true => patch_missing rest c changed
      | Ok false =>
          match py_setitem c k v with
          | Raise e => Raise e
          | Ok c' => patch_missing rest c' true
          end
      end
  end.

(** The body of the [try] of [load_memory]. *)
Definition load_and_patch : IO json :=
  let* m := json_load rt MEM_PATH in
  let* _ := modify (set_mem m) in
  let* mc := lift_res (patch_missing DEFAULT_MEM m false) in
  let* has_flags := lift_res (py_contains (fst mc) (Py.lit "flags")) in
  let* mc := (if (has_flags : bool) then ret mc
              else let* m' := lift_res (py_setitem (fst mc) (Py.lit "flags") (JDict [])) in
                   ret (m', true)) in
  let* flags := lift_res (py_getitem (fst mc) (Py.lit "flags")) in
  let* fc := lift_res (patch_missing DEFAULT_FLAGS flags (snd mc)) in
  let* m' := lift_res (py_setitem (fst mc) (Py.lit "flags") (fst fc)) in
  let* _ := modify (set_mem m') in
  let* _ := (if snd fc
             then let* _ := mem_setitem (Py.lit "updated_at") (JStr _now_iso) in
                  save_memory
             else ret tt) in
  let* s := get_state in
  ret (mem s).

Definition load_memory : IO json :=
  let* there := path_exists MEM_PATH in
  if negb there then fresh_memory
  else try_except load_and_patch (fun _ => fresh_memory).

(** One turn of [autosave_loop], before its sleep. *)
Definition autosave_cycle : IO unit :=
  try_except save_memory (fun _ => ret tt).

Fixpoint autosave_loop (n : nat) : IO unit :=
  match n with
  | O => ret tt
  | S k => let* _ := autosave_cycle in autosave_loop k
  end.

(** *** Update helpers *)

Definition _sha256 (data : Py.bytes) : Py.text := sha256_hex rt data.

Definition fetch_raw (url : string) : IO Py.bytes :=
  lift_res (urlopen_read ev url).

(** The first of the given lines that contains [marker]. *)
Definition first_line_with (marker : Py.text) (lines : list Py.text)
  : option Py.text :=
  List.find (Py.contains marker) lines.

Definition parse_version (text : Py.text) : Py.text :=
  match first_line_with (Py.lit "BN version:") (take 30 (Py.splitlines text)) with
  | Some line => Py.strip (Py.last_item (Py.split (Py.lit "BN version:") line))
  | None => []
  end.

(** [int (x)] for every field, or the first failure. *)
Fixpoint ints_of (fields : list Py.text) : option (list Z) :=
  match fields with
  | [] => Some []
  | x :: rest =>
      match Py.int_of_str (decimal_of rt) x with
      | None => None
      | Some n => cons n <$> ints_of rest
      end
  end.

Definition version_tuple (v : Py.text) : list Z :=
  match ints_of (Py.split (Py.lit ".") v) with
  | Some t => t
  | None => [0]
  end.

Definition version_gt (a b : Py.text) : bool :=
  Py.tuple_gt (version_tuple a) (version_tuple b).

(** [None] is Python's [None]. *)
Definition extract_signature_line (text header : Py.text) : option Py.text :=
  match first_line_with header (take 60 (Py.splitlines text)) with
  | Some line => Some (Py.strip (Py.last_item (Py.split1 58 line)))
  | None => None
  end.

(** [None] when the key cannot be encoded. *)
Definition hmac_hex (data_bytes : Py.bytes) (key : Py.text) : option Py.text :=
  hmac_sha256_hex rt key data_bytes.

Definition get_remote_version : IO Py.text :=
  try_except
    (let* data := fetch_raw GITHUB_RAW_URL in
     ret (parse_version (utf8_decode_replace rt data)))
    (fun _ => ret []).

(** [hmac.compare_digest (a, b)] on two strings: it accepts ASCII
    only. *)
Definition is_ascii (t : Py.text) : bool := forallb (fun c => (c <? 128)%N) t.
Definition compare_digest (a b : Py.text) : res bool :=
  if is_ascii a && is_ascii b then Ok (Py.text_eqb a b) else Raise TypeError.

(** [_mem.get ("nova_key") if _mem else None] *)
Definition stored_key : IO json :=
  let* s := get_state in
  if truthy (mem s) then lift_res (py_get (mem s) (Py.lit "nova_key") JNull)
  else ret JNull.

(** The signature gate of [safe_update]: [Some] is the rejection it
    returns, [None] lets the candidate through. *)
Definition signature_gate (data : Py.bytes) (text : Py.text)
  : IO (option update_msg) :=
  if SIGNATURE_REQUIRED then
    match extract_signature_line text SIGNATURE_HEADER with
    | None | Some [] => ret (Some RejectMissingSignature)
    | Some sig_line =>
        let* key := stored_key in
        if negb (truthy key) then ret (Some RejectKeyNotSet)
        else
          let* expected :=
            match key with
            | JStr k => lift_opt UnicodeError (hmac_hex data k)
            | _ => raise AttributeError
            end in
          let* same := lift_res (compare_digest sig_line expected) in
          if (same : bool) then ret None else ret (Some RejectSignatureMismatch)
    end
  else ret None.

(** The swap of [safe_update], inside its [try]. *)
Definition swap (data : Py.bytes) (target_path backup_path : path) : IO unit :=
  let* tmp := mkstemp "tmp" ".py" (gettempdir ev) in
  let* _ := write tmp data in
  let* _ := flush tmp in
  let* _ := close tmp in
  let* there := path_exists target_path in
  let* _ := (if (there : bool) then copy2 target_path backup_path else ret tt) in
  move tmp target_path.

Definition safe_update (raw_url : string) (current_version : Py.text)
    (target_path backup_path : path) : IO update_msg :=
  fun s0 =>
    match fetch_raw raw_url s0 with
    | (Raise e, s) => (Ok (FetchError e), s)
    | (Ok data, s) =>
        (let text := utf8_decode_replace rt data in
         if negb (Py.contains (Py.lit "BN version:") text)
            || negb (Py.contains (Py.lit "def main()") text)
         then ret RejectNotBN
         else
           let remote_ver := parse_version text in
           match remote_ver with
           | [] => ret RejectMissingVersion
           | _ =>
               if negb (version_gt remote_ver current_version)
               then ret (UpToDate remote_ver current_version)
               else
                 let* gate := signature_gate data text in
                 match gate with
                 | Some rejection => ret rejection
                 | None =>
                     try_except
                       (let* _ := swap data target_path backup_path in
                        ret (UpdatedTo remote_ver (take 12 (_sha256 data))))
                       (fun e => ret (SwapError e))
                 end
           end) s
    end.

(** The [update] command: the call of [handle_command]. *)
Definition update_command : IO update_msg :=
  safe_update GITHUB_RAW_URL CURRENT_VERSION
              (""%string, "bn.py"%string) (""%string, "bn_prev.py"%string).

(** *** The log file *)

Variable hs : host.

Definition LOG_PATH : path := (""%string, "bn_log.txt"%string).
Definition MAX_LOG_LINES : nat := 400.

Definition append_log (line : Py.text) : IO unit :=
  let text := Py.strip (Py.lit "[" ++ local_stamp hs ++ Py.lit "] " ++ line) in
  try_except
    (with_lock
       (let* there := path_exists LOG_PATH in
        let* lines := (if (there : bool)
                       then let* t := read_text_universal rt LOG_PATH in
                            ret (Py.splitlines t)
                       else ret []) in
        let lines := lines ++ [text] in
        let lines := if (MAX_LOG_LINES <? length lines)%nat
                     then Py.last_n MAX_LOG_LINES lines else lines in
        let* _ := open_truncate LOG_PATH in
        let* _ := write_text rt LOG_PATH (Py.join [10%N] lines ++ [10%N]) in
        close LOG_PATH))
    (fun _ => ret tt).
End Updater.
End BnUpdater.

(** * A runtime to run the model *)

(** The theorems hold for every [runtime].  To run the model on
    concrete files the following instance is used: the UTF-8 codec, a
    reader and a printer for JSON documents without fractions, and
    SHA-256 with its HMAC, each written after its specification. *)
Module Sample.
Import Py.

Definition is_cont (b : N) : bool := ((128 <=? b) && (b <=? 191))%N.
Definition in_range (lo hi b : N) : bool := ((lo <=? b) && (b <=? hi))%N.

(** What to do with bytes that are no UTF-8. *)
Inductive on_error : Type := Strict | Ignore | Replace.

Definition bad (mode : on_error) (k : option text) : option text :=
  match mode with
  | Strict => None
  | Ignore => k
  | Replace => cons 65533%N <$> k
  end.

(** The range a second byte must lie in, after the first byte [b0] of
    a sequence of three or four bytes. *)
Definition second_ok (b0 b1 : N) : bool :=
  (if b0 =? 224 then in_range 160 191 b1
   else if b0 =? 237 then in_range 128 159 b1
   else if b0 =? 240 then in_range 144 191 b1
   else if b0 =? 244 then in_range 128 143 b1
   else is_cont b1)%N.

Definition low6 (b : N) : N := N.land b 63.

(** A malformed sequence is given up at the first byte that cannot
    continue it, and decoding resumes at that byte. *)
Fixpoint decode (mode : on_error) (bs : bytes) : option text :=
  match bs with
  | [] => Some []
  | b0 :: r0 =>
      if (b0 <? 128)%N then cons b0 <$> decode mode r0
      else if in_range 194 223 b0 then
        match r0 with
        | b1 :: r1 =>
            if is_cont b1
            then cons (N.land b0 31 * 64 + low6 b1)%N <$> decode mode r1
            else bad mode (decode mode r0)
        | [] => bad mode (Some [])
        end
      else if in_range 224 239 b0 then
        match r0 with
        | b1 :: r1 =>
            if second_ok b0 b1 then
              match r1 with
              | b2 :: r2 =>
                  if is_cont b2
                  then cons (N.land b0 15 * 4096 + low6 b1 * 64 + low6 b2)%N
                         <$> decode mode r2
                  else bad mode (decode mode r1)
              | [] => bad mode (Some [])
              end
            else bad mode (decode mode r0)
        | [] => bad mode (Some [])
        end
      else if in_range 240 244 b0 then
        match r0 with
        | b1 :: r1 =>
            if second_ok b0 b1 then
              match r1 with
              | b2 :: r2 =>
                  if is_cont b2 then
                    match r2 with
                    | b3 :: r3 =>
                        if is_cont b3
                        then cons (N.land b0 7 * 262144 + low6 b1 * 4096
                                   + low6 b2 * 64 + low6 b3)%N
                               <$> decode mode r3
                        else bad mode (decode mode r2)
                    | [] => bad mode (Some [])
                    end
                  else bad mode (decode mode r1)
              | [] => bad mode (Some [])
              end
            else bad mode (decode mode r0)
        | [] => bad mode (Some [])
        end
      else bad mode (decode mode r0)
  end.

(** Encoding: a surrogate has no UTF-8 form. *)
Definition encode_char (c : N) : option bytes :=
  (if c <? 128 then Some [c]
   else if c <? 2048 then Some [192 + c / 64; 128 + c mod 64]
   else if in_range 55296 57343 c then None
   else if c <? 65536 then Some [224 + c / 4096; 128 + (c / 64) mod 64; 128 + c mod 64]
   else if c <? 1114112
        then Some [240 + c / 262144; 128 + (c / 4096) mod 64;
                   128 + (c / 64) mod 64; 128 + c mod 64]
   else None)%N.

Fixpoint encode (t : text) : option bytes :=
  match t with
  | [] => Some []
  | c :: t' =>
      match encode_char c, encode t' with
      | Some b, Some bs => Some (b ++ bs)
      | _, _ => None
      end
  end.
End Sample.

(** ** JSON documents *)
Module SampleJson.
Import Py.

(** *** Printing, as [json.dump (..., ensure_ascii=False, indent=2)] *)

Definition hex_digit (n : N) : N := (if n <? 10 then 48 + n else 87 + n)%N.

Definition escape_char (c : N) : text :=
  (if c =? 34 then lit "\" ++ [34]
   else if c =? 92 then lit "\\"
   else if c =? 10 then lit "\n"
   else if c =? 13 then lit "\r"
   else if c =? 9 then lit "\t"
   else if c =? 8 then lit "\b"
   else if c =? 12 then lit "\f"
   else if c <? 32 then lit "\u00" ++ [hex_digit (c / 16); hex_digit (c mod 16)]
   else [c])%N.

Definition quote (s : text) : text :=
  34%N :: concat (List.map escape_char s) ++ [34%N].

(** A float that holds an integer prints as that integer followed by
    [.0]; the printer leaves every other finite float to its integer
    part, which the examples never meet. *)
Definition print_float (f : spec_float) : text :=
  match f with
  | S754_nan => lit "NaN"
  | S754_infinity s => if s then lit "-Infinity" else lit "Infinity"
  | S754_zero s => if s then lit "-0.0" else lit "0.0"
  | S754_finite _ _ _ =>
      match int_of_float f with
      | Ok n => str_of_int n ++ lit ".0"
      | Raise _ => lit "NaN"
      end
  end.

Definition newline_indent (depth : nat) : text :=
  10%N :: List.repeat 32%N (2 * depth).

(** The tokens written, in order. *)
Fixpoint tokens (depth : nat) (j : json) : list text :=
  match j with
  | JNull => [lit "null"]
  | JBool b => [if b then lit "true" else lit "false"]
  | JInt n => [str_of_int n]
  | JFloat f => [print_float f]
  | JStr s => [quote s]
  | JList [] => [lit "[]"]
  | JList (x :: xs) =>
      [lit "["; newline_indent (S depth)] ++ tokens (S depth) x
      ++ (fix rest (l : list json) : list text :=
            match l with
            | [] => []
            | y :: l' =>
                [lit ","; newline_indent (S depth)] ++ tokens (S depth) y ++ rest l'
            end) xs
      ++ [newline_indent depth; lit "]"]
  | JDict [] => [lit "{}"]
  | JDict ((k, v) :: kvs) =>
      [lit "{"; newline_indent (S depth); quote k; lit ": "] ++ tokens (S depth) v
      ++ (fix rest (l : list (text * json)) : list text :=
            match l with
            | [] => []
            | (k', v') :: l' =>
                [lit ","; newline_indent (S depth); quote k'; lit ": "]
                ++ tokens (S depth) v' ++ rest l'
            end) kvs
      ++ [newline_indent depth; lit "}"]
  end.

Definition dumps (j : json) : text := concat (tokens 0 j).

Definition dump (j : json) : list bytes :=
  List.map (fun t => default [] (Sample.encode t)) (tokens 0 j).

(** *** Reading, as [json.loads] *)

Definition is_ws (c : N) : bool :=
  ((c =? 32) || (c =? 9) || (c =? 10) || (c =? 13))%N.

Fixpoint skip_ws (s : text) : text :=
  match s with
  | c :: s' => if is_ws c then skip_ws s' else s
  | [] => []
  end.

Definition is_digit (c : N) : bool := ((48 <=? c) && (c <=? 57))%N.

Definition hex_val (c : N) : option N :=
  (if is_digit c then Some (c - 48)
   else if (97 <=? c) && (c <=? 102) then Some (c - 87)
   else if (65 <=? c) && (c <=? 70) then Some (c - 55)
   else None)%N.

Definition hex4 (s : text) : option (N * text) :=
  match s with
  | a :: b :: c :: d :: r =>
      match hex_val a, hex_val b, hex_val c, hex_val d with
      | Some a, Some b, Some c, Some d =>
          Some (((a * 16 + b) * 16 + c) * 16 + d, r)%N
      | _, _, _, _ => None
      end
  | _ => None
  end.

(** The characters of a string after its opening quote. *)
Fixpoint string_body (fuel : nat) (s acc : text) : option (text * text) :=
  match fuel with
  | O => None
  | S f =>
      match s with
      | [] => None
      | 34%N :: r => Some (rev acc, r)
      | 92%N :: e :: r =>
          if (e =? 117)%N then
            match hex4 r with
            | None => None
            | Some (u, r') =>
                if Sample.in_range 55296 56319 u then
                  match r' with
                  | 92%N :: 117%N :: r'' =>
                      match hex4 r'' with
                      | Some (u2, r3) =>
                          if Sample.in_range 56320 57343 u2
                          then string_body f r3
                                 ((65536 + (u - 55296) * 1024 + (u2 - 56320))%N :: acc)
                          else string_body f r' (u :: acc)
                      | None => string_body f r' (u :: acc)
                      end
                  | _ => string_body f r' (u :: acc)
                  end
                else string_body f r' (u :: acc)
            end
          else
            match (if (e =? 34) || (e =? 92) || (e =? 47) then Some e
                   else if e =? 98 then Some 8
                   else if e =? 102 then Some 12
                   else if e =? 110 then Some 10
                   else if e =? 114 then Some 13
                   else if e =? 116 then Some 9
                   else None)%N with
            | Some c => string_body f r (c :: acc)
            | None => None
            end
      | c :: r => if (c <? 32)%N then None else string_body f r (c :: acc)
      end
  end.

Fixpoint take_digits (s acc : text) : text * text :=
  match s with
  | c :: r => if is_digit c then take_digits r (c :: acc) else (rev acc, s)
  | [] => (rev acc, [])
  end.

Definition all_zero (s : text) : bool := forallb (fun c => (c =? 48)%N) s.

(** The float that holds the integer [n], for [|n| < 2^53]. *)
Definition float_of_int (neg : bool) (n : Z) : spec_float :=
  match n with
  | Zpos p =>
      let shift := 52 - Z.log2 n in
      S754_finite neg (Z.to_pos (n * 2 ^ shift)) (- shift)
  | _ => S754_zero neg
  end.

(** A number: an integer, or an integer followed by a fraction of
    zeros; a document with any other fraction or with an exponent is
    beyond this reader, which rejects it. *)
Definition number (s : text) : option (json * text) :=
  let '(neg, s1) := match s with 45%N :: r => (true, r) | _ => (false, s) end in
  let '(ds, s2) := take_digits s1 [] in
  match ds with
  | [] => None
  | d :: more =>
      if (d =? 48)%N && negb (bool_decide (more = [])) then None
      else
        match int_digits (fun _ => None) ds 0 false with
        | None => None
        | Some n =>
            match s2 with
            | 46%N :: r =>
                let '(fr, s3) := take_digits r [] in
                match fr, s3 with
                | [], _ => None
                | _, (101%N | 69%N) :: _ => None
                | _, _ =>
                    if all_zero fr && (n <? 2 ^ 53)
                    then Some (JFloat (float_of_int neg n), s3)
                    else None
                end
            | (101%N | 69%N) :: _ => None
            | _ => Some (JInt (if neg then - n else n), s2)
            end
        end
  end.

Definition parser : Type := text -> option (json * text).

(** The elements of a list, after its opening bracket or a comma. *)
Fixpoint elements (value : parser) (fuel : nat) (acc : list json) (s : text)
  : option (json * text) :=
  match fuel with
  | O => None
  | S f =>
      match value s with
      | None => None
      | Some (v, r) =>
          match skip_ws r with
          | 44%N :: r' => elements value f (v :: acc) r'
          | 93%N :: r' => Some (JList (rev (v :: acc)), r')
          | _ => None
          end
      end
  end.

(** The members of an object, after its opening brace or a comma: a
    key given twice keeps its place and takes the later value. *)
Fixpoint members (value : parser) (fuel : nat) (acc : list (text * json))
    (s : text) : option (json * text) :=
  match fuel with
  | O => None
  | S f =>
      match skip_ws s with
      | 34%N :: r =>
          match string_body (S (length r)) r [] with
          | None => None
          | Some (k, r1) =>
              match skip_ws r1 with
              | 58%N :: r2 =>
                  match value r2 with
                  | None => None
                  | Some (v, r3) =>
                      let acc' := dict_set k v acc in
                      match skip_ws r3 with
                      | 44%N :: r4 => members value f acc' r4
                      | 125%N :: r4 => Some (JDict acc', r4)
                      | _ => None
                      end
                  end
              | _ => None
              end
          end
      | _ => None
      end
  end.

Fixpoint value (fuel : nat) (s : text) : option (json * text) :=
  match fuel with
  | O => None
  | S f =>
      let s := skip_ws s in
      match s with
      | 123%N :: r =>
          match skip_ws r with
          | 125%N :: r' => Some (JDict [], r')
          | _ => members (value f) (S (length r)) [] r
          end
      | 91%N :: r =>
          match skip_ws r with
          | 93%N :: r' => Some (JList [], r')
          | _ => elements (value f) (S (length r)) [] r
          end
      | 34%N :: r =>
          match string_body (S (length r)) r [] with
          | Some (t, r') => Some (JStr t, r')
          | None => None
          end
      | _ =>
          if starts_with (lit "null") s then Some (JNull, drop 4 s)
          else if starts_with (lit "true") s then Some (JBool true, drop 4 s)
          else if starts_with (lit "false") s then Some (JBool false, drop 5 s)
          else if starts_with (lit "NaN") s then Some (JFloat S754_nan, drop 3 s)
          else if starts_with (lit "Infinity") s
               then Some (JFloat (S754_infinity false), drop 8 s)
          else if starts_with (lit "-Infinity") s
               then Some (JFloat (S754_infinity true), drop 9 s)
          else number s
      end
  end.

Definition loads (s : text) : option json :=
  match value (S (length s)) s with
  | Some (v, r) => match skip_ws r with [] => Some v | _ => None end
  | None => None
  end.
End SampleJson.

(** ** SHA-256 and HMAC *)
Module SampleSha.
Import Py.

Definition primes : list Z :=
  [2; 3; 5; 7; 11; 13; 17; 19; 23; 29; 31; 37; 41; 43; 47; 53; 59; 61; 67;
   71; 73; 79; 83; 89; 97; 101; 103; 107; 109; 113; 127; 131; 137; 139; 149;
   151; 157; 163; 167; 173; 179; 181; 191; 193; 197; 199; 211; 223; 227;
   229; 233; 239; 241; 251; 257; 263; 269; 271; 277; 281; 283; 293; 307; 311].

Definition w32 (x : Z) : Z := x mod 2 ^ 32.

(** The integer cube root, one bit at a time from bit [b] down. *)
Fixpoint cube_root_bits (b : nat) (n r : Z) : Z :=
  let try := r + 2 ^ Z.of_nat b in
  let r' := if try * try * try <=? n then try else r in
  match b with
  | O => r'
  | S b' => cube_root_bits b' n r'
  end.

(** The first 32 bits of the fractions of the square roots of the
    first eight primes, and of the cube roots of the first 64. *)
Definition initial_hash : list Z :=
  List.map (fun p => w32 (Z.sqrt (p * 2 ^ 64))) (take 8 primes).
Definition round_constants : list Z :=
  List.map (fun p => w32 (cube_root_bits 40 (p * 2 ^ 96) 0)) primes.

Definition rotr (n x : Z) : Z :=
  Z.lor (Z.shiftr x n) (w32 (Z.shiftl x (32 - n))).

Definition big_sigma0 x := Z.lxor (Z.lxor (rotr 2 x) (rotr 13 x)) (rotr 22 x).
Definition big_sigma1 x := Z.lxor (Z.lxor (rotr 6 x) (rotr 11 x)) (rotr 25 x).
Definition small_sigma0 x := Z.lxor (Z.lxor (rotr 7 x) (rotr 18 x)) (Z.shiftr x 3).
Definition small_sigma1 x := Z.lxor (Z.lxor (rotr 17 x) (rotr 19 x)) (Z.shiftr x 10).
Definition choose x y z := Z.lxor (Z.land x y) (Z.land (Z.lxor x (2 ^ 32 - 1)) z).
Definition majority x y z := Z.lxor (Z.lxor (Z.land x y) (Z.land x z)) (Z.land y z).

(** Big-endian bytes of a number, [n] of them, and back. *)
Fixpoint be_bytes (n : nat) (x : Z) : list Z :=
  match n with
  | O => []
  | S k => (x / 256 ^ Z.of_nat k) mod 256 :: be_bytes k x
  end.
Definition be_word (bs : list Z) : Z := fold_left (fun a b => a * 256 + b) bs 0.

Definition pad (msg : list Z) : list Z :=
  let len := Z.of_nat (length msg) in
  let zeros := Z.to_nat ((55 - len) mod 64) in
  msg ++ [128] ++ List.repeat 0 zeros ++ be_bytes 8 (8 * len).

Fixpoint chunks_of (fuel n : nat) (l : list Z) : list (list Z) :=
  match fuel, l with
  | O, _ | _, [] => []
  | S f, _ => take n l :: chunks_of f n (drop n l)
  end.

(** The message schedule: [w] holds the words so far, newest first. *)
Fixpoint schedule (n : nat) (w : list Z) : list Z :=
  match n with
  | O => w
  | S k =>
      let at_ i := nth i w 0 in
      schedule k (w32 (small_sigma1 (at_ 1%nat) + at_ 6%nat
                       + small_sigma0 (at_ 14%nat) + at_ 15%nat) :: w)
  end.

Definition round (st : list Z) (kw : Z * Z) : list Z :=
  match st with
  | [a; b; c; d; e; f; g; h] =>
      let t1 := h + big_sigma1 e + choose e f g + fst kw + snd kw in
      let t2 := big_sigma0 a + majority a b c in
      [w32 (t1 + t2); a; b; c; w32 (d + t1); e; f; g]
  | _ => st
  end.

Definition compress (h : list Z) (block : list Z) : list Z :=
  let w0 := List.map be_word (chunks_of 16 4 block) in
  let w := rev (schedule 48 (rev w0)) in
  let out := fold_left round (combine round_constants w) h in
  List.map (fun xy => w32 (fst xy + snd xy)) (combine h out).

Definition sha256 (msg : list Z) : list Z :=
  let padded := pad msg in
  let h := fold_left compress (chunks_of (length padded) 64 padded) initial_hash in
  concat (List.map (be_bytes 4) h).

Definition hmac_sha256 (key msg : list Z) : list Z :=
  let k0 := if (64 <? Z.of_nat (length key)) then sha256 key else key in
  let k := k0 ++ List.repeat 0 (64 - length k0) in
  sha256 (List.map (Z.lxor 92) k ++ sha256 (List.map (Z.lxor 54) k ++ msg)).

Definition hex_of (bs : list Z) : text :=
  concat (List.map (fun b => [SampleJson.hex_digit (Z.to_N (b / 16));
                              SampleJson.hex_digit (Z.to_N (b mod 16))]) bs).

Definition sha256_hex (data : bytes) : text :=
  hex_of (sha256 (List.map Z.of_N data)).

Definition hmac_sha256_hex (key : text) (data : bytes) : option text :=
  match Sample.encode key with
  | Some k => Some (hex_of (hmac_sha256 (List.map Z.of_N k) (List.map Z.of_N data)))
  | None => None
  end.
End SampleSha.

(** The instance.  No digit outside ASCII is known to it. *)
Definition sample_rt : runtime :=
  {| decimal_of := fun _ => None;
     utf8_decode := Sample.decode Sample.Strict;
     utf8_decode_ignore := fun b => default [] (Sample.decode Sample.Ignore b);
     utf8_decode_replace := fun b => default [] (Sample.decode Sample.Replace b);
     utf8_encode := Sample.encode;
     json_loads := SampleJson.loads;
     json_dump := SampleJson.dump;
     hmac_sha256_hex := SampleSha.hmac_sha256_hex;
     sha256_hex := SampleSha.sha256_hex |}.

(** ** Scenarios *)

(** The surroundings of the examples: the program lives in [/opt/bn] and
    runs as process [pid]; that process and process 777 are alive and
    may be signalled, no other process exists; [remote] is what a fetch
    yields. *)
Definition sample_ev_as (pid : Z) (remote : res Py.bytes) : environ :=
  {| BASE_DIR := "/opt/bn";
     getpid := pid;
     kill0 := fun p => if (p =? 777) || (p =? pid) then None
                       else Some ProcessLookupError;
     utc_iso := Py.lit "2026-01-01T00:00:00+00:00";
     strftime_seconds := "20260101-000000";
     gettempdir := "/tmp";
     urlopen_read := fun _ => remote |}.

Definition sample_ev : res Py.bytes -> environ := sample_ev_as 4242.
Definition offline : environ := sample_ev (Raise URLError).
(** The surroundings of the next start, as process 5151. *)
Definition restarted : environ := sample_ev_as 5151 (Raise URLError).

(** A state with the given files, faults and state document, two names
    for temporary files, an empty log, a clear dirty flag and a free
    lock. *)
Definition state_with (files : list (path * Py.bytes)) (fl : list fault)
    (m : json) : state :=
  {| fs := list_to_map files; faults := fl; entropy := ["k3x9"; "p0q1"];
     trace := []; mem := m; mem_dirty := false; mem_lock := false |}.

(** The text of a file, for the examples. *)
Definition file_text (s : string) : Py.bytes := Py.lit s.

(** An updater whose state file holds revision 1 while the program is
    at revision 2; the third file operation of the save fails after one
    byte. *)
Definition revision (n : Z) : json := JDict [(Py.lit "revision_count", JInt n)].
Definition torn_save : state :=
  state_with [(BnUpdater.MEM_PATH, concat (SampleJson.dump (revision 1)))]
             [NoFault; NoFault; Fail 1] (revision 2).

(** The events logged from [s] to a later state [s'], oldest first. *)
Definition events_since (s s' : state) : list event :=
  rev (List.map fst (take (length (trace s') - length (trace s)) (trace s'))).

(** An updater at revision 2 with no state file yet. *)
Definition unsaved_updater : state := state_with [] [] (revision 2).

(** A state file cut short in the middle of a document, and an updater
    that finds it at start. *)
Definition cut_short : Py.bytes :=
  file_text "{ " ++ [34%N] ++ file_text "revision_count" ++ [34%N]
  ++ file_text ": 7, " ++ [34%N] ++ file_text "na".
Definition updater_with_cut_file : state :=
  state_with [(BnUpdater.MEM_PATH, cut_short)] [] JNull.

(** The start of the daemon: the top level of the module, then the
    first statements of [main]. *)
Definition daemon_start (ev : environ) : IO unit :=
  let* _ := BnDaemon.module_init sample_rt ev in
  BnDaemon.main_prologue sample_rt ev.

(** A new process on the files that an earlier one left: its globals
    are those of a program not yet started. *)
Definition new_process (s : state) : state :=
  {| fs := fs s; faults := []; entropy := entropy s; trace := [];
     mem := JNull; mem_dirty := false; mem_lock := false |}.

Definition death_count (s : state) : res json :=
  py_get (mem s) (Py.lit "death_count") JNull.

(** A very first start: no state file, no lock file. *)
Definition first_start : state := state_with [] [] JNull.

(** A daemon about to start next to a lock file: one written by the
    live process 777, and one that holds no process id. *)
Definition lock_of_777 : Py.bytes := file_text "777|2025-12-31T23:00:00+00:00
".
Definition garbled_lock : Py.bytes := file_text "not-a-pid|2025".
Definition beside_live_holder : state :=
  snd (BnDaemon.module_init sample_rt offline
         (state_with [(BnDaemon.LOCK_PATH offline, lock_of_777)] [] JNull)).
Definition lock_of_999 : Py.bytes := file_text "999|2025-12-31T22:00:00+00:00" ++ [10%N].
Definition beside_dead_holder : state :=
  snd (BnDaemon.module_init sample_rt offline
         (state_with [(BnDaemon.LOCK_PATH offline, lock_of_999)] [] JNull)).
Definition beside_garbled_lock : state :=
  snd (BnDaemon.module_init sample_rt offline
         (state_with [(BnDaemon.LOCK_PATH offline, garbled_lock)] [] JNull)).

(** Candidates for an update of the running version 14.5: the same
    version, the same version without the entry point, and a newer
    version with a signature line of the given value. *)
Definition candidate_same_version : Py.bytes := file_text "# BN version: 14.5
def main():
    boot_sequence()
".
Definition same_version_no_entry_point : Py.bytes := file_text "# BN version: 14.5
print(1)
".
Definition signed_candidate (signature : Py.text) : Py.bytes :=
  file_text "# BN version: 14.6
# Nova-Signature: " ++ signature ++ file_text "
def main():
    boot_sequence()
".

(** The signature of an earlier payload under the shared secret. *)
Definition stale_signature : Py.text :=
  default [] (SampleSha.hmac_sha256_hex (Py.lit "s3cret") (signed_candidate [])).

(** An updater with version 14.5 installed and the shared secret set. *)
Definition installed_artifact : Py.bytes := file_text "# BN version: 14.5
def main():
    pass
".
Definition target_path : path := (""%string, "bn.py"%string).
Definition backup_path : path := (""%string, "bn_prev.py"%string).
Definition updater_state (fl : list fault) : state :=
  state_with [(target_path, installed_artifact)] fl
    (JDict [(Py.lit "revision_count", JInt 3);
            (Py.lit "nova_key", JStr (Py.lit "s3cret"))]).

(** A newer candidate that needs no signature, and three runs of the
    update: one where nothing fails, one where the copy to the backup
    path cannot open its target, and one where the rename of the
    temporary file fails (as it does between two file systems) and the
    copy that [shutil.move] falls back on fails after nine bytes. *)
Definition newer_candidate : Py.bytes := signed_candidate [].
Definition ok (n : nat) : list fault := List.repeat NoFault n.
Definition backup_fails : list fault := ok 5 ++ [Fail 0].
Definition move_fails_midway : list fault := ok 9 ++ [Fail 0] ++ ok 2 ++ [Fail 9].
Definition run_update (fl : list fault) : res update_msg * state :=
  BnUpdater.update_command sample_rt (sample_ev (Ok newer_candidate)) false
    (updater_state fl).

(** The rest of the surroundings of the examples. *)
Definition sample_hs_at (hour : Z) : host :=
  {| str_lower := Py.ascii_lower;
     str_isdigit := fun t =>
       match t with
       | [] => false
       | _ :: _ => forallb (fun c => ((48 <=? c) && (c <=? 57))%N) t
       end;
     str_of_other := fun _ => Py.lit "?";
     float_of_str := fun _ => None;
     format_fixed := fun _ _ => Py.lit "?";
     json_dump_default := SampleJson.dump;
     now_hour := hour;
     strftime_minutes := "20260101-0000";
     local_stamp := Py.lit "2026-01-01 00:00:00";
     time_time := S754_zero false;
     engine := Some (fun _ => true);
     isdir := fun _ => true;
     execv := None |}.
Definition sample_hs : host := sample_hs_at 12.

(** A configuration file that names a make and gives no model, next to
    a document that knows a complete vehicle. *)
Definition quoted (s : string) : Py.bytes := [34%N] ++ Py.lit s ++ [34%N].
Definition config_with_make : Py.bytes :=
  file_text "{" ++ quoted "vehicle" ++ file_text ": {" ++ quoted "make"
  ++ file_text ": " ++ quoted "Honda" ++ file_text ", " ++ quoted "model"
  ++ file_text ": null}}".
Definition known_vehicle : list (Py.text * json) :=
  [(Py.lit "make", JStr (Py.lit "Ford"));
   (Py.lit "model", JStr (Py.lit "Focus"));
   (Py.lit "year", JInt 2015)].
Definition beside_config : state :=
  state_with [(BnDaemon.CONFIG_PATH offline, config_with_make)] []
             (JDict [(Py.lit "vehicle", JDict known_vehicle)]).

(** An updater with two lines in its log. *)
Definition small_log : state :=
  state_with [(BnUpdater.LOG_PATH,
               file_text "[2025-12-31 23:59:00] Core ready." ++ [13%N; 10%N]
               ++ file_text "[2025-12-31 23:59:30] Heartbeat" ++ [10%N])] [] JNull.

(** A session that has just begun on a state of the program. *)
Definition console_of (s : state) : console :=
  Console s false None false float_zero [] [].

(** Two more candidates that declare the running version: one whose
    version line is the thirty-first line, and one whose first line
    with the marker gives no value. *)
Definition version_on_line_31 : Py.bytes :=
  concat (List.repeat [10%N] 30) ++ candidate_same_version.
Definition version_after_empty_marker : Py.bytes :=
  file_text "# BN version:
" ++ candidate_same_version.

(** A daemon whose state file holds the JSON value [null]. *)
Definition null_state_file : state :=
  state_with [(BnDaemon.MEM_PATH offline, file_text "null")] [] JNull.

(** A daemon that finds a state file cut short, in a directory where
    the third file operation, the move to the quarantine, fails. *)
Definition daemon_with_cut_file : state :=
  state_with [(BnDaemon.MEM_PATH offline, cut_short)] [NoFault; NoFault; Fail 0] JNull.

(** The daemon about to start next to the garbled lock, in a directory
    where the lock file can be read and cannot be removed. *)
Definition beside_stuck_lock : state :=
  set_faults [NoFault; Fail 0] beside_garbled_lock.

(** A document written by an earlier version of the daemon, with no
    caretaker entry, and a daemon that has it both in memory and in its
    state file. *)
Definition old_document : json := JDict [(Py.lit "death_count", JInt 3)].
Definition settled : state :=
  state_with [(BnDaemon.MEM_PATH offline, concat (SampleJson.dump old_document))]
             [] old_document.

(** A daemon whose document counts one death more than its state file,
    with the dirty flag set, in a directory where the next file
    operation fails. *)
Definition unsaved_change : state :=
  set_mem_dirty true
    (state_with [(BnDaemon.MEM_PATH offline, concat (SampleJson.dump old_document))]
                [Fail 0] (JDict [(Py.lit "death_count", JInt 4)])).

(** A caretaker program of two steps whose index has run past the
    end. *)
Definition two_steps : list json :=
  [BnDaemon.say "Slow breaths.";
   JDict [(Py.lit "type", JStr (Py.lit "cmd")); (Py.lit "cmd", JStr (Py.lit "status"))]].
Definition caretaker_past_the_end : console :=
  console_of (state_with [] []
    (JDict [(Py.lit "caretaker",
             JDict [(Py.lit "program", JList two_steps); (Py.lit "_idx", JInt 7)])])).

(** ** The vocabulary of the properties *)

Section Vocabulary.
Variable rt : runtime.
Variable ev : environ.

(** [quiet q s s']: from [s] to [s'] the globals of the program are the
    same and no file other than [q] has changed at any logged moment. *)
Record quiet (q : path) (s s' : state) : Prop := Quiet {
  quiet_mem : mem s' = mem s;
  quiet_dirty : mem_dirty s' = mem_dirty s;
  quiet_lock : mem_lock s' = mem_lock s;
  quiet_fs : forall p, p <> q -> fs s' !! p = fs s !! p;
  quiet_trace : exists l, trace s' = l ++ trace s
      /\ Forall (fun ef => forall p, p <> q -> snd ef !! p = fs s !! p) l
}.

(** What a reader of the primary path may find during a run of saves:
    what was there at the start, or the whole of one of the documents. *)
Definition whole_document (docs : list json) (old found : option Py.bytes) : Prop :=
  found = old \/ exists d, In d docs /\ found = Some (concat (json_dump rt d)).

(** The state after [with lock: dirty = _mem_dirty]. *)
Definition after_peek (s : state) : state :=
  log_event EvRelease (set_mem_lock false (log_event EvAcquire (set_mem_lock true s))).

Definition lock_event (e : event) : Prop := e = EvAcquire \/ e = EvRelease.

(** What the two attempts of [load_or_repair] make of the bytes of the
    state file. *)
Definition strict_parse (c : Py.bytes) : option json :=
  match utf8_decode rt c with
  | Some t => json_loads rt t
  | None => None
  end.

Definition truncated_parse (c : Py.bytes) : option json :=
  let t := utf8_decode_ignore rt c in
  match Py.rfind 125 t with
  | Some i => json_loads rt (take (i + 1)%nat t)
  | None => None
  end.

(** The line [write_lock] writes. *)
Definition lock_line : Py.text :=
  Py.str_of_int (getpid ev) ++ Py.lit "|" ++ utc_iso ev ++ [10%N].

(** What the first [try] of [cleanup_stale_lock] makes of the bytes of
    the lock file: the recorded process id, if it can be read. *)
Definition recorded_pid (c : Py.bytes) : option Z :=
  match utf8_decode rt c with
  | Some t => BnDaemon.parse_pid rt t
  | None => None
  end.

(** What [main] does after a [cleanup_stale_lock] that answered [True]. *)
Definition count_and_lock : IO unit :=
  let* _ := (let* _ := BnDaemon.count_death rt in
             let* _ := BnDaemon.wal_log rt ev (Py.lit "death:1") in
             BnDaemon.mark_dirty) in
  BnDaemon.write_lock rt ev.

(** [os.kill (old_pid, 0)] returns. *)
Definition probe_succeeds (old_pid : option Z) : bool :=
  match old_pid with
  | Some n => match kill0 ev n with None => true | Some _ => false end
  | None => false
  end.

(** The candidate has both markers of a BN file. *)
Definition well_formed (text : Py.text) : bool :=
  Py.contains (Py.lit "BN version:") text && Py.contains (Py.lit "def main()") text.

(** The shared secret as [safe_update] reads it: a non-empty string
    under [nova_key] of a non-empty state document. *)
Definition shared_secret (m : json) : option Py.text :=
  match m with
  | JDict kv =>
      match dict_get (Py.lit "nova_key") kv with
      | Some (JStr (c :: k)) => Some (c :: k)
      | _ => None
      end
  | _ => None
  end.

(** The candidate carries a signature line whose value is the hex
    HMAC-SHA-256, keyed by the shared secret, of all the bytes of the
    candidate. *)
Definition signature_valid (m : json) (data : Py.bytes) : bool :=
  match BnUpdater.extract_signature_line (utf8_decode_replace rt data)
          BnUpdater.SIGNATURE_HEADER,
        shared_secret m with
  | Some sig, Some k =>
      match hmac_sha256_hex rt k data with
      | Some expected => Py.text_eqb sig expected
      | None => false
      end
  | _, _ => false
  end.

(** What the signature gate answers, as a function of the state
    document and the candidate. *)
Definition gate_outcome (m : json) (data : Py.bytes) : res (option update_msg) :=
  match BnUpdater.extract_signature_line (utf8_decode_replace rt data)
          BnUpdater.SIGNATURE_HEADER with
  | None | Some [] => Ok (Some RejectMissingSignature)
  | Some sig =>
      match (if truthy m then py_get m (Py.lit "nova_key") JNull else Ok JNull) with
      | Raise e => Raise e
      | Ok key =>
          if negb (truthy key) then Ok (Some RejectKeyNotSet)
          else
            match key with
            | JStr k =>
                match hmac_sha256_hex rt k data with
                | None => Raise UnicodeError
                | Some expected =>
                    match BnUpdater.compare_digest sig expected with
                    | Ok true => Ok None
                    | Ok false => Ok (Some RejectSignatureMismatch)
                    | Raise e => Raise e
                    end
                end
            | _ => Raise AttributeError
            end
      end
  end.

End Vocabulary.

(** [keeps q m]: whatever happens, a run of [m] changes no file but
    [q] and none of the globals. *)
Definition keeps {A : Type} (q : path) (m : IO A) : Prop :=
  forall s, quiet q s (snd (m s)).

(** What [load_config_vehicle] makes of one field of the vehicle: the
    value the configuration gives for it, [null] included, and the one
    in memory where the configuration does not name the field. *)
Definition merged_field (veh vehicle : list (Py.text * json)) (k : Py.text)
  : option json :=
  match dict_get k veh with
  | Some v => Some v
  | None => dict_get k vehicle
  end.

Definition vehicle_key (k : Py.text) : Prop :=
  k = Py.lit "make" \/ k = Py.lit "model" \/ k = Py.lit "year".

Definition one_line (l : Py.text) : Prop :=
  Forall (fun c => Py.is_linebreak c = false) l.

(** The lines [append_log] finds in the log file: none when there is
    no file. *)
Definition logged (rt : runtime) (found : option Py.bytes) : option (list Py.text) :=
  match found with
  | None => Some []
  | Some c =>
      match utf8_decode rt c with
      | Some t => Some (Py.splitlines (Py.universal_newlines t))
      | None => None
      end
  end.

(** The entry [append_log] makes of a line. *)
Definition log_entry (hs : host) (line : Py.text) : Py.text :=
  Py.strip (Py.lit "[" ++ local_stamp hs ++ Py.lit "] " ++ line).

(** [str.lower] on one character of ASCII. *)
Definition lower_char (c : N) : N :=
  if ((65 <=? c) && (c <=? 90))%N then (c + 32)%N else c.

(** A session after the given lines were printed, the first one
    first. *)
Definition shown (lines : list Py.text) (k : console) : console :=
  fold_left (fun k line => add_printed line k) lines k.

(** The number that the [learned] command reads after its name: 10 when
    there is none, or none that [int] accepts. *)
Definition learned_count (rt : runtime) (c : Py.text) : Z :=
  match Py.split_ws c with
  | _ :: x :: _ => default 10 (Py.int_of_str (decimal_of rt) x)
  | _ => 10
  end.

(** * Properties *)

(** ** The order on version tuples *)

Section TupleOrder.
Import Py.

Lemma tuple_gt_irrefl (a : list Z) : tuple_gt a a = false.
Proof.
  induction a as [|x a IH]; simpl; [reflexivity|].
  by rewrite Z.eqb_refl.
Qed.

Lemma tuple_gt_trans (a b c : list Z) :
  tuple_gt a b = true -> tuple_gt b c = true -> tuple_gt a c = true.
Proof.
  revert b c. induction a as [|x a IH]; intros [|y b] [|z c]; simpl; try done.
  destruct (Z.eqb_spec x y) as [->|Hxy]; destruct (Z.eqb_spec y z) as [->|Hyz];
    try destruct (Z.eqb_spec x z) as [->|Hxz];
    rewrite ?Z.ltb_lt; eauto; try done; lia.
Qed.

Lemma tuple_gt_asym (a b : list Z) :
  tuple_gt a b = true -> tuple_gt b a = false.
Proof.
  revert b. induction a as [|x a IH]; intros [|y b]; simpl; try done.
  rewrite (Z.eqb_sym y x).
  destruct (Z.eqb_spec x y) as [->|Hxy];
    rewrite ?Z.ltb_lt, ?Z.ltb_ge; eauto; lia.
Qed.

Lemma tuple_gt_total (a b : list Z) :
  a <> b -> tuple_gt a b = true \/ tuple_gt b a = true.
Proof.
  revert b. induction a as [|x a IH]; intros [|y b] Hne; simpl; try done; auto.
  rewrite (Z.eqb_sym y x).
  destruct (Z.eqb_spec x y) as [->|Hxy]; rewrite ?Z.ltb_lt; [|lia].
  apply IH. congruence.
Qed.

(** [tuple_gt] is the lexicographic order: the tuples agree on a common
    prefix after which either the left one has the greater component
    or the right one has ended. *)
Lemma tuple_gt_lexicographic (a b : list Z) :
  tuple_gt a b = true <->
  (exists p x a' y b', a = p ++ x :: a' /\ b = p ++ y :: b' /\ y < x)
  \/ (exists x a', a = b ++ x :: a').
Proof.
  revert b. induction a as [|x a IH]; intros b.
  - simpl. split; [done|].
    intros [(p & x & a' & y & b' & Ha & _)|(x & a' & Ha)];
      by destruct p || destruct b.
  - destruct b as [|y b]; simpl.
    + split; [|done]. intros _. right. by exists x, a.
    + destruct (Z.eqb_spec x y) as [->|Hxy].
      * rewrite IH. split.
        -- intros [(p & x & a' & z & b' & -> & -> & Hlt)|(x & a' & ->)].
           ++ left. by exists (y :: p), x, a', z, b'.
           ++ right. by exists x, a'.
        -- intros [(p & x & a' & z & b' & Ha & Hb & Hlt)|(x & a' & Ha)].
           ++ destruct p as [|w p]; simplify_eq/=; [lia|].
              left. by exists p, x, a', z, b'.
           ++ simplify_eq/=. right. by exists x, a'.
      * rewrite Z.ltb_lt. split.
        -- intros Hlt. left. by exists [], x, a, y, b.
        -- intros [(p & x' & a' & z & b' & Ha & Hb & Hlt)|(x' & a' & Ha)].
           ++ destruct p as [|w p]; by simplify_eq/=.
           ++ by simplify_eq/=.
Qed.
End TupleOrder.

(** C6. The comparison of versions is the strict part of a total order
    on tuples of integers, taken component by component:
    [version_gt "14.5" "14.10"] is false, [version_gt "14.10" "14.5"] is
    true, and [version_gt v v] is false for every version string [v].
    [version_gt] compares the tuples of its two arguments with
    [tuple_gt], which is irreflexive, transitive and total, and decides
    by the first component where the tuples differ. *)
Theorem version_gt_strict_total_order (rt : runtime) :
  BnUpdater.version_tuple rt (Py.lit "14.5") = [14; 5]
  /\ BnUpdater.version_tuple rt (Py.lit "14.10") = [14; 10]
  /\ BnUpdater.version_gt rt (Py.lit "14.5") (Py.lit "14.10") = false
  /\ BnUpdater.version_gt rt (Py.lit "14.10") (Py.lit "14.5") = true
  /\ BnUpdater.version_gt rt (Py.lit "14.5") (Py.lit "14.5") = false
  /\ (forall v, BnUpdater.version_gt rt v v = false)
  /\ (forall a b, BnUpdater.version_gt rt a b
                  = Py.tuple_gt (BnUpdater.version_tuple rt a)
                                (BnUpdater.version_tuple rt b))
  /\ (forall a, Py.tuple_gt a a = false)
  /\ (forall a b c, Py.tuple_gt a b = true -> Py.tuple_gt b c = true ->
                    Py.tuple_gt a c = true)
  /\ (forall a b, a <> b -> Py.tuple_gt a b = true \/ Py.tuple_gt b a = true)
  /\ (forall a b, Py.tuple_gt a b = true <->
        (exists p x a' y b', a = p ++ x :: a' /\ b = p ++ y :: b' /\ y < x)
        \/ (exists x a', a = b ++ x :: a')).
Proof.
  repeat split; try by vm_compute.
  - intros v. apply tuple_gt_irrefl.
  - apply tuple_gt_irrefl.
  - apply tuple_gt_trans.
  - by apply tuple_gt_total.
  - by apply tuple_gt_lexicographic.
  - by apply tuple_gt_lexicographic.
Qed.

(** ** Running the monad *)

Section Run.
Context {A B : Type}.

Lemma bind_ok (m : IO A) (k : A -> IO B) s a s1 :
  m s = (Ok a, s1) -> bind m k s = k a s1.
Proof. unfold bind. by intros ->. Qed.

Lemma bind_raise (m : IO A) (k : A -> IO B) s e s1 :
  m s = (Raise e, s1) -> bind m k s = (Raise e, s1).
Proof. unfold bind. by intros ->. Qed.

Lemma bind_fst_ok (m : IO A) (k : A -> IO B) s a :
  fst (m s) = Ok a -> bind m k s = k a (snd (m s)).
Proof. unfold bind. destruct (m s) as [r s1]. simpl. by intros ->. Qed.

Lemma bind_inv (m : IO A) (k : A -> IO B) s r s' :
  bind m k s = (r, s') ->
  (exists a s1, m s = (Ok a, s1) /\ k a s1 = (r, s'))
  \/ (exists e, m s = (Raise e, s') /\ r = Raise e).
Proof.
  unfold bind. destruct (m s) as [[a|e] s1]; intros H.
  - left. by exists a, s1.
  - right. exists e. by simplify_eq.
Qed.
End Run.

Lemma set_faults_same s : set_faults (faults s) s = s.
Proof. by destruct s. Qed.

Lemma next_fault_run s : exists f l, next_fault s = (Ok f, set_faults l s).
Proof.
  unfold next_fault. destruct (faults s) as [|f l] eqn:E.
  - exists NoFault, []. by rewrite <- E, set_faults_same.
  - by exists f, l.
Qed.

Lemma fallible_run s :
  exists l, fallible s = (Ok tt, set_faults l s)
            \/ fallible s = (Raise OSError, set_faults l s).
Proof.
  destruct (next_fault_run s) as (f & l & E). exists l.
  unfold fallible. rewrite (bind_ok _ _ _ _ _ E). destruct f; auto.
Qed.

Lemma write_run p d s :
  exists l, write p d s = (Ok tt, append_to p d (set_faults l s))
            \/ exists n, write p d s = (Raise OSError, append_to p (take n d) (set_faults l s)).
Proof.
  destruct (next_fault_run s) as (f & l & E). exists l.
  unfold write. rewrite (bind_ok _ _ _ _ _ E). destruct f; eauto.
Qed.

Lemma read_file_run p s :
  (fs s !! p = None /\ read_file p s = (Raise FileNotFoundError, s))
  \/ exists c l, fs s !! p = Some c
       /\ (read_file p s = (Ok c, set_faults l s)
           \/ read_file p s = (Raise OSError, set_faults l s)).
Proof.
  unfold read_file, bind, get_state, lift_opt. destruct (fs s !! p) as [c|] eqn:E.
  - right. destruct (fallible_run s) as (l & [F|F]); exists c, l; split; auto;
      unfold ret; simpl; rewrite F; auto.
  - by left.
Qed.

Lemma replace_run src dst s :
  (fs s !! src = None /\ replace src dst s = (Raise FileNotFoundError, s))
  \/ exists c l, fs s !! src = Some c
       /\ (replace src dst s = (Ok tt, rename_file src dst c (set_faults l s))
           \/ replace src dst s = (Raise OSError, set_faults l s)).
Proof.
  unfold replace, bind, get_state. simpl. destruct (fs s !! src) as [c|] eqn:E.
  - right. destruct (fallible_run s) as (l & [F|F]); exists c, l; split; auto;
      rewrite F; auto.
  - by left.
Qed.

Lemma remove_run p s :
  (fs s !! p = None /\ remove p s = (Raise FileNotFoundError, s))
  \/ exists c l, fs s !! p = Some c
       /\ (remove p s = (Ok tt, delete_file p (set_faults l s))
           \/ remove p s = (Raise OSError, set_faults l s)).
Proof.
  unfold remove, bind, get_state. simpl. destruct (fs s !! p) as [c|] eqn:E.
  - right. destruct (fallible_run s) as (l & [F|F]); exists c, l; split; auto;
      rewrite F; auto.
  - by left.
Qed.

Lemma open_truncate_run p s :
  exists l, open_truncate p s = (Ok tt, put_file (EvTruncate p) p [] (set_faults l s))
            \/ open_truncate p s = (Raise OSError, set_faults l s).
Proof.
  destruct (fallible_run s) as (l & [F|F]); exists l; unfold open_truncate, bind;
    rewrite F; auto.
Qed.

Lemma fsync_run p s :
  exists l, fsync p s = (Ok tt, log_event (EvSync p) (set_faults l s))
            \/ fsync p s = (Raise OSError, set_faults l s).
Proof.
  destruct (fallible_run s) as (l & [F|F]); exists l; unfold fsync, bind;
    rewrite F; auto.
Qed.

(** The name the generator settles on is free and built from the prefix
    and the suffix. *)
Lemma free_name_spec d prefix suffix files names p rest :
  free_name d prefix suffix files names = Some (p, rest) ->
  files !! p = None /\ exists n, p = (d, prefix +:+ n +:+ suffix).
Proof.
  induction names as [|n names IH]; simpl; [done|].
  destruct (files !! (d, prefix +:+ n +:+ suffix)) eqn:E; [done|].
  intros [= <- <-]. eauto.
Qed.

Lemma mkstemp_run prefix suffix d s :
  (exists e s', mkstemp prefix suffix d s = (Raise e, s')
      /\ fs s' = fs s /\ trace s' = trace s /\ mem s' = mem s
      /\ mem_dirty s' = mem_dirty s /\ mem_lock s' = mem_lock s)
  \/ exists n l rest,
       let p := (d, prefix +:+ n +:+ suffix) in
       fs s !! p = None
       /\ mkstemp prefix suffix d s
          = (Ok p, put_file (EvCreate p) p [] (set_entropy rest (set_faults l s))).
Proof.
  unfold mkstemp. destruct (fallible_run s) as (l & [F|F]).
  - rewrite (bind_ok _ _ _ _ _ F). unfold bind, get_state. simpl.
    destruct (free_name d prefix suffix (fs s) (entropy s)) as [[p rest]|] eqn:E.
    + right. apply free_name_spec in E as (Hfree & n & ->).
      by exists n, l, rest.
    + left. by eexists _, _.
  - rewrite (bind_raise _ _ _ _ _ F). left. by eexists _, _.
Qed.

(** ** What a run leaves alone *)

Lemma quiet_refl q s : quiet q s s.
Proof. split; auto. by exists []. Qed.

Lemma quiet_trans q s1 s2 s3 : quiet q s1 s2 -> quiet q s2 s3 -> quiet q s1 s3.
Proof.
  intros [M1 D1 L1 F1 (l1 & T1 & A1)] [M2 D2 L2 F2 (l2 & T2 & A2)].
  split; try congruence; auto.
  - intros p Hp. rewrite F2, F1; auto.
  - exists (l2 ++ l1). split; [by rewrite T2, T1, app_assoc|].
    apply Forall_app. split; [|done].
    eapply Forall_impl; [exact A2|]. intros ef H p Hp. rewrite H, F1; auto.
Qed.

Lemma quiet_set_faults q l s : quiet q s (set_faults l s).
Proof. split; auto. by exists []. Qed.

Lemma quiet_set_entropy q l s : quiet q s (set_entropy l s).
Proof. split; auto. by exists []. Qed.

Lemma quiet_put_file q e d s : quiet q s (put_file e q d s).
Proof.
  split; auto; simpl.
  - intros p Hp. by rewrite lookup_insert_ne.
  - exists [(e, <[q := d]> (fs s))]. split; [done|].
    constructor; [|done]. intros p Hp. simpl. by rewrite lookup_insert_ne.
Qed.

Lemma quiet_append_to q d s : quiet q s (append_to q d s).
Proof. apply quiet_put_file. Qed.

Lemma quiet_log_event q e s : quiet q s (log_event e s).
Proof.
  split; auto. exists [(e, fs s)]. split; [done|]. by constructor.
Qed.

Lemma write_all_quiet q cs s : quiet q s (snd (write_all q cs s)).
Proof.
  revert s. induction cs as [|c cs IH]; intros s; simpl; [apply quiet_refl|].
  destruct (write_run q c s) as (l & [E|[n E]]).
  - rewrite (bind_ok _ _ _ _ _ E).
    eapply quiet_trans; [|apply IH].
    eapply quiet_trans; [apply quiet_set_faults | apply quiet_append_to].
  - rewrite (bind_raise _ _ _ _ _ E). simpl.
    eapply quiet_trans; [apply quiet_set_faults | apply quiet_append_to].
Qed.

(** A sequence of writes that succeeds has appended every chunk, and
    logged one write for each. *)
Lemma write_all_ok q cs s s' :
  write_all q cs s = (Ok tt, s') ->
  default [] (fs s' !! q) = default [] (fs s !! q) ++ concat cs
  /\ List.map fst (trace s') = rev (List.map (EvWrite q) cs) ++ List.map fst (trace s).
Proof.
  revert s. induction cs as [|c cs IH]; intros s; simpl.
  - intros [= <-]. by rewrite app_nil_r.
  - destruct (write_run q c s) as (l & [E|[n E]]).
    + rewrite (bind_ok _ _ _ _ _ E). intros H. apply IH in H as [H1 H2].
      simpl in H1, H2. rewrite lookup_insert_eq in H1. simpl in H1.
      split; [by rewrite H1, app_assoc|].
      by rewrite H2, <- app_assoc.
    + by rewrite (bind_raise _ _ _ _ _ E).
Qed.

Lemma quiet_delete_file q s : quiet q s (delete_file q s).
Proof.
  split; auto; simpl.
  - intros p Hp. by rewrite lookup_delete_ne.
  - exists [(EvRemove q, delete q (fs s))]. split; [done|].
    constructor; [|done]. intros p Hp. simpl. by rewrite lookup_delete_ne.
Qed.

Lemma write_all_some q cs s :
  is_Some (fs s !! q) -> is_Some (fs (snd (write_all q cs s)) !! q).
Proof.
  revert s. induction cs as [|c cs IH]; intros s Hs; simpl; [done|].
  destruct (write_run q c s) as (l & [E|[n E]]).
  - rewrite (bind_ok _ _ _ _ _ E). apply IH. simpl. rewrite lookup_insert_eq. eauto.
  - rewrite (bind_raise _ _ _ _ _ E). simpl. rewrite lookup_insert_eq. eauto.
Qed.

(** The [finally] of [atomic_save_json] touches the temporary file only,
    and does nothing at all when that file is gone. *)
Lemma cleanup_quiet tmp s :
  quiet tmp s (snd (ignore_file_not_found (remove tmp) s)).
Proof.
  unfold ignore_file_not_found.
  destruct (remove_run tmp s) as [[_ E]|(c & l & _ & [E|E])]; rewrite E; simpl.
  - apply quiet_refl.
  - eapply quiet_trans; [apply quiet_set_faults | apply quiet_delete_file].
  - apply quiet_set_faults.
Qed.

Lemma cleanup_gone tmp s :
  fs s !! tmp = None -> ignore_file_not_found (remove tmp) s = (Ok tt, s).
Proof.
  intros H. unfold ignore_file_not_found.
  destruct (remove_run tmp s) as [[_ E]|(c & l & ? & _)]; [by rewrite E|congruence].
Qed.

Section AtomicSave.
Variable rt : runtime.
Variable ev : environ.

(** The [try] block of [atomic_save_json]: when it fails, only the
    temporary file has been touched; when it succeeds, the temporary
    file held the whole document, was synced, and the last step
    renamed it over [p]. *)
Lemma save_body_spec data tmp p s1 :
  tmp <> p -> is_Some (fs s1 !! tmp) ->
  match (let* _ := json_dump_to rt data tmp in
         let* _ := fsync tmp in
         let* _ := close tmp in
         replace tmp p) s1 with
  | (Raise _, s2) => quiet tmp s1 s2
  | (Ok _, s2) =>
      exists s' c,
        quiet tmp s1 s' /\ s2 = rename_file tmp p c s'
        /\ fs s' !! tmp = Some c
        /\ c = default [] (fs s1 !! tmp) ++ concat (json_dump rt data)
        /\ List.map fst (trace s')
           = EvSync tmp :: rev (List.map (EvWrite tmp) (json_dump rt data))
             ++ List.map fst (trace s1)
  end.
Proof.
  intros Hne Hsome. unfold json_dump_to.
  pose proof (write_all_quiet tmp (json_dump rt data) s1) as Q.
  pose proof (write_all_some tmp (json_dump rt data) s1 Hsome) as S.
  destruct (write_all tmp (json_dump rt data) s1) as [[[]|e] s2] eqn:W;
    simpl in Q, S.
  2: { by rewrite (bind_raise _ _ _ _ _ W). }
  rewrite (bind_ok _ _ _ _ _ W).
  apply write_all_ok in W as [Wc Wt].
  destruct (fsync_run tmp s2) as (l2 & [F|F]).
  2: { rewrite (bind_raise _ _ _ _ _ F).
       eapply quiet_trans; [exact Q|apply quiet_set_faults]. }
  rewrite (bind_ok _ _ _ _ _ F). unfold close.
  set (s3 := log_event (EvSync tmp) (set_faults l2 s2)).
  assert (Q3 : quiet tmp s1 s3).
  { eapply quiet_trans; [exact Q|].
    eapply quiet_trans; [apply quiet_set_faults|apply quiet_log_event]. }
  destruct (fallible_run s3) as (l3 & [C|C]).
  2: { rewrite (bind_raise _ _ _ _ _ C).
       eapply quiet_trans; [exact Q3|apply quiet_set_faults]. }
  rewrite (bind_ok _ _ _ _ _ C).
  destruct S as [c Hc].
  destruct (replace_run tmp p (set_faults l3 s3)) as [[H _]|(c' & l4 & H & [R|R])];
    simpl in H; [congruence| |]; rewrite R.
  - exists (set_faults l4 (set_faults l3 s3)), c'. split_and!; simpl; auto.
    + eapply quiet_trans; [exact Q3|].
      eapply quiet_trans; apply quiet_set_faults.
    + rewrite <- Wc. by rewrite H.
    + by rewrite Wt.
  - eapply quiet_trans; [exact Q3|].
    eapply quiet_trans; apply quiet_set_faults.
Qed.

(** [atomic_save_json]: whatever fails, [p] either holds what it held
    throughout, or it was replaced, in the last logged step, by the
    whole document; the temporary file is made in the directory of [p],
    and no file of another directory is touched at any moment. *)
Lemma atomic_save_json_spec data p s :
  (forall n, (BnDaemon.dirname_or_dot p, ".tmp_" +:+ n +:+ "") <> p) ->
  let out := BnDaemon.atomic_save_json rt data p s in
  mem (snd out) = mem s /\ mem_dirty (snd out) = mem_dirty s
  /\ mem_lock (snd out) = mem_lock s
  /\ exists l, trace (snd out) = l ++ trace s
     /\ (forall q, fst q <> BnDaemon.dirname_or_dot p -> q <> p ->
           fs (snd out) !! q = fs s !! q
           /\ Forall (fun ef => snd ef !! q = fs s !! q) l)
     /\ match fst out with
        | Ok _ =>
            fs (snd out) !! p = Some (concat (json_dump rt data))
            /\ exists tmp l1,
                 tmp <> p
                 /\ fst tmp = BnDaemon.dirname_or_dot p
                 /\ l = (EvReplace tmp p, fs (snd out)) :: l1
                 /\ Forall (fun ef => snd ef !! p = fs s !! p) l1
                 /\ List.map fst (rev l) =
                      EvCreate tmp :: List.map (EvWrite tmp) (json_dump rt data)
                      ++ [EvSync tmp; EvReplace tmp p]
        | Raise _ =>
            fs (snd out) !! p = fs s !! p
            /\ Forall (fun ef => snd ef !! p = fs s !! p) l
        end.
Proof.
  intros Hne out. subst out. unfold BnDaemon.atomic_save_json.
  set (d := BnDaemon.dirname_or_dot p).
  destruct (mkstemp_run ".tmp_" "" d s)
    as [(e & s' & E & Hfs & Htr & Hm & Hd & Hl)|(n & l0 & rest & Hfree & E)].
  { rewrite (bind_raise _ _ _ _ _ E). simpl. split_and!; auto.
    exists []. split; [done|]. rewrite Hfs. by split_and!. }
  simpl in Hfree, E. set (tmp := (d, ".tmp_" +:+ n +:+ "")) in *.
  assert (Hnp : tmp <> p) by apply Hne.
  assert (Hother : forall q, fst q <> d -> q <> tmp) by (by intros q Hq ->).
  rewrite (bind_ok _ _ _ _ _ E).
  set (s1 := put_file (EvCreate tmp) tmp [] (set_entropy rest (set_faults l0 s))).
  assert (Q1 : quiet tmp s s1).
  { eapply quiet_trans; [apply quiet_set_faults|].
    eapply quiet_trans; [apply quiet_set_entropy|apply quiet_put_file]. }
  assert (Hs1 : is_Some (fs s1 !! tmp)).
  { simpl. rewrite lookup_insert_eq. eauto. }
  pose proof (save_body_spec data tmp p s1 Hnp Hs1) as Hbody.
  unfold try_finally.
  destruct ((let* _ := json_dump_to rt data tmp in
             let* _ := fsync tmp in
             let* _ := close tmp in
             replace tmp p) s1) as [[[]|e] s2].
  - destruct Hbody as (s' & c & Q & -> & Htmp & Hc & Ht).
    rewrite cleanup_gone.
    2: { simpl. rewrite lookup_insert_ne by done. apply lookup_delete_eq. }
    pose proof (quiet_trans _ _ _ _ Q1 Q) as [M D L F (l & T & All)].
    simpl. split_and!; auto.
    exists ((EvReplace tmp p, <[p := c]> (delete tmp (fs s'))) :: l).
    split; [by rewrite T|].
    split.
    { intros q Hq Hqp. pose proof (Hother q Hq) as Hqt.
      assert (Hlast : <[p := c]> (delete tmp (fs s')) !! q = fs s !! q).
      { rewrite lookup_insert_ne, lookup_delete_ne by done. by apply F. }
      split; [done|]. constructor; [done|].
      eapply Forall_impl; [exact All|]. intros ef H. by apply H. }
    split.
    { rewrite lookup_insert_eq, Hc. simpl. by rewrite lookup_insert_eq. }
    exists tmp, l. split_and!; auto.
    + eapply Forall_impl; [exact All|]. intros ef H. by apply H.
    + assert (Hl : List.map fst l
                   = EvSync tmp :: rev (List.map (EvWrite tmp) (json_dump rt data))
                     ++ [EvCreate tmp]).
      { apply (f_equal (List.map fst)) in T. rewrite Ht, map_app in T. simpl in T.
        rewrite (app_comm_cons _ _ (EvSync tmp)) in T.
        change (EvCreate tmp :: List.map fst (trace s))
          with ([EvCreate tmp] ++ List.map fst (trace s)) in T.
        rewrite app_assoc in T. by apply app_inv_tail in T. }
      simpl. rewrite map_app, map_rev, Hl. simpl.
      rewrite ?rev_app_distr, ?rev_involutive. simpl.
      by rewrite <- ?app_assoc.
  - pose proof (cleanup_quiet tmp s2) as Q3.
    pose proof (quiet_trans _ _ _ _ (quiet_trans _ _ _ _ Q1 Hbody) Q3)
      as [M D L F (l & T & All)].
    assert (Hp : p <> tmp) by done.
    assert (Hframe : forall q, fst q <> d -> q <> p ->
              fs (snd (ignore_file_not_found (remove tmp) s2)) !! q = fs s !! q
              /\ Forall (fun ef => snd ef !! q = fs s !! q) l).
    { intros q Hq _. pose proof (Hother q Hq) as Hqt. split; [by apply F|].
      eapply Forall_impl; [exact All|]. intros ef H. by apply H. }
    destruct (ignore_file_not_found (remove tmp) s2) as [[[]|e'] s3];
      simpl in *; split_and!; auto; exists l; split_and!; auto;
      eapply Forall_impl; eauto; intros ef H; by apply H.
Qed.
End AtomicSave.

(** ** Saving the state document of the daemon *)

Section SaveMemory.
Variable rt : runtime.
Variable ev : environ.

Lemma tmp_is_not_primary n :
  (BnDaemon.dirname_or_dot (BnDaemon.MEM_PATH ev), ".tmp_" +:+ n +:+ "")
  <> BnDaemon.MEM_PATH ev.
Proof. unfold BnDaemon.MEM_PATH. simpl. intros [= _ ?]. Qed.

(** The state file has a directory of its own to name. *)
Lemma dirname_of_primary :
  BnDaemon.dirname_or_dot (BnDaemon.MEM_PATH ev) = fst (BnDaemon.MEM_PATH ev).
Proof.
  unfold BnDaemon.dirname_or_dot, BnDaemon.MEM_PATH, BnDaemon.STATE_DIR. simpl.
  by destruct (BASE_DIR ev).
Qed.

Lemma save_memory_unfold s :
  BnDaemon.save_memory rt ev s =
  let s0 := log_event EvAcquire (set_mem_lock true s) in
  match BnDaemon.atomic_save_json rt (mem s) (BnDaemon.MEM_PATH ev) s0 with
  | (Ok _, s1) =>
      (Ok tt, log_event EvRelease (set_mem_lock false
                (log_event (EvSetDirty false (mem_lock s1))
                   (set_mem_dirty false s1))))
  | (Raise e, s1) => (Raise e, log_event EvRelease (set_mem_lock false s1))
  end.
Proof.
  unfold BnDaemon.save_memory, with_lock, try_finally, bind, modify, get_state,
    BnDaemon.assign_dirty.
  simpl. by destruct (BnDaemon.atomic_save_json _ _ _ _) as [[[]|e] s1].
Qed.

(** One save: the log it adds is [after ++ before], newest first.  At
    every moment of [before] the primary path holds what it held; the
    moments of [after], if any, follow the rename and show the whole
    new document.  The temporary file lies in the directory of the
    primary path, and no file of another directory changes at any
    moment. *)
Lemma save_memory_spec s :
  let primary := BnDaemon.MEM_PATH ev in
  let document := concat (json_dump rt (mem s)) in
  let out := BnDaemon.save_memory rt ev s in
  mem (snd out) = mem s
  /\ exists before after,
       trace (snd out) = (after ++ before) ++ trace s
       /\ Forall (fun ef => snd ef !! primary = fs s !! primary) before
       /\ Forall (fun ef => snd ef !! primary = Some document) after
       /\ (forall q, fst q <> fst primary ->
             fs (snd out) !! q = fs s !! q
             /\ Forall (fun ef => snd ef !! q = fs s !! q) (after ++ before))
       /\ match fst out with
          | Ok _ =>
              fs (snd out) !! primary = Some document
              /\ mem_dirty (snd out) = false
              /\ exists tmp,
                   tmp <> primary
                   /\ fst tmp = fst primary
                   /\ List.map fst (rev (after ++ before)) =
                        [EvAcquire; EvCreate tmp]
                        ++ List.map (EvWrite tmp) (json_dump rt (mem s))
                        ++ [EvSync tmp; EvReplace tmp primary;
                            EvSetDirty false true; EvRelease]
          | Raise _ =>
              fs (snd out) !! primary = fs s !! primary
              /\ after = []
              /\ mem_dirty (snd out) = mem_dirty s
          end.
Proof.
  intros primary document out. subst out.
  rewrite save_memory_unfold. simpl.
  set (s0 := log_event EvAcquire (set_mem_lock true s)).
  pose proof (atomic_save_json_spec rt (mem s) primary s0 tmp_is_not_primary)
    as (M & D & L & l & T & Hframe & H).
  fold primary. unfold primary in Hframe. rewrite dirname_of_primary in Hframe.
  fold primary in Hframe.
  assert (Hq : forall q, fst q <> fst primary -> q <> primary) by (by intros q Hq ->).
  destruct (BnDaemon.atomic_save_json rt (mem s) primary s0) as [[[]|e] s1];
    simpl in *.
  - destruct H as (Hp & tmp & l1 & Hne & Hdir & -> & All & Hev).
    split; [done|].
    exists (l1 ++ [(EvAcquire, fs s)]),
           [(EvRelease, fs s1); (EvSetDirty false (mem_lock s1), fs s1);
            (EvReplace tmp primary, fs s1)].
    assert (Hl1 : List.map fst (rev l1)
                  = EvCreate tmp :: List.map (EvWrite tmp) (json_dump rt (mem s))
                    ++ [EvSync tmp]).
    { simpl in Hev. rewrite map_app in Hev. simpl in Hev.
      assert (E : forall X : list event,
                X ++ [EvSync tmp; EvReplace tmp primary]
                = (X ++ [EvSync tmp]) ++ [EvReplace tmp primary])
        by (intros X; by rewrite <- app_assoc).
      rewrite E, app_comm_cons in Hev. by apply app_inj_tail in Hev as [Hev _]. }
    split_and!; auto.
    + rewrite T. simpl. by rewrite <- app_assoc.
    + apply Forall_app. split; [done|]. by constructor.
    + intros q Hqd. destruct (Hframe q Hqd (Hq q Hqd)) as [Hfs Hall].
      split; [done|]. inversion Hall as [|? ? Hlast Hrest]; subst.
      repeat (constructor; [done|]).
      apply Forall_app. split; [done|]. by constructor.
    + exists tmp. split; [done|]. split; [rewrite Hdir; apply dirname_of_primary|].
      rewrite L.
      rewrite !rev_app_distr. simpl. rewrite !map_app, Hl1. simpl.
      by rewrite <- !app_assoc.
  - destruct H as [Hp All]. split; [done|].
    exists ((EvRelease, fs s1) :: l ++ [(EvAcquire, fs s)]), [].
    split_and!; auto.
    + rewrite T. simpl. by rewrite <- app_assoc.
    + constructor; [done|]. apply Forall_app. split; [done|]. by constructor.
    + intros q Hqd. destruct (Hframe q Hqd (Hq q Hqd)) as [Hfs Hall].
      split; [done|]. simpl. constructor; [done|].
      apply Forall_app. split; [done|]. by constructor.
Qed.
End SaveMemory.

Section SaveSequence.
Variable rt : runtime.
Variable ev : environ.

Lemma whole_document_step docs d old mid found :
  whole_document rt [d] old mid -> whole_document rt docs mid found ->
  whole_document rt (d :: docs) old found.
Proof.
  intros [->|(d' & [<-|[]] & ->)] [->|(d2 & Hin & ->)]; unfold whole_document;
    simpl; eauto 6.
Qed.

Lemma save_each_cons d docs s :
  BnDaemon.save_each rt ev (d :: docs) s
  = BnDaemon.save_each rt ev docs (snd (BnDaemon.save_memory rt ev (set_mem d s))).
Proof.
  simpl. unfold bind, modify, try_except, ret.
  by destruct (BnDaemon.save_memory rt ev (set_mem d s)) as [[[]|e] s1].
Qed.

Lemma save_each_spec docs s :
  let primary := BnDaemon.MEM_PATH ev in
  let out := BnDaemon.save_each rt ev docs s in
  fst out = Ok tt
  /\ whole_document rt docs (fs s !! primary) (fs (snd out) !! primary)
  /\ exists steps, trace (snd out) = steps ++ trace s
       /\ Forall (fun ef => whole_document rt docs (fs s !! primary) (snd ef !! primary))
                 steps.
Proof.
  revert s. induction docs as [|d docs IH]; intros s primary out; subst out.
  { simpl. split_and!; [done|by left|]. by exists []. }
  rewrite save_each_cons.
  pose proof (save_memory_spec rt ev (set_mem d s))
    as (_ & before & after & T & Hb & Ha & _ & H).
  fold primary in Hb, Ha, H. simpl in T, Hb, Ha, H.
  assert (Hfinal : whole_document rt [d] (fs s !! primary)
            (fs (snd (BnDaemon.save_memory rt ev (set_mem d s))) !! primary)).
  { destruct (fst (BnDaemon.save_memory rt ev (set_mem d s))).
    - right. exists d. split; [by left|]. by destruct H.
    - left. by destruct H. }
  destruct (BnDaemon.save_memory rt ev (set_mem d s)) as [[[]|e] s1];
    simpl in *.
  all: destruct (IH s1) as (Hok & Hw & steps & T' & Hs); fold primary in Hw, Hs.
  all: split; [exact Hok|]; split; [by eapply whole_document_step|].
  all: exists (steps ++ after ++ before);
    split; [by rewrite T', T, <- !app_assoc|].
  all: apply Forall_app; split;
    [eapply Forall_impl; [exact Hs|]; intros ef Hef;
       by eapply whole_document_step
    |apply Forall_app; split;
       [eapply Forall_impl; [exact Ha|]; intros ef ->; right; exists d;
          split; [by left|done]
       |eapply Forall_impl; [exact Hb|]; intros ef ->; by left]].
Qed.
End SaveSequence.

(** C1, as amended.  Every save of the daemon ([Bn.py]) writes the
    serialized document to a temporary file in the directory of the
    primary path, syncs it, and then renames it over the primary path in
    one step: the moments logged during a save split into those before
    the rename, at which the primary path holds what it held, and those
    after it, at which it holds the whole new document; no file of
    another directory changes at any moment; a save that raises has
    left the primary path as it was; and during any run of saves a
    reader finds the initial contents or the whole of one of the saved
    documents. *)
Theorem daemon_save_is_atomic (rt : runtime) (ev : environ) (s : state) :
  let primary := BnDaemon.MEM_PATH ev in
  let document := concat (json_dump rt (mem s)) in
  let out := BnDaemon.save_memory rt ev s in
  (exists before after,
      trace (snd out) = (after ++ before) ++ trace s
      /\ Forall (fun ef => snd ef !! primary = fs s !! primary) before
      /\ Forall (fun ef => snd ef !! primary = Some document) after
      /\ (forall q, fst q <> fst primary ->
            fs (snd out) !! q = fs s !! q
            /\ Forall (fun ef => snd ef !! q = fs s !! q) (after ++ before))
      /\ match fst out with
         | Ok _ =>
             fs (snd out) !! primary = Some document
             /\ mem_dirty (snd out) = false
             /\ exists tmp,
                  tmp <> primary
                  /\ fst tmp = fst primary
                  /\ List.map fst (rev (after ++ before)) =
                       [EvAcquire; EvCreate tmp]
                       ++ List.map (EvWrite tmp) (json_dump rt (mem s))
                       ++ [EvSync tmp; EvReplace tmp primary;
                           EvSetDirty false true; EvRelease]
         | Raise _ =>
             fs (snd out) !! primary = fs s !! primary
             /\ after = []
             /\ mem_dirty (snd out) = mem_dirty s
         end)
  /\ forall docs,
       let run := BnDaemon.save_each rt ev docs s in
       whole_document rt docs (fs s !! primary) (fs (snd run) !! primary)
       /\ exists steps,
            trace (snd run) = steps ++ trace s
            /\ Forall (fun ef => whole_document rt docs (fs s !! primary)
                                   (snd ef !! primary)) steps.
Proof.
  intros primary document out. split.
  - by destruct (save_memory_spec rt ev s) as [_ H].
  - intros docs run. by destruct (save_each_spec rt ev docs s) as [_ H].
Qed.

(** C1 fails for the updater ([bn.py]): its [save_memory] opens the
    primary path for writing and dumps into it.  In [torn_save] the open
    empties the file, a later write fails, the error is swallowed, and
    the primary path is left with two bytes that are neither the old
    document nor the new one. *)
Lemma updater_save_is_torn :
  let old := concat (SampleJson.dump (revision 1)) in
  let out := BnUpdater.save_memory sample_rt offline torn_save in
  fs torn_save !! BnUpdater.MEM_PATH = Some old
  /\ fst out = Ok tt
  /\ List.map fst (rev (trace (snd out)))
     = [EvAcquire; EvTruncate BnUpdater.MEM_PATH;
        EvWrite BnUpdater.MEM_PATH (Py.lit "{");
        EvWrite BnUpdater.MEM_PATH [10%N]; EvRelease]
  /\ fs (snd out) !! BnUpdater.MEM_PATH = Some [123%N; 10%N]
  /\ [123%N; 10%N] <> old
  /\ [123%N; 10%N] <> concat (json_dump sample_rt (mem (snd out))).
Proof. vm_compute. by repeat split. Qed.

(** ** The dirty flag and the autosave of the daemon *)

Section Autosave.
Variable rt : runtime.
Variable ev : environ.

Lemma mark_dirty_run s :
  BnDaemon.mark_dirty s
  = (Ok tt, log_event EvRelease (set_mem_lock false
              (log_event (EvSetDirty true true)
                 (set_mem_dirty true (log_event EvAcquire (set_mem_lock true s)))))).
Proof. reflexivity. Qed.

(** A turn of the loop: nothing when [sget] fails, nothing but the
    look at the flag when the flag is clear, a save when it is set. *)
Lemma autosave_cycle_run s :
  BnDaemon.autosave_cycle rt ev s =
  match fst (BnDaemon.sget (Py.lit "calm") s) with
  | Raise _ => (Ok tt, s)
  | Ok _ =>
      if mem_dirty s
      then (Ok tt, snd (BnDaemon.save_memory rt ev (after_peek s)))
      else (Ok tt, after_peek s)
  end.
Proof.
  unfold BnDaemon.autosave_cycle, try_except, bind at 1.
  unfold BnDaemon.sget, bind, get_state, lift_res, ret.
  destruct (py_get (mem s) (Py.lit "settings") (JDict [])) as [st|e]; [|done].
  destruct (py_get st (Py.lit "calm") (JBool false)) as [v|e]; [|done].
  simpl. unfold with_lock, bind, modify, try_finally, ret. simpl.
  destruct (mem_dirty s); [|done].
  fold (after_peek s).
  by destruct (BnDaemon.save_memory rt ev (after_peek s)) as [[[]|e] s1].
Qed.

Lemma autosave_cycle_clean s :
  mem_dirty s = false ->
  let out := BnDaemon.autosave_cycle rt ev s in
  fst out = Ok tt /\ fs (snd out) = fs s /\ mem (snd out) = mem s
  /\ mem_dirty (snd out) = false
  /\ exists evs, List.map fst (trace (snd out)) = evs ++ List.map fst (trace s)
                 /\ Forall lock_event evs.
Proof.
  intros Hd out. subst out. rewrite autosave_cycle_run, Hd.
  destruct (fst (BnDaemon.sget (Py.lit "calm") s)); simpl; split_and!; auto.
  - exists [EvRelease; EvAcquire]. split; [done|].
    constructor; [by right|]. constructor; [by left|]. constructor.
  - exists []. by split.
Qed.

Lemma autosave_loop_clean n s :
  mem_dirty s = false ->
  let out := BnDaemon.autosave_loop rt ev n s in
  fst out = Ok tt /\ fs (snd out) = fs s /\ mem (snd out) = mem s
  /\ mem_dirty (snd out) = false
  /\ exists evs, List.map fst (trace (snd out)) = evs ++ List.map fst (trace s)
                 /\ Forall lock_event evs.
Proof.
  revert s. induction n as [|n IH]; intros s Hd out; subst out; simpl.
  { split_and!; auto. by exists []. }
  destruct (autosave_cycle_clean s Hd) as (Hok & Hfs & Hm & Hd1 & evs & T & A).
  rewrite (bind_fst_ok _ _ _ _ Hok).
  destruct (IH _ Hd1) as (Hok' & Hfs' & Hm' & Hd' & evs' & T' & A').
  split_and!; try congruence.
  exists (evs' ++ evs). split; [by rewrite T', T, app_assoc|].
  by apply Forall_app.
Qed.
End Autosave.

(** ** Loading the state document of the daemon *)

Section Load.
Variable rt : runtime.
Variable ev : environ.

Lemma load_or_repair_unfold s :
  BnDaemon.load_or_repair rt ev s =
  if negb (bool_decide (is_Some (fs s !! BnDaemon.MEM_PATH ev)))
  then (Ok (BnDaemon.default_memory ev), s)
  else
    match json_load rt (BnDaemon.MEM_PATH ev) s with
    | (Ok j, s1) => (Ok j, s1)
    | (Raise _, s1) =>
        match BnDaemon.repair_by_truncation rt ev s1 with
        | (Ok (Some j), s2) => (Ok j, s2)
        | (Ok None, s2) | (Raise _, s2) =>
            (Ok (BnDaemon.default_memory ev),
             snd (replace (BnDaemon.MEM_PATH ev) (BnDaemon.quarantine_path ev) s2))
        end
    end.
Proof.
  unfold BnDaemon.load_or_repair, bind at 1, path_exists.
  destruct (negb _); [done|].
  unfold try_except at 1.
  destruct (json_load rt (BnDaemon.MEM_PATH ev) s) as [[j|e] s1]; [done|].
  unfold bind at 1, try_except at 1.
  destruct (BnDaemon.repair_by_truncation rt ev s1) as [[[j|]|e'] s2];
    unfold ret; try done;
    unfold bind, try_except;
    by destruct (replace _ _ s2) as [[[]|?] ?].
Qed.

Lemma json_load_unfold p s :
  json_load rt p s =
  match read_file p s with
  | (Ok c, s1) =>
      (match utf8_decode rt c with
       | None => Raise UnicodeError
       | Some t => match json_loads rt t with
                   | Some j => Ok j
                   | None => Raise ValueError
                   end
       end, s1)
  | (Raise e, s1) => (Raise e, s1)
  end.
Proof.
  unfold json_load, read_text, bind, lift_opt, ret, raise.
  destruct (read_file p s) as [[c|e] s1]; [|done].
  destruct (utf8_decode rt c) as [t|]; [|done]. by destruct (json_loads rt t).
Qed.

(** Reading and parsing change nothing but the fault schedule, and what
    they return is a parse of the bytes that are there. *)
Lemma json_load_run p s :
  exists l, snd (json_load rt p s) = set_faults l s
    /\ forall j, fst (json_load rt p s) = Ok j ->
         exists c, fs s !! p = Some c /\ strict_parse rt c = Some j.
Proof.
  rewrite json_load_unfold.
  destruct (read_file_run p s) as [[Hn E]|(c & l & Hc & [E|E])]; rewrite E.
  - exists (faults s). by rewrite set_faults_same.
  - exists l. split; [done|]. simpl. intros j Hj. exists c. split; [done|].
    unfold strict_parse. destruct (utf8_decode rt c) as [t|]; [|done].
    destruct (json_loads rt t); by simplify_eq.
  - by exists l.
Qed.

Lemma repair_by_truncation_unfold s :
  BnDaemon.repair_by_truncation rt ev s =
  match read_file (BnDaemon.MEM_PATH ev) s with
  | (Ok c, s1) =>
      (match Py.rfind 125 (utf8_decode_ignore rt c) with
       | None => Ok None
       | Some i =>
           match json_loads rt (take (i + 1)%nat (utf8_decode_ignore rt c)) with
           | Some j => Ok (Some j)
           | None => Raise ValueError
           end
       end, s1)
  | (Raise e, s1) => (Raise e, s1)
  end.
Proof.
  unfold BnDaemon.repair_by_truncation, bind, lift_opt, ret, raise.
  destruct (read_file _ s) as [[c|e] s1]; [|done].
  destruct (Py.rfind 125 _) as [i|]; [|done]. by destruct (json_loads rt _).
Qed.

Lemma repair_by_truncation_run s :
  exists l, snd (BnDaemon.repair_by_truncation rt ev s) = set_faults l s
    /\ forall j, fst (BnDaemon.repair_by_truncation rt ev s) = Ok (Some j) ->
         exists c, fs s !! BnDaemon.MEM_PATH ev = Some c /\ truncated_parse rt c = Some j.
Proof.
  rewrite repair_by_truncation_unfold.
  destruct (read_file_run (BnDaemon.MEM_PATH ev) s) as [[Hn E]|(c & l & Hc & [E|E])];
    rewrite E.
  - exists (faults s). by rewrite set_faults_same.
  - exists l. split; [done|]. simpl. intros j Hj. exists c. split; [done|].
    unfold truncated_parse. destruct (Py.rfind 125 _) as [i|]; [|done].
    destruct (json_loads rt _); by simplify_eq.
  - by exists l.
Qed.

Lemma fallible_no_faults s : faults s = [] -> fallible s = (Ok tt, s).
Proof. unfold fallible, next_fault, bind. by intros ->. Qed.

Lemma read_file_no_faults p s :
  faults s = [] ->
  read_file p s = (match fs s !! p with
                   | Some c => Ok c
                   | None => Raise FileNotFoundError
                   end, s).
Proof.
  intros H. unfold read_file, bind, get_state, lift_opt.
  destruct (fs s !! p); [|done]. unfold ret. simpl. by rewrite fallible_no_faults.
Qed.

(** Without faults, [load_or_repair] is a function of the bytes of the
    state file. *)
Lemma load_or_repair_no_faults s c :
  faults s = [] -> fs s !! BnDaemon.MEM_PATH ev = Some c ->
  BnDaemon.load_or_repair rt ev s =
  match strict_parse rt c with
  | Some j => (Ok j, s)
  | None =>
      match truncated_parse rt c with
      | Some j => (Ok j, s)
      | None => (Ok (BnDaemon.default_memory ev),
                 rename_file (BnDaemon.MEM_PATH ev) (BnDaemon.quarantine_path ev) c s)
      end
  end.
Proof.
  intros Hf Hc. rewrite load_or_repair_unfold, Hc. simpl.
  assert (Hmove : replace (BnDaemon.MEM_PATH ev) (BnDaemon.quarantine_path ev) s
                  = (Ok tt, rename_file (BnDaemon.MEM_PATH ev)
                                        (BnDaemon.quarantine_path ev) c s)).
  { unfold replace, bind, get_state. simpl. rewrite Hc.
    by rewrite fallible_no_faults. }
  rewrite json_load_unfold, read_file_no_faults, Hc by done.
  assert (Hrepair : forall r,
    match BnDaemon.repair_by_truncation rt ev s with
    | (Ok (Some j), s2) => (Ok j, s2)
    | (Ok None, s2) | (Raise _, s2) =>
        (Ok (BnDaemon.default_memory ev),
         snd (replace (BnDaemon.MEM_PATH ev) (BnDaemon.quarantine_path ev) s2))
    end = r ->
    match truncated_parse rt c with
    | Some j => (Ok j, s)
    | None => (Ok (BnDaemon.default_memory ev),
               rename_file (BnDaemon.MEM_PATH ev) (BnDaemon.quarantine_path ev) c s)
    end = r).
  { intros r <-. rewrite repair_by_truncation_unfold, read_file_no_faults, Hc by done.
    unfold truncated_parse. destruct (Py.rfind 125 _) as [i|]; [|by rewrite Hmove].
    destruct (json_loads rt _); [done|by rewrite Hmove]. }
  unfold strict_parse.
  destruct (utf8_decode rt c) as [t|]; [destruct (json_loads rt t) as [j|]|];
    try done; symmetry; by apply Hrepair.
Qed.
End Load.

(** C8, as amended.  For every content of the state file, and whatever
    file operations fail, [load_or_repair] of the daemon ([Bn.py])
    raises nothing and returns a JSON value.  With no file there it is
    the default document.  Otherwise it is the strict parse of the
    file, the parse of the file cut after its last closing brace, or
    the default document: whatever value the parse yields, an object
    or not.  [load_or_repair] deletes and overwrites nothing: the files
    are left as they were, unless the default document is returned and
    the state file has been moved, bytes unchanged, to the quarantine
    path.  When no file operation fails, the strict parse is tried
    first, then the cut one, and only when both fail is the file moved
    and the default document returned. *)
Theorem daemon_load_repairs_or_quarantines (rt : runtime) (ev : environ) (s : state) :
  let primary := BnDaemon.MEM_PATH ev in
  let quarantine := BnDaemon.quarantine_path ev in
  let out := BnDaemon.load_or_repair rt ev s in
  exists value,
    fst out = Ok value
    /\ mem (snd out) = mem s
    /\ match fs s !! primary with
       | None =>
           value = BnDaemon.default_memory ev
           /\ fs (snd out) = fs s /\ trace (snd out) = trace s
       | Some c =>
           (fs (snd out) = fs s /\ trace (snd out) = trace s
            /\ (value = BnDaemon.default_memory ev
                \/ strict_parse rt c = Some value \/ truncated_parse rt c = Some value))
           \/ (value = BnDaemon.default_memory ev
               /\ fs (snd out) = <[quarantine := c]> (delete primary (fs s))
               /\ trace (snd out)
                  = (EvReplace primary quarantine, fs (snd out)) :: trace s)
       end
    /\ (faults s = [] ->
        forall c, fs s !! primary = Some c ->
          out = match strict_parse rt c with
                | Some j => (Ok j, s)
                | None =>
                    match truncated_parse rt c with
                    | Some j => (Ok j, s)
                    | None => (Ok (BnDaemon.default_memory ev),
                               rename_file primary quarantine c s)
                    end
                end).
Proof.
  intros primary quarantine out.
  assert (Hnf : faults s = [] -> forall c, fs s !! primary = Some c ->
            out = match strict_parse rt c with
                  | Some j => (Ok j, s)
                  | None =>
                      match truncated_parse rt c with
                      | Some j => (Ok j, s)
                      | None => (Ok (BnDaemon.default_memory ev),
                                 rename_file primary quarantine c s)
                      end
                  end).
  { intros Hf c Hc. by apply load_or_repair_no_faults. }
  revert Hnf. subst out. rewrite load_or_repair_unfold. fold primary quarantine.
  destruct (fs s !! primary) as [c|] eqn:Hc; simpl.
  2: { intros Hnf. exists (BnDaemon.default_memory ev). by split_and!. }
  destruct (json_load_run rt primary s) as (l1 & S1 & P1).
  destruct (json_load rt primary s) as [[j|e] s1]; simpl in S1, P1; subst s1.
  { intros Hnf. exists j. split_and!; auto. left. split_and!; auto.
    destruct (P1 j eq_refl) as (c' & Hc' & Hp). right. left. congruence. }
  destruct (repair_by_truncation_run rt ev (set_faults l1 s)) as (l2 & S2 & P2).
  destruct (BnDaemon.repair_by_truncation rt ev (set_faults l1 s)) as [r s2];
    simpl in S2, P2; subst s2.
  assert (Hmove : forall value,
    value = BnDaemon.default_memory ev ->
    let s3 := snd (replace primary quarantine (set_faults l2 s)) in
    mem s3 = mem s
    /\ ((fs s3 = fs s /\ trace s3 = trace s
         /\ (value = BnDaemon.default_memory ev
             \/ strict_parse rt c = Some value \/ truncated_parse rt c = Some value))
        \/ (value = BnDaemon.default_memory ev
            /\ fs s3 = <[quarantine := c]> (delete primary (fs s))
            /\ trace s3 = (EvReplace primary quarantine, fs s3) :: trace s))).
  { intros value -> s3. subst s3.
    destruct (replace_run primary quarantine (set_faults l2 s))
      as [[_ E]|(c' & l3 & Hc' & [E|E])]; rewrite E; simpl; split; auto.
    right. simpl in Hc'. rewrite Hc in Hc'. by simplify_eq. }
  intros Hnf.
  destruct r as [[j|]|e']; simpl.
  - exists j. split_and!; auto. left. split_and!; auto.
    destruct (P2 j eq_refl) as (c' & Hc' & Hp). right. right.
    simpl in Hc'. fold primary in Hc'. rewrite Hc in Hc'. by simplify_eq.
  - exists (BnDaemon.default_memory ev).
    destruct (Hmove _ eq_refl) as [? ?]. by split_and!.
  - exists (BnDaemon.default_memory ev).
    destruct (Hmove _ eq_refl) as [? ?]. by split_and!.
Qed.

(** C8 fails as stated in three ways.  A state file that holds [null]
    is loaded as [None], which is no document, and the start of the
    daemon raises [AttributeError].  When the move of an unreadable
    file to the quarantine fails, the failure is swallowed, the file
    stays at the primary path, and the first autosave after the start
    writes the default document over it: no file holds the bytes that
    were there.  And the updater ([bn.py]) has neither repair nor
    quarantine: started on a state file that was cut short,
    [load_memory] returns the defaults and saves them over the file. *)
Lemma corrupt_state_file_can_be_lost :
  (let loaded := BnDaemon.load_or_repair sample_rt offline null_state_file in
   strict_parse sample_rt (file_text "null") = Some JNull
   /\ fst loaded = Ok JNull
   /\ fst (daemon_start offline null_state_file) = Raise AttributeError)
  /\ (let loaded := BnDaemon.load_or_repair sample_rt offline daemon_with_cut_file in
      let started := snd (daemon_start offline daemon_with_cut_file) in
      let saved := snd (BnDaemon.autosave_cycle sample_rt offline started) in
      strict_parse sample_rt cut_short = None
      /\ truncated_parse sample_rt cut_short = None
      /\ fst loaded = Ok (BnDaemon.default_memory offline)
      /\ map_to_list (fs (snd loaded)) = [(BnDaemon.MEM_PATH offline, cut_short)]
      /\ fs (snd loaded) !! BnDaemon.quarantine_path offline = None
      /\ fst (daemon_start offline daemon_with_cut_file) = Ok tt
      /\ mem_dirty started = true
      /\ fs saved !! BnDaemon.MEM_PATH offline
         = Some (concat (SampleJson.dump (mem saved)))
      /\ Forall (fun pc => snd pc <> cut_short) (map_to_list (fs saved)))
  /\ (let out := BnUpdater.load_memory sample_rt offline updater_with_cut_file in
      fs updater_with_cut_file !! BnUpdater.MEM_PATH = Some cut_short
      /\ SampleJson.loads cut_short = None
      /\ (exists doc, fst out = Ok doc
            /\ dict_get (Py.lit "revision_count")
                 (match doc with JDict kv => kv | _ => [] end) = Some (JInt 0))
      /\ List.map fst (map_to_list (fs (snd out))) = [BnUpdater.MEM_PATH]
      /\ fs (snd out) !! BnUpdater.MEM_PATH
         = Some (concat (SampleJson.dump (mem (snd out))))
      /\ fs (snd out) !! BnUpdater.MEM_PATH <> Some cut_short).
Proof.
  vm_compute. split_and!; try done.
  - repeat constructor; done.
  - by eexists.
Qed.

(** ** The lock file of the daemon *)

Section Lock.
Variable rt : runtime.
Variable ev : environ.

Lemma open_truncate_no_faults p s :
  faults s = [] -> open_truncate p s = (Ok tt, put_file (EvTruncate p) p [] s).
Proof. intros H. unfold open_truncate, bind. by rewrite fallible_no_faults. Qed.

Lemma write_no_faults p d s :
  faults s = [] -> write p d s = (Ok tt, append_to p d s).
Proof. intros H. unfold write, bind, next_fault. by rewrite H. Qed.

Lemma remove_no_faults p s c :
  faults s = [] -> fs s !! p = Some c -> remove p s = (Ok tt, delete_file p s).
Proof.
  intros Hf Hc. unfold remove, bind at 1, get_state. rewrite Hc.
  unfold bind. by rewrite fallible_no_faults.
Qed.

Lemma write_lock_no_faults s b :
  faults s = [] -> utf8_encode rt (lock_line ev) = Some b ->
  BnDaemon.write_lock rt ev s
  = (Ok tt, append_to (BnDaemon.LOCK_PATH ev) b
              (put_file (EvTruncate (BnDaemon.LOCK_PATH ev)) (BnDaemon.LOCK_PATH ev) [] s)).
Proof.
  intros Hf Hb. unfold BnDaemon.write_lock.
  rewrite (bind_ok _ _ _ _ _ (open_truncate_no_faults _ _ Hf)).
  unfold write_text. fold (lock_line ev). rewrite Hb.
  unfold bind at 1, bind at 1, lift_opt, ret.
  rewrite write_no_faults by done. unfold close. by rewrite fallible_no_faults.
Qed.

Lemma read_old_pid_no_faults s c :
  faults s = [] -> fs s !! BnDaemon.LOCK_PATH ev = Some c ->
  BnDaemon.read_old_pid rt ev s = (Ok (recorded_pid rt c), s).
Proof.
  intros Hf Hc. unfold BnDaemon.read_old_pid, try_except, read_text, bind.
  rewrite read_file_no_faults, Hc by done. unfold recorded_pid, lift_opt.
  destruct (utf8_decode rt c) as [t|]; [|done]. unfold ret, raise.
  by destruct (BnDaemon.parse_pid rt t).
Qed.

Lemma probe_run old_pid s :
  exists e, BnDaemon.probe ev old_pid s
            = (if probe_succeeds ev old_pid then Ok tt else Raise e, s).
Proof.
  unfold BnDaemon.probe, probe_succeeds. destruct old_pid as [n|]; [|by exists TypeError].
  destruct (kill0 ev n) as [e|]; [by exists e|by exists TypeError].
Qed.

(** Without faults [cleanup_stale_lock] is decided by the lock file and
    the probe. *)
Lemma cleanup_stale_lock_no_faults s :
  faults s = [] ->
  BnDaemon.cleanup_stale_lock rt ev s =
  match fs s !! BnDaemon.LOCK_PATH ev with
  | None => (Ok true, s)
  | Some c =>
      if probe_succeeds ev (recorded_pid rt c) then (Ok false, s)
      else (Ok true, delete_file (BnDaemon.LOCK_PATH ev) s)
  end.
Proof.
  intros Hf. unfold BnDaemon.cleanup_stale_lock, bind at 1, path_exists.
  destruct (fs s !! BnDaemon.LOCK_PATH ev) as [c|] eqn:Hc; [|done]. simpl.
  rewrite (bind_ok _ _ _ _ _ (read_old_pid_no_faults s c Hf Hc)).
  unfold try_except. destruct (probe_run (recorded_pid rt c) s) as [e E].
  unfold bind at 1. rewrite E.
  destruct (probe_succeeds ev (recorded_pid rt c)); [done|].
  unfold BnDaemon.remove_lock, ignore_file_not_found, bind.
  by rewrite (remove_no_faults _ _ c).
Qed.

(** The journal line is appended, or given up, without touching
    anything else. *)
Lemma wal_log_no_faults t s :
  faults s = [] ->
  exists s', BnDaemon.wal_log rt ev t s = (Ok tt, s')
    /\ faults s' = [] /\ mem s' = mem s /\ mem_dirty s' = mem_dirty s
    /\ forall p, p <> BnDaemon.WAL_PATH ev -> fs s' !! p = fs s !! p.
Proof.
  intros Hf. unfold BnDaemon.wal_log, try_except, open_append, write_text.
  unfold bind at 1, bind at 1. rewrite fallible_no_faults by done.
  unfold bind at 1, get_state.
  set (line := utc_iso ev ++ Py.lit " " ++ t ++ [10%N]).
  destruct (fs s !! BnDaemon.WAL_PATH ev) as [c|] eqn:Hc; unfold ret, modify.
  all: unfold bind at 1, bind at 1, lift_opt.
  all: destruct (utf8_encode rt line) as [b|]; unfold ret, raise;
    [|eexists; split; [reflexivity|]; split_and!; auto;
      intros p Hp; simpl; by rewrite ?lookup_insert_ne].
  all: rewrite write_no_faults by done; unfold close;
    rewrite fallible_no_faults by done.
  all: eexists; split; [reflexivity|]; split_and!; auto;
    intros p Hp; simpl; by rewrite ?lookup_insert_ne.
Qed.

(** [main] after a [cleanup_stale_lock] that answered [True]: a death is
    counted, journalled and marked, and the lock is written. *)
Lemma main_prologue_after_stale s s1 kv n b :
  BnDaemon.cleanup_stale_lock rt ev s = (Ok true, s1) ->
  faults s1 = [] ->
  mem s1 = JDict kv ->
  py_int rt (default (JInt 0) (dict_get (Py.lit "death_count") kv)) = Ok n ->
  utf8_encode rt (lock_line ev) = Some b ->
  let out := BnDaemon.main_prologue rt ev s in
  fst out = Ok tt
  /\ mem (snd out) = JDict (dict_set (Py.lit "death_count") (JInt (n + 1)) kv)
  /\ mem_dirty (snd out) = true
  /\ fs (snd out) !! BnDaemon.LOCK_PATH ev = Some b
  /\ forall p, p <> BnDaemon.LOCK_PATH ev -> p <> BnDaemon.WAL_PATH ev ->
       fs (snd out) !! p = fs s1 !! p.
Proof.
  intros Hc Hf Hm Hn Hb out. subst out. unfold BnDaemon.main_prologue.
  rewrite (bind_ok _ _ _ _ _ Hc).
  assert (Hcount : BnDaemon.count_death rt s1
            = (Ok tt, set_mem (JDict (dict_set (Py.lit "death_count")
                                        (JInt (n + 1)) kv)) s1)).
  { unfold BnDaemon.count_death, bind, get_state, lift_res. rewrite Hm. simpl.
    by rewrite Hn. }
  set (s2 := set_mem (JDict (dict_set (Py.lit "death_count") (JInt (n + 1)) kv)) s1)
    in Hcount.
  destruct (wal_log_no_faults (Py.lit "death:1") s2 Hf)
    as (s3 & W & Hf3 & Hm3 & Hd3 & Hfs3).
  cbv iota.
  assert (Hbranch :
    (let* _ := BnDaemon.count_death rt in
     let* _ := BnDaemon.wal_log rt ev (Py.lit "death:1") in
     BnDaemon.mark_dirty) s1 = BnDaemon.mark_dirty s3).
  { rewrite (bind_ok _ _ _ _ _ Hcount). by rewrite (bind_ok _ _ _ _ _ W). }
  rewrite mark_dirty_run in Hbranch.
  rewrite (bind_ok _ _ _ _ _ Hbranch).
  rewrite (write_lock_no_faults _ b) by done.
  simpl. split_and!; auto.
  - by rewrite lookup_insert_eq, lookup_insert_eq.
  - intros p H1 H2. rewrite !lookup_insert_ne by done. by apply Hfs3.
Qed.
End Lock.

(** X12.  A lock whose process the probe reports gone is stale: when no
    file operation fails, [cleanup_stale_lock] removes the lock file and
    answers [True], and [main] counts one death in the state document
    and writes the lock of the new process. *)
Lemma dead_lock_is_removed_and_counted (rt : runtime) (ev : environ) s c pid e kv n b :
  fs s !! BnDaemon.LOCK_PATH ev = Some c ->
  recorded_pid rt c = Some pid -> kill0 ev pid = Some e ->
  faults s = [] ->
  mem s = JDict kv ->
  py_int rt (default (JInt 0) (dict_get (Py.lit "death_count") kv)) = Ok n ->
  utf8_encode rt (lock_line ev) = Some b ->
  let out := BnDaemon.main_prologue rt ev s in
  BnDaemon.cleanup_stale_lock rt ev s = (Ok true, delete_file (BnDaemon.LOCK_PATH ev) s)
  /\ fst out = Ok tt
  /\ mem (snd out) = JDict (dict_set (Py.lit "death_count") (JInt (n + 1)) kv)
  /\ fs (snd out) !! BnDaemon.LOCK_PATH ev = Some b.
Proof.
  intros Hc Hpid Hdead Hf Hm Hn Hb out.
  assert (Hclean : BnDaemon.cleanup_stale_lock rt ev s
                   = (Ok true, delete_file (BnDaemon.LOCK_PATH ev) s)).
  { rewrite cleanup_stale_lock_no_faults, Hc by done.
    unfold probe_succeeds. by rewrite Hpid, Hdead. }
  split; [done|].
  destruct (main_prologue_after_stale rt ev s _ kv n b Hclean Hf Hm Hn Hb)
    as (?&?&?&?&?).
  by split_and!.
Qed.

(** C3, as amended.  When the lock file is there, the process id
    recorded in it can be read and the probe of that process succeeds
    (and no file operation fails), [cleanup_stale_lock] answers [False]
    and changes nothing: the lock is not removed and no death is
    counted.  [main] does not stop there: what it does next is exactly
    [write_lock], which puts the record of the new process in the place
    of the holder's. *)
Theorem live_lock_is_not_stale (rt : runtime) (ev : environ) s c pid :
  fs s !! BnDaemon.LOCK_PATH ev = Some c ->
  recorded_pid rt c = Some pid -> kill0 ev pid = None ->
  faults s = [] ->
  BnDaemon.cleanup_stale_lock rt ev s = (Ok false, s)
  /\ BnDaemon.main_prologue rt ev s = BnDaemon.write_lock rt ev s
  /\ forall b, utf8_encode rt (lock_line ev) = Some b ->
       let out := BnDaemon.main_prologue rt ev s in
       fst out = Ok tt /\ mem (snd out) = mem s /\ mem_dirty (snd out) = mem_dirty s
       /\ fs (snd out) !! BnDaemon.LOCK_PATH ev = Some b.
Proof.
  intros Hc Hpid Hlive Hf.
  assert (Hclean : BnDaemon.cleanup_stale_lock rt ev s = (Ok false, s)).
  { rewrite cleanup_stale_lock_no_faults, Hc by done.
    unfold probe_succeeds. by rewrite Hpid, Hlive. }
  assert (Hmain : BnDaemon.main_prologue rt ev s = BnDaemon.write_lock rt ev s).
  { unfold BnDaemon.main_prologue. by rewrite (bind_ok _ _ _ _ _ Hclean). }
  split_and!; [done..|].
  intros b Hb out. subst out. rewrite Hmain, (write_lock_no_faults _ _ _ b) by done.
  simpl. split_and!; auto. by rewrite lookup_insert_eq, lookup_insert_eq.
Qed.

Lemma live_lock_is_not_stale_witness :
  BnDaemon.cleanup_stale_lock sample_rt offline beside_live_holder
  = (Ok false, beside_live_holder)
  /\ BnDaemon.main_prologue sample_rt offline beside_live_holder
     = BnDaemon.write_lock sample_rt offline beside_live_holder
  /\ forall b, utf8_encode sample_rt (lock_line offline) = Some b ->
       let out := BnDaemon.main_prologue sample_rt offline beside_live_holder in
       fst out = Ok tt /\ mem (snd out) = mem beside_live_holder
       /\ mem_dirty (snd out) = mem_dirty beside_live_holder
       /\ fs (snd out) !! BnDaemon.LOCK_PATH offline = Some b.
Proof.
  apply (live_lock_is_not_stale sample_rt offline beside_live_holder lock_of_777 777);
    vm_compute; reflexivity.
Defined.

(** C3 fails as stated: next to the lock of the live process 777 the
    start of the daemon raises nothing and goes on, and the lock file
    that held the record of 777 holds the record of the new process. *)
Lemma live_holder_is_overrun :
  let out := BnDaemon.main_prologue sample_rt offline beside_live_holder in
  fs beside_live_holder !! BnDaemon.LOCK_PATH offline = Some lock_of_777
  /\ recorded_pid sample_rt lock_of_777 = Some 777
  /\ kill0 offline 777 = None
  /\ fst out = Ok tt
  /\ fs (snd out) !! BnDaemon.LOCK_PATH offline
     = Some (file_text "4242|2026-01-01T00:00:00+00:00
")
  /\ fs (snd out) !! BnDaemon.LOCK_PATH offline <> Some lock_of_777.
Proof. vm_compute. by split_and!. Qed.

(** Every start that finds no lock file counts a death, just as a
    start that finds a stale one does. *)
Lemma start_without_lock_counts_a_death (rt : runtime) (ev : environ) s kv n b :
  fs s !! BnDaemon.LOCK_PATH ev = None ->
  faults s = [] ->
  mem s = JDict kv ->
  py_int rt (default (JInt 0) (dict_get (Py.lit "death_count") kv)) = Ok n ->
  utf8_encode rt (lock_line ev) = Some b ->
  let out := BnDaemon.main_prologue rt ev s in
  BnDaemon.cleanup_stale_lock rt ev s = (Ok true, s)
  /\ fst out = Ok tt
  /\ mem (snd out) = JDict (dict_set (Py.lit "death_count") (JInt (n + 1)) kv)
  /\ fs (snd out) !! BnDaemon.LOCK_PATH ev = Some b.
Proof.
  intros Hc Hf Hm Hn Hb out.
  assert (Hclean : BnDaemon.cleanup_stale_lock rt ev s = (Ok true, s)).
  { by rewrite cleanup_stale_lock_no_faults, Hc. }
  split; [done|].
  destruct (main_prologue_after_stale rt ev s _ kv n b Hclean Hf Hm Hn Hb)
    as (?&?&?&?&?).
  by split_and!.
Qed.

(** C4 at the very first start: with neither state file nor lock file,
    [cleanup_stale_lock] answers [True] as it does for a stale lock, and
    [main] counts a death: the counter of the default document goes
    from 0 to 1 and [death:1] is journalled.  After a crash (the lock is
    left behind) the next start counts again: it arrives at 1 if the
    first process never saved its document, and at 2 if it did. *)
Theorem first_start_counts_a_death :
  let first := daemon_start offline first_start in
  let crashed := new_process (snd first) in
  let crashed_after_save :=
    new_process (snd (BnDaemon.save_memory sample_rt offline (snd first))) in
  fst (BnDaemon.cleanup_stale_lock sample_rt offline first_start) = Ok true
  /\ death_count (snd (BnDaemon.module_init sample_rt offline first_start))
     = Ok (JInt 0)
  /\ fst first = Ok tt
  /\ death_count (snd first) = Ok (JInt 1)
  /\ fs (snd first) !! BnDaemon.WAL_PATH offline
     = Some (file_text "2026-01-01T00:00:00+00:00 death:1
")
  /\ fs crashed !! BnDaemon.LOCK_PATH offline
     = Some (file_text "4242|2026-01-01T00:00:00+00:00
")
  /\ kill0 restarted 4242 = Some ProcessLookupError
  /\ death_count (snd (daemon_start restarted crashed)) = Ok (JInt 1)
  /\ death_count (snd (daemon_start restarted crashed_after_save)) = Ok (JInt 2)
  /\ fs (snd (daemon_start restarted crashed_after_save)) !! BnDaemon.LOCK_PATH offline
     = Some (file_text "5151|2026-01-01T00:00:00+00:00
").
Proof. vm_compute. by split_and!. Qed.

(** ** The update pipeline *)

Section Update.
Variable rt : runtime.
Variable ev : environ.
Variable SIGNATURE_REQUIRED : bool.

Lemma safe_update_unfold url cur target backup s :
  BnUpdater.safe_update rt ev SIGNATURE_REQUIRED url cur target backup s =
  match urlopen_read ev url with
  | Raise e => (Ok (FetchError e), s)
  | Ok data =>
      let text := utf8_decode_replace rt data in
      if negb (well_formed text) then (Ok RejectNotBN, s)
      else
        match BnUpdater.parse_version text with
        | [] => (Ok RejectMissingVersion, s)
        | c :: v =>
            if negb (BnUpdater.version_gt rt (c :: v) cur)
            then (Ok (UpToDate (c :: v) cur), s)
            else
              match BnUpdater.signature_gate rt SIGNATURE_REQUIRED data text s with
              | (Raise e, s1) => (Raise e, s1)
              | (Ok (Some rejection), s1) => (Ok rejection, s1)
              | (Ok None, s1) =>
                  match BnUpdater.swap ev data target backup s1 with
                  | (Ok _, s2) =>
                      (Ok (UpdatedTo (c :: v) (take 12 (BnUpdater._sha256 rt data))), s2)
                  | (Raise e, s2) => (Ok (SwapError e), s2)
                  end
              end
        end
  end.
Proof.
  unfold BnUpdater.safe_update, BnUpdater.fetch_raw, lift_res, well_formed.
  destruct (urlopen_read ev url) as [data|e]; [|done]. cbv zeta.
  rewrite negb_andb.
  destruct (negb (Py.contains (Py.lit "BN version:") _) || _); [done|].
  destruct (BnUpdater.parse_version _) as [|c v]; [done|].
  destruct (negb (BnUpdater.version_gt rt (c :: v) cur)); [done|].
  unfold bind, try_except, ret.
  destruct (BnUpdater.signature_gate _ _ _ _ s) as [[[rej|]|e] s1]; try done.
  by destruct (BnUpdater.swap ev data target backup s1) as [[[]|e] s2].
Qed.

(** The gate looks and decides; it changes nothing. *)
Lemma signature_gate_run data s :
  BnUpdater.signature_gate rt SIGNATURE_REQUIRED data (utf8_decode_replace rt data) s
  = (if SIGNATURE_REQUIRED then gate_outcome rt (mem s) data else Ok None, s).
Proof.
  unfold BnUpdater.signature_gate, gate_outcome, BnUpdater.hmac_hex.
  destruct SIGNATURE_REQUIRED; [|done].
  destruct (BnUpdater.extract_signature_line _ _) as [[|c sig]|]; [done| |done].
  unfold bind at 1, BnUpdater.stored_key, bind at 1, get_state.
  destruct (truthy (mem s)); unfold lift_res, ret; [|done].
  destruct (py_get (mem s) (Py.lit "nova_key") JNull) as [key|e]; [|done].
  destruct (negb (truthy key)); [done|].
  unfold bind, lift_opt, lift_res, ret, raise.
  destruct key; try done.
  destruct (hmac_sha256_hex rt s0 data) as [expected|]; [|done].
  by destruct (BnUpdater.compare_digest (c :: sig) expected) as [[]|].
Qed.

(** The gate lets a candidate through only when its signature is valid. *)
Lemma gate_outcome_open m data :
  gate_outcome rt m data = Ok None -> signature_valid rt m data = true.
Proof.
  unfold gate_outcome, signature_valid, shared_secret.
  destruct (BnUpdater.extract_signature_line _ _) as [[|c sig]|]; [done| |done].
  destruct (truthy m) eqn:Hm; [|done].
  destruct m as [| | | | | |kv]; try done.
  unfold py_get.
  destruct (dict_get (Py.lit "nova_key") kv) as [key|]; simpl; [|done].
  destruct (negb (truthy key)) eqn:Ht; [done|].
  destruct key as [| | | |k| |]; try done.
  destruct k as [|ck k]; [done|].
  destruct (hmac_sha256_hex rt (ck :: k) data) as [expected|]; [|done].
  unfold BnUpdater.compare_digest.
  destruct (BnUpdater.is_ascii (c :: sig) && BnUpdater.is_ascii expected); [|done].
  by destruct (Py.text_eqb (c :: sig) expected).
Qed.

Lemma signature_valid_iff m data :
  signature_valid rt m data = true <->
  exists sig k,
    BnUpdater.extract_signature_line (utf8_decode_replace rt data)
      BnUpdater.SIGNATURE_HEADER = Some sig
    /\ shared_secret m = Some k
    /\ hmac_sha256_hex rt k data = Some sig.
Proof.
  unfold signature_valid.
  destruct (BnUpdater.extract_signature_line _ _) as [sig|];
    [|split; [done|]; by intros (sig' & k' & [=] & _)].
  destruct (shared_secret m) as [k|];
    [|split; [done|]; by intros (sig' & k' & _ & [=] & _)].
  destruct (hmac_sha256_hex rt k data) as [expected|] eqn:Hh.
  - unfold Py.text_eqb. rewrite bool_decide_eq_true. split.
    + intros ->. by exists expected, k.
    + intros (sig' & k' & [= <-] & [= <-] & H). congruence.
  - split; [done|]. intros (sig' & k' & _ & [= <-] & H). congruence.
Qed.

Lemma not_newer_changes_nothing url cur target backup s data :
  urlopen_read ev url = Ok data ->
  BnUpdater.version_gt rt (BnUpdater.parse_version (utf8_decode_replace rt data)) cur
  = false ->
  BnUpdater.safe_update rt ev SIGNATURE_REQUIRED url cur target backup s =
  (Ok (if negb (well_formed (utf8_decode_replace rt data)) then RejectNotBN
       else match BnUpdater.parse_version (utf8_decode_replace rt data) with
            | [] => RejectMissingVersion
            | v => UpToDate v cur
            end), s).
Proof.
  intros Hfetch Hgt. rewrite safe_update_unfold, Hfetch. cbv zeta.
  destruct (negb (well_formed _)); [done|].
  destruct (BnUpdater.parse_version _) as [|c v]; [done|]. by rewrite Hgt.
Qed.

Lemma gate_outcome_rejections m data r :
  gate_outcome rt m data = Ok (Some r) ->
  r = RejectMissingSignature \/ r = RejectKeyNotSet \/ r = RejectSignatureMismatch.
Proof.
  unfold gate_outcome.
  destruct (BnUpdater.extract_signature_line _ _) as [[|c sig]|];
    [intros [= <-]; auto| |intros [= <-]; auto].
  destruct (if truthy m then _ else _) as [key|e]; [|done].
  destruct (negb (truthy key)); [intros [= <-]; auto|].
  destruct key; try done.
  destruct (hmac_sha256_hex rt s data) as [expected|]; [|done].
  destruct (BnUpdater.compare_digest (c :: sig) expected) as [[]|]; try done.
  intros [= <-]; auto.
Qed.

(** With the gate on, a candidate whose signature is not valid changes
    nothing and is not reported as installed. *)
Lemma invalid_signature_changes_nothing url cur target backup s data :
  SIGNATURE_REQUIRED = true ->
  urlopen_read ev url = Ok data ->
  signature_valid rt (mem s) data = false ->
  let out := BnUpdater.safe_update rt ev SIGNATURE_REQUIRED url cur target backup s in
  snd out = s /\ forall rv sha, fst out <> Ok (UpdatedTo rv sha).
Proof.
  intros Hreq Hfetch Hbad out. subst out. rewrite safe_update_unfold, Hfetch.
  cbv zeta. destruct (negb (well_formed _)); [done|].
  destruct (BnUpdater.parse_version _) as [|c v]; [done|].
  destruct (negb (BnUpdater.version_gt rt (c :: v) cur)); [done|].
  rewrite signature_gate_run, Hreq.
  pose proof (gate_outcome_open (mem s) data) as Hopen.
  pose proof (gate_outcome_rejections (mem s) data) as Hrej.
  destruct (gate_outcome rt (mem s) data) as [[rej|]|e]; [| |done].
  - split; [done|]. intros rv sha. simpl. intros [= ->].
    by destruct (Hrej _ eq_refl) as [?|[?|?]].
  - rewrite Hopen in Hbad; done.
Qed.

(** The answers of the gate for a well-formed, newer candidate. *)
Lemma gated_update_run url cur target backup s data :
  SIGNATURE_REQUIRED = true ->
  urlopen_read ev url = Ok data ->
  well_formed (utf8_decode_replace rt data) = true ->
  BnUpdater.parse_version (utf8_decode_replace rt data) <> [] ->
  BnUpdater.version_gt rt (BnUpdater.parse_version (utf8_decode_replace rt data)) cur
  = true ->
  forall rejection, gate_outcome rt (mem s) data = Ok (Some rejection) ->
    BnUpdater.safe_update rt ev SIGNATURE_REQUIRED url cur target backup s
    = (Ok rejection, s).
Proof.
  intros Hreq Hfetch Hwf Hver Hgt rejection Hgate.
  rewrite safe_update_unfold, Hfetch. cbv zeta. rewrite Hwf. simpl.
  destruct (BnUpdater.parse_version _) as [|c v] eqn:Hv; [done|].
  rewrite Hgt. simpl. by rewrite signature_gate_run, Hreq, Hgate.
Qed.
(** The three answers that come before the comparison of versions and
    the gate. *)
Lemma early_answers url cur target backup s data :
  urlopen_read ev url = Ok data ->
  let text := utf8_decode_replace rt data in
  let out := BnUpdater.safe_update rt ev SIGNATURE_REQUIRED url cur target backup s in
  (well_formed text = false -> out = (Ok RejectNotBN, s))
  /\ (well_formed text = true -> BnUpdater.parse_version text = [] ->
      out = (Ok RejectMissingVersion, s))
  /\ (well_formed text = true -> BnUpdater.parse_version text <> [] ->
      BnUpdater.version_gt rt (BnUpdater.parse_version text) cur = false ->
      out = (Ok (UpToDate (BnUpdater.parse_version text) cur), s)).
Proof.
  intros Hfetch text out. subst out. rewrite safe_update_unfold, Hfetch. cbv zeta.
  fold text. split_and!.
  - by intros ->.
  - by intros -> ->.
  - intros -> Hv Hgt. simpl.
    destruct (BnUpdater.parse_version text) as [|c v]; [done|]. by rewrite Hgt.
Qed.
End Update.

(** C7, as amended.  A fetched candidate that passes the format check
    (both markers), declares a version (a value after the marker on the
    first of its first thirty lines that has the marker) and whose
    version is not greater than the running one is answered
    "up-to-date": nothing is installed, the state and every file, the
    installed artifact among them, stay as they were, and a repeated
    check gives the same answer again.  A candidate without both
    markers is answered "not a BN file" whatever version it declares,
    and one with both markers that declares no version "missing
    version": each leaves everything as it was, too. *)
Theorem not_newer_is_up_to_date (rt : runtime) (ev : environ) (gate : bool)
    url cur target backup s data :
  urlopen_read ev url = Ok data ->
  let text := utf8_decode_replace rt data in
  let declared := BnUpdater.parse_version text in
  let out := BnUpdater.safe_update rt ev gate url cur target backup s in
  (well_formed text = true -> declared <> [] ->
   BnUpdater.version_gt rt declared cur = false ->
   fst out = Ok (UpToDate declared cur)
   /\ snd out = s
   /\ fs (snd out) !! target = fs s !! target
   /\ BnUpdater.safe_update rt ev gate url cur target backup (snd out) = out)
  /\ (well_formed text = false -> out = (Ok RejectNotBN, s))
  /\ (well_formed text = true -> declared = [] -> out = (Ok RejectMissingVersion, s))
  /\ (BnUpdater.version_gt rt declared cur = false ->
      snd out = s
      /\ BnUpdater.safe_update rt ev gate url cur target backup (snd out) = out
      /\ starts_with_updated_to (match fst out with Ok m => m | Raise _ => RejectNotBN end)
         = false).
Proof.
  intros Hfetch text declared out.
  destruct (early_answers rt ev gate url cur target backup s data Hfetch)
    as (Hnot & Hmissing & Hsame).
  fold text in Hnot, Hmissing, Hsame. fold declared in Hmissing, Hsame.
  fold out in Hnot, Hmissing, Hsame.
  split_and!.
  - intros Hwf Hv Hgt. specialize (Hsame Hwf Hv Hgt).
    rewrite Hsame. simpl. by rewrite <- Hsame.
  - done.
  - done.
  - intros Hgt.
    assert (Hout : exists m, out = (Ok m, s) /\ starts_with_updated_to m = false).
    { destruct (well_formed text) eqn:Hwf; [|by eexists; split; [apply Hnot|]].
      destruct declared as [|c v] eqn:Hd; [by eexists; split; [apply Hmissing|]|].
      eexists; split; [by apply Hsame|done]. }
    destruct Hout as (m & Hout & Hm). rewrite Hout. simpl. by rewrite <- Hout.
Qed.

Lemma not_newer_is_up_to_date_witness :
  let ev := sample_ev (Ok candidate_same_version) in
  let text := utf8_decode_replace sample_rt candidate_same_version in
  let declared := BnUpdater.parse_version text in
  let out := BnUpdater.update_command sample_rt ev false (updater_state []) in
  (well_formed text = true -> declared <> [] ->
   BnUpdater.version_gt sample_rt declared BnUpdater.CURRENT_VERSION = false ->
   fst out = Ok (UpToDate declared BnUpdater.CURRENT_VERSION)
   /\ snd out = updater_state []
   /\ fs (snd out) !! target_path = fs (updater_state []) !! target_path
   /\ BnUpdater.update_command sample_rt ev false (snd out) = out)
  /\ (well_formed text = false -> out = (Ok RejectNotBN, updater_state []))
  /\ (well_formed text = true -> declared = [] ->
      out = (Ok RejectMissingVersion, updater_state []))
  /\ (BnUpdater.version_gt sample_rt declared BnUpdater.CURRENT_VERSION = false ->
      snd out = updater_state []
      /\ BnUpdater.update_command sample_rt ev false (snd out) = out
      /\ starts_with_updated_to (match fst out with Ok m => m | Raise _ => RejectNotBN end)
         = false).
Proof.
  apply (not_newer_is_up_to_date sample_rt (sample_ev (Ok candidate_same_version))
           false BnUpdater.GITHUB_RAW_URL BnUpdater.CURRENT_VERSION
           target_path backup_path (updater_state []) candidate_same_version).
  reflexivity.
Defined.

(** C7 fails as stated in three ways.  A candidate that declares the
    running version 14.5 but lacks the entry-point marker is answered
    "not a BN file"; one that declares it on its thirty-first line, and
    one that declares it after a line with the marker and no value, are
    answered "missing version".  None is answered "up-to-date". *)
Lemma same_version_is_not_always_up_to_date :
  let answer data :=
    BnUpdater.update_command sample_rt (sample_ev (Ok data)) false (updater_state []) in
  let text data := utf8_decode_replace sample_rt data in
  (BnUpdater.parse_version (text same_version_no_entry_point) = Py.lit "14.5"
   /\ BnUpdater.version_gt sample_rt (Py.lit "14.5") BnUpdater.CURRENT_VERSION = false
   /\ fst (answer same_version_no_entry_point) = Ok RejectNotBN
   /\ fs (snd (answer same_version_no_entry_point)) !! target_path
      = Some installed_artifact)
  /\ (well_formed (text version_on_line_31) = true
      /\ List.nth_error (Py.splitlines (text version_on_line_31)) 30
         = Some (Py.lit "# BN version: 14.5")
      /\ BnUpdater.parse_version (text version_on_line_31) = []
      /\ fst (answer version_on_line_31) = Ok RejectMissingVersion
      /\ fs (snd (answer version_on_line_31)) !! target_path = Some installed_artifact)
  /\ (well_formed (text version_after_empty_marker) = true
      /\ List.nth_error (Py.splitlines (text version_after_empty_marker)) 1
         = Some (Py.lit "# BN version: 14.5")
      /\ BnUpdater.parse_version (text version_after_empty_marker) = []
      /\ fst (answer version_after_empty_marker) = Ok RejectMissingVersion
      /\ fs (snd (answer version_after_empty_marker)) !! target_path
         = Some installed_artifact).
Proof. vm_compute. by split_and!. Qed.

(** C2.  With signature enforcement on, [safe_update] reports a
    candidate as installed only if the candidate carries a signature
    line whose value equals the hex HMAC-SHA-256, keyed by the stored
    shared secret, of all the bytes that were fetched
    ([hmac_sha256_hex rt k data]).  A candidate for which that fails
    (no signature line, no shared secret, or another value) is never
    installed: the state and every file stay as they were.  For a
    well-formed candidate of a greater version the answers are
    "missing Nova-Signature" without a signature line, "nova_key not
    set" without a secret, and "signature mismatch" for a signature
    that differs from the expected one. *)
Theorem signature_gate_admits_only_valid (rt : runtime) (ev : environ)
    url cur target backup s data :
  urlopen_read ev url = Ok data ->
  let text := utf8_decode_replace rt data in
  let signature := BnUpdater.extract_signature_line text BnUpdater.SIGNATURE_HEADER in
  let out := BnUpdater.safe_update rt ev true url cur target backup s in
  (forall rv sha, fst out = Ok (UpdatedTo rv sha) ->
     exists sig k, signature = Some sig /\ shared_secret (mem s) = Some k
                   /\ hmac_sha256_hex rt k data = Some sig)
  /\ (signature_valid rt (mem s) data = false ->
      snd out = s /\ forall rv sha, fst out <> Ok (UpdatedTo rv sha))
  /\ (well_formed text = true -> BnUpdater.parse_version text <> [] ->
      BnUpdater.version_gt rt (BnUpdater.parse_version text) cur = true ->
      (signature = None \/ signature = Some [] ->
       out = (Ok RejectMissingSignature, s))
      /\ (forall sig, signature = Some sig -> sig <> [] ->
          mem s = JNull
          \/ (exists kv, mem s = JDict kv
                /\ truthy (default JNull (dict_get (Py.lit "nova_key") kv)) = false) ->
          out = (Ok RejectKeyNotSet, s))
      /\ (forall sig k expected,
            signature = Some sig -> sig <> [] ->
            shared_secret (mem s) = Some k ->
            hmac_sha256_hex rt k data = Some expected ->
            BnUpdater.is_ascii sig = true -> BnUpdater.is_ascii expected = true ->
            sig <> expected ->
            out = (Ok RejectSignatureMismatch, s))).
Proof.
  intros Hfetch text signature out.
  assert (Hbad : signature_valid rt (mem s) data = false ->
                 snd out = s /\ forall rv sha, fst out <> Ok (UpdatedTo rv sha)).
  { intros H.
    exact (invalid_signature_changes_nothing rt ev true url cur target backup s data
             eq_refl Hfetch H). }
  split_and!; [|done|].
  - intros rv sha Hout. apply signature_valid_iff.
    destruct (signature_valid rt (mem s) data) eqn:Hv; [done|].
    destruct (Hbad eq_refl) as [_ Hno]. by destruct (Hno rv sha).
  - intros Hwf Hver Hgt.
    pose proof (gated_update_run rt ev true url cur target backup s data
                  eq_refl Hfetch Hwf Hver Hgt) as Hrun.
    fold out in Hrun. split_and!.
    + intros Hsig. apply Hrun. unfold gate_outcome. fold text. fold signature.
      by destruct Hsig as [->| ->].
    + intros sig Hsig Hne Hkey. apply Hrun. unfold gate_outcome.
      fold text. fold signature. rewrite Hsig.
      destruct sig as [|c sig]; [done|].
      destruct Hkey as [->|(kv & -> & Hk)]; [done|].
      destruct (truthy (JDict kv)); [|done]. simpl. by rewrite Hk.
    + intros sig k expected Hsig Hne Hk Hh Ha1 Ha2 Hdiff. apply Hrun.
      unfold gate_outcome. fold text. fold signature. rewrite Hsig.
      destruct sig as [|c sig]; [done|].
      unfold shared_secret in Hk.
      destruct (mem s) as [| | | | | |kv]; try done.
      destruct (dict_get (Py.lit "nova_key") kv) as [key|] eqn:Hkey; [|done].
      destruct key as [| | | |k'| |]; try done.
      destruct k' as [|ck k']; [done|]. injection Hk as <-.
      assert (Ht : truthy (JDict kv) = true).
      { destruct kv; [done|done]. }
      rewrite Ht. simpl. rewrite Hkey. simpl. rewrite Hh.
      unfold BnUpdater.compare_digest. rewrite Ha1, Ha2. simpl.
      unfold Py.text_eqb. by rewrite bool_decide_eq_false_2.
Qed.

Lemma signature_gate_admits_only_valid_witness :
  let ev := sample_ev (Ok (signed_candidate stale_signature)) in
  let data := signed_candidate stale_signature in
  let text := utf8_decode_replace sample_rt data in
  let signature := BnUpdater.extract_signature_line text BnUpdater.SIGNATURE_HEADER in
  let s := updater_state [] in
  let out := BnUpdater.update_command sample_rt ev true s in
  (forall rv sha, fst out = Ok (UpdatedTo rv sha) ->
     exists sig k, signature = Some sig /\ shared_secret (mem s) = Some k
                   /\ hmac_sha256_hex sample_rt k data = Some sig)
  /\ (signature_valid sample_rt (mem s) data = false ->
      snd out = s /\ forall rv sha, fst out <> Ok (UpdatedTo rv sha))
  /\ (well_formed text = true -> BnUpdater.parse_version text <> [] ->
      BnUpdater.version_gt sample_rt (BnUpdater.parse_version text)
        BnUpdater.CURRENT_VERSION = true ->
      (signature = None \/ signature = Some [] ->
       out = (Ok RejectMissingSignature, s))
      /\ (forall sig, signature = Some sig -> sig <> [] ->
          mem s = JNull
          \/ (exists kv, mem s = JDict kv
                /\ truthy (default JNull (dict_get (Py.lit "nova_key") kv)) = false) ->
          out = (Ok RejectKeyNotSet, s))
      /\ (forall sig k expected,
            signature = Some sig -> sig <> [] ->
            shared_secret (mem s) = Some k ->
            hmac_sha256_hex sample_rt k data = Some expected ->
            BnUpdater.is_ascii sig = true -> BnUpdater.is_ascii expected = true ->
            sig <> expected ->
            out = (Ok RejectSignatureMismatch, s))).
Proof.
  apply (signature_gate_admits_only_valid sample_rt
           (sample_ev (Ok (signed_candidate stale_signature)))
           BnUpdater.GITHUB_RAW_URL BnUpdater.CURRENT_VERSION
           target_path backup_path (updater_state [])
           (signed_candidate stale_signature)).
  reflexivity.
Defined.

(** The gate at work: a newer candidate that carries the signature of an
    earlier payload is answered "signature mismatch"; without a
    signature line it is answered "missing Nova-Signature"; and without
    a stored secret "nova_key not set".  The installed artifact is the
    same after each. *)
Example tampered_candidate_is_rejected :
  let run data s := BnUpdater.update_command sample_rt (sample_ev (Ok data)) true s in
  stale_signature
  = Py.lit "8063685652d3930cf1f23d09f31d200878b3785a304d76298c0b717037e88dda"
  /\ run (signed_candidate stale_signature) (updater_state [])
     = (Ok RejectSignatureMismatch, updater_state [])
  /\ fst (run candidate_same_version (updater_state []))
     = Ok (UpToDate (Py.lit "14.5") (Py.lit "14.5"))
  /\ fst (run (signed_candidate []) (updater_state [])) = Ok RejectMissingSignature
  /\ fst (run (signed_candidate stale_signature) (set_mem JNull (updater_state [])))
     = Ok RejectKeyNotSet.
Proof. vm_compute. by split_and!. Qed.

(** C5 at a failing replace.  When nothing fails the swap completes:
    the artifact is the candidate and the backup holds the prior
    artifact.  When the copy to the backup fails, the artifact is as it
    was.  But when the rename of the temporary file fails and the copy
    that [shutil.move] then makes fails midway, [safe_update] answers
    "write/swap error" and the installed artifact holds the first nine
    bytes of the candidate: it is neither replaced nor unchanged (the
    prior artifact survives at the backup path only). *)
Theorem failed_move_tears_the_artifact :
  let done_ := run_update [] in
  let no_backup := run_update backup_fails in
  let torn := run_update move_fails_midway in
  fs (updater_state []) !! target_path = Some installed_artifact
  /\ (exists sha, fst done_ = Ok (UpdatedTo (Py.lit "14.6") sha))
  /\ fs (snd done_) !! target_path = Some newer_candidate
  /\ fs (snd done_) !! backup_path = Some installed_artifact
  /\ fst no_backup = Ok (SwapError OSError)
  /\ fs (snd no_backup) !! target_path = Some installed_artifact
  /\ fst torn = Ok (SwapError OSError)
  /\ fs (snd torn) !! target_path = Some (take 9 newer_candidate)
  /\ take 9 newer_candidate <> installed_artifact
  /\ take 9 newer_candidate <> newer_candidate
  /\ fs (snd torn) !! backup_path = Some installed_artifact
  /\ events_since (updater_state move_fails_midway) (snd torn)
     = [EvCreate ("/tmp"%string, "tmpk3x9.py"%string);
        EvWrite ("/tmp"%string, "tmpk3x9.py"%string) newer_candidate;
        EvTruncate backup_path; EvWrite backup_path installed_artifact;
        EvTruncate target_path; EvWrite target_path (take 9 newer_candidate)].
Proof. vm_compute. split_and!; try done. by eexists. Qed.

(** ** What the swap does keep *)

(** Peel the successful operations off the later state, one by one. *)
Ltac quiet_peel :=
  first
    [ apply quiet_refl
    | eapply quiet_trans;
      [|first [ apply quiet_set_faults | apply quiet_set_entropy
              | apply quiet_put_file | apply quiet_log_event
              | apply quiet_delete_file ]];
      quiet_peel ].

Lemma copy2_run src dst s c :
  fs s !! src = Some c -> src <> dst ->
  quiet dst s (snd (copy2 src dst s))
  /\ (fst (copy2 src dst s) = Ok tt -> fs (snd (copy2 src dst s)) !! dst = Some c).
Proof.
  intros Hc Hne. unfold copy2.
  destruct (read_file_run src s) as [[Hn _]|(c' & l1 & Hc' & [E|E])]; [congruence| |].
  2: { rewrite (bind_raise _ _ _ _ _ E). split; [quiet_peel|done]. }
  rewrite (bind_ok _ _ _ _ _ E). assert (c' = c) as -> by congruence.
  destruct (open_truncate_run dst (set_faults l1 s)) as (l2 & [O|O]).
  2: { rewrite (bind_raise _ _ _ _ _ O). split; [quiet_peel|done]. }
  rewrite (bind_ok _ _ _ _ _ O).
  destruct (write_run dst c (put_file (EvTruncate dst) dst []
                               (set_faults l2 (set_faults l1 s))))
    as (l3 & [W|[n W]]).
  2: { rewrite (bind_raise _ _ _ _ _ W). split; [|done].
       unfold append_to. quiet_peel. }
  rewrite (bind_ok _ _ _ _ _ W).
  unfold close.
  destruct (fallible_run (append_to dst c (set_faults l3
              (put_file (EvTruncate dst) dst [] (set_faults l2 (set_faults l1 s))))))
    as (l4 & [C|C]).
  2: { rewrite (bind_raise _ _ _ _ _ C). split; [|done].
       unfold append_to. quiet_peel. }
  rewrite (bind_ok _ _ _ _ _ C).
  match goal with
  | |- context [fallible ?s0] => destruct (fallible_run s0) as (l5 & [F|F]); rewrite F
  end; simpl; (split; [unfold append_to; quiet_peel|]); [|done].
  intros _. by rewrite lookup_insert_eq, lookup_insert_eq.
Qed.

(** [shutil.move] touches its two files only, and when it returns the
    target holds what the source held. *)
Lemma move_run src dst s c :
  fs s !! src = Some c -> src <> dst ->
  let out := move src dst s in
  (forall p, p <> src -> p <> dst -> fs (snd out) !! p = fs s !! p)
  /\ (fst out = Ok tt -> fs (snd out) !! dst = Some c).
Proof.
  intros Hc Hne out. subst out. unfold move.
  destruct (replace_run src dst s) as [[Hn _]|(c' & l & Hc' & [E|E])]; [congruence| |];
    rewrite E.
  { assert (c' = c) as -> by congruence. simpl. split.
    - intros p H1 H2. by rewrite lookup_insert_ne, lookup_delete_ne.
    - intros _. by rewrite lookup_insert_eq. }
  simpl.
  destruct (copy2_run src dst (set_faults l s) c Hc Hne) as [Q Hok].
  destruct (copy2 src dst (set_faults l s)) as [[[]|e] s1] eqn:Hcp; simpl in Q, Hok.
  2: { rewrite (bind_raise _ _ _ _ _ Hcp). simpl. split; [|done].
       intros p H1 H2. by rewrite (quiet_fs _ _ _ Q). }
  rewrite (bind_ok _ _ _ _ _ Hcp).
  destruct (remove_run src s1) as [[_ R]|(c1 & l1 & _ & [R|R])]; rewrite R; simpl.
  - split; [|done]. intros p H1 H2. by rewrite (quiet_fs _ _ _ Q).
  - split.
    + intros p H1 H2. by rewrite lookup_delete_ne, (quiet_fs _ _ _ Q).
    + intros _. rewrite lookup_delete_ne by done. by apply Hok.
  - split; [|done]. intros p H1 H2. by rewrite (quiet_fs _ _ _ Q).
Qed.

(** X13.  The swap of [safe_update], for an installed artifact [old]
    and whatever fails in the file system: when it returns, the
    artifact is the candidate and the backup holds [old]; when it
    raises, [old] is still at the target path or at the backup path. *)
Lemma swap_keeps_the_prior_artifact (ev : environ) data target backup s old :
  fs s !! target = Some old ->
  target <> backup ->
  (forall n, (gettempdir ev, "tmp" +:+ n +:+ ".py") <> target
             /\ (gettempdir ev, "tmp" +:+ n +:+ ".py") <> backup) ->
  let out := BnUpdater.swap ev data target backup s in
  match fst out with
  | Ok _ => fs (snd out) !! target = Some data /\ fs (snd out) !! backup = Some old
  | Raise _ => fs (snd out) !! target = Some old \/ fs (snd out) !! backup = Some old
  end.
Proof.
  intros Hold Hne Htmp out. subst out. unfold BnUpdater.swap.
  destruct (mkstemp_run "tmp" ".py" (gettempdir ev) s)
    as [(e & s' & E & Hfs & _)|(n & l0 & rest & Hfree & E)].
  { rewrite (bind_raise _ _ _ _ _ E). simpl. left. by rewrite Hfs. }
  simpl in Hfree, E. set (tmp := (gettempdir ev, "tmp" +:+ n +:+ ".py")) in *.
  destruct (Htmp n) as [Ht Hb]. fold tmp in Ht, Hb.
  rewrite (bind_ok _ _ _ _ _ E).
  set (s1 := put_file (EvCreate tmp) tmp [] (set_entropy rest (set_faults l0 s))).
  assert (H1 : fs s1 !! target = Some old).
  { simpl. by rewrite lookup_insert_ne. }
  destruct (write_run tmp data s1) as (l1 & [W|[k W]]).
  2: { rewrite (bind_raise _ _ _ _ _ W). simpl. left.
       by rewrite lookup_insert_ne, lookup_insert_ne. }
  rewrite (bind_ok _ _ _ _ _ W).
  set (s2 := append_to tmp data (set_faults l1 s1)).
  assert (H2 : fs s2 !! target = Some old).
  { simpl. by rewrite lookup_insert_ne, lookup_insert_ne. }
  assert (T2 : fs s2 !! tmp = Some data).
  { simpl. by rewrite lookup_insert_eq, lookup_insert_eq. }
  unfold flush, close.
  destruct (fallible_run s2) as (l2 & [F|F]).
  2: { rewrite (bind_raise _ _ _ _ _ F). by left. }
  rewrite (bind_ok _ _ _ _ _ F).
  destruct (fallible_run (set_faults l2 s2)) as (l3 & [C|C]).
  2: { rewrite (bind_raise _ _ _ _ _ C). by left. }
  rewrite (bind_ok _ _ _ _ _ C).
  set (s3 := set_faults l3 (set_faults l2 s2)).
  assert (Hthere : path_exists target s3 = (Ok true, s3)).
  { unfold path_exists. rewrite bool_decide_eq_true_2; [done|].
    change (fs s3 !! target) with (fs s2 !! target). rewrite H2. eauto. }
  rewrite (bind_ok _ _ _ _ _ Hthere). cbv iota.
  destruct (copy2_run target backup s3 old H2 Hne) as [Q Hok].
  destruct (copy2 target backup s3) as [[[]|e] s4] eqn:Hcopy; simpl in Q, Hok.
  2: { rewrite (bind_raise _ _ _ _ _ Hcopy). simpl. left.
       by rewrite (quiet_fs _ _ _ Q). }
  rewrite (bind_ok _ _ _ _ _ Hcopy).
  assert (T4 : fs s4 !! tmp = Some data) by by rewrite (quiet_fs _ _ _ Q).
  destruct (move_run tmp target s4 data T4 Ht) as [Hother Hdone].
  assert (B : fs (snd (move tmp target s4)) !! backup = Some old).
  { rewrite Hother by done. by apply Hok. }
  destruct (fst (move tmp target s4)) as [[]|e]; [|by right].
  split; [by apply Hdone|done].
Qed.

(** * Further properties of the two programs *)

(** ** Numbers written and read back *)

Section IntText.
Variable decimal_of : N -> option Z.

Lemma is_space_digit c : (48 <= c <= 57)%N -> Py.is_space c = false.
Proof.
  intros H.
  assert (E : In c [48; 49; 50; 51; 52; 53; 54; 55; 56; 57]%N) by (simpl; lia).
  simpl in E. by repeat destruct E as [<-|E].
Qed.

Lemma lstrip_app_stop l c m :
  Py.is_space c = false -> Py.lstrip (l ++ c :: m) = Py.lstrip l ++ c :: m.
Proof.
  intros Hc. induction l as [|x l IH]; simpl; [by rewrite Hc|].
  by destruct (Py.is_space x).
Qed.

Lemma rstrip_app_stop x c u :
  Py.is_space c = false -> Py.rstrip (x ++ c :: u) = x ++ c :: Py.rstrip u.
Proof.
  intros Hc. unfold Py.rstrip.
  rewrite rev_app_distr. simpl. rewrite <- app_assoc. simpl.
  rewrite lstrip_app_stop by done.
  rewrite rev_app_distr. simpl. rewrite rev_involutive.
  by rewrite <- app_assoc.
Qed.

Lemma strip_no_space s :
  Forall (fun c => Py.is_space c = false) s -> Py.strip s = s.
Proof.
  intros H. unfold Py.strip.
  assert (L : forall t, Forall (fun c => Py.is_space c = false) t -> Py.lstrip t = t).
  { intros t Ht. destruct Ht as [|c t Hc Ht]; simpl; [done|by rewrite Hc]. }
  rewrite (L s H). unfold Py.rstrip. rewrite L, rev_involutive; [done|].
  by apply Forall_rev.
Qed.

Lemma is_int_space_digit c : (48 <= c <= 57)%N -> Py.is_int_space c = false.
Proof.
  intros H.
  assert (E : In c [48; 49; 50; 51; 52; 53; 54; 55; 56; 57]%N) by (simpl; lia).
  simpl in E. by repeat destruct E as [<-|E].
Qed.

Lemma int_strip_no_space s :
  Forall (fun c => Py.is_int_space c = false) s -> Py.int_strip s = s.
Proof.
  intros H. unfold Py.int_strip.
  assert (L : forall t, Forall (fun c => Py.is_int_space c = false) t ->
                        Py.int_lstrip t = t).
  { intros t Ht. destruct Ht as [|c t Hc Ht]; simpl; [done|by rewrite Hc]. }
  rewrite (L s H), L, rev_involutive; [done|]. by apply Forall_rev.
Qed.

(** Among digits every character counts. *)
Lemma digit_count_digits ds :
  Forall (fun c => (48 <= c <= 57)%N) ds -> Py.digit_count ds = length ds.
Proof.
  induction 1 as [|c ds Hc _ IH]; simpl; [done|].
  destruct (N.eqb_spec c 95); [lia|]. by rewrite IH.
Qed.

(** [str (n)] has no more digits than [n] needs. *)
Lemma digits_of_pos_length f n acc m :
  (0 < m)%nat -> 0 <= n < 10 ^ Z.of_nat m ->
  (length (Py.digits_of_pos f n acc) <= m + length acc)%nat.
Proof.
  revert n acc m. induction f as [|f IH]; intros n acc m Hm Hn; simpl; [lia|].
  destruct (Z.ltb_spec n 10); simpl; [lia|].
  destruct m as [|[|m]]; [lia|change (10 ^ Z.of_nat 1) with 10 in Hn; lia|].
  etransitivity; [apply (IH _ _ (S m)); [lia|]|simpl; lia].
  split; [apply Z.div_pos; lia|].
  apply Z.div_lt_upper_bound; [lia|].
  rewrite (Nat2Z.inj_succ (S m)), Z.pow_succ_r in Hn; lia.
Qed.

Lemma str_of_nat_length f n m :
  (0 < m)%nat -> 0 <= n < 10 ^ Z.of_nat m ->
  (length (Py.digits_of_pos f n []) <= m)%nat.
Proof.
  intros Hm Hn. pose proof (digits_of_pos_length f n [] m Hm Hn) as H.
  change (length (@nil N)) with 0%nat in H. lia.
Qed.

Lemma int_digits_digit c rest a b :
  (48 <= c <= 57)%N ->
  Py.int_digits decimal_of (c :: rest) a b
  = Py.int_digits decimal_of rest (10 * a + Z.of_N (c - 48)) true.
Proof.
  intros H. simpl. destruct (N.eqb_spec c 95); [lia|].
  unfold Py.digit_val.
  destruct (N.leb_spec 48 c); [|lia]. destruct (N.leb_spec c 57); [|lia]. done.
Qed.

Lemma digits_of_pos_step f n acc :
  Py.digits_of_pos (S f) n acc
  = if n <? 10 then (Z.to_N (n mod 10) + 48)%N :: acc
    else Py.digits_of_pos f (n / 10) ((Z.to_N (n mod 10) + 48)%N :: acc).
Proof. reflexivity. Qed.

Lemma last_digit n : (48 <= Z.to_N (n mod 10) + 48 <= 57)%N.
Proof. pose proof (Z.mod_pos_bound n 10). lia. Qed.

Lemma int_digits_last_digit n rest a b :
  Py.int_digits decimal_of ((Z.to_N (n mod 10) + 48)%N :: rest) a b
  = Py.int_digits decimal_of rest (10 * a + n mod 10) true.
Proof.
  rewrite int_digits_digit by apply last_digit. f_equal.
  pose proof (Z.mod_pos_bound n 10). lia.
Qed.

(** The digits that [digits_of_pos] puts before [acc] read as [n]. *)
Lemma digits_of_pos_spec f n acc :
  0 <= n < 10 ^ Z.of_nat (S f) ->
  exists ds, Py.digits_of_pos (S f) n acc = ds ++ acc
    /\ ds <> []
    /\ Forall (fun c => (48 <= c <= 57)%N) ds
    /\ forall rest a b,
         Py.int_digits decimal_of (ds ++ rest) a b
         = Py.int_digits decimal_of rest (a * 10 ^ Z.of_nat (length ds) + n) true.
Proof.
  revert n acc. induction f as [|f IH]; intros n acc Hn;
    rewrite digits_of_pos_step; destruct (Z.ltb_spec n 10).
  1, 3: exists [(Z.to_N (n mod 10) + 48)%N];
    (split_and!; [done|done|by constructor; [apply last_digit|]|]);
    intros rest a b; cbn [app length]; rewrite int_digits_last_digit; f_equal;
    rewrite Z.mod_small by lia; change (10 ^ Z.of_nat 1) with 10; lia.
  - change (10 ^ Z.of_nat 1) with 10 in Hn. lia.
  - destruct (IH (n / 10) ((Z.to_N (n mod 10) + 48)%N :: acc))
      as (ds & E & Hne & Hd & Hv).
    { split; [apply Z.div_pos; lia|].
      apply Z.div_lt_upper_bound; [lia|].
      replace (10 * 10 ^ Z.of_nat (S f)) with (10 ^ Z.of_nat (S (S f))); [lia|].
      rewrite (Nat2Z.inj_succ (S f)), Z.pow_succ_r; lia. }
    exists (ds ++ [(Z.to_N (n mod 10) + 48)%N]).
    split_and!.
    + by rewrite E, <- app_assoc.
    + by destruct ds.
    + apply Forall_app. split; [done|]. constructor; [apply last_digit|done].
    + intros rest a b. rewrite <- app_assoc. cbn [app].
      rewrite Hv, int_digits_last_digit. f_equal.
      rewrite length_app. cbn [length]. rewrite Nat2Z.inj_add, Z.pow_add_r by lia.
      pose proof (Z.div_mod n 10). change (10 ^ Z.of_nat 1) with 10. lia.
Qed.

Lemma pow10_above n : 0 <= n -> n < 10 ^ Z.of_nat (S (Z.to_nat (Z.log2 n))).
Proof.
  intros Hn. rewrite Nat2Z.inj_succ, Z2Nat.id by apply Z.log2_nonneg.
  destruct (Z.eq_dec n 0) as [->|]; [done|].
  pose proof (Z.log2_spec n ltac:(lia)) as [_ H].
  eapply Z.lt_le_trans; [exact H|].
  apply Z.pow_le_mono_l. pose proof (Z.log2_nonneg n). lia.
Qed.

(** The digits of [str (n)] for a natural [n]. *)
Lemma str_of_nat_spec n :
  0 <= n ->
  exists ds, Py.digits_of_pos (Z.to_nat (Z.log2 n) + 1) n [] = ds
    /\ ds <> []
    /\ Forall (fun c => (48 <= c <= 57)%N) ds
    /\ forall rest a b,
         Py.int_digits decimal_of (ds ++ rest) a b
         = Py.int_digits decimal_of rest (a * 10 ^ Z.of_nat (length ds) + n) true.
Proof.
  intros Hn. rewrite Nat.add_1_r.
  destruct (digits_of_pos_spec (Z.to_nat (Z.log2 n)) n [])
    as (ds & E & Hne & Hd & Hv).
  { split; [done|by apply pow10_above]. }
  exists ds. rewrite app_nil_r in E. by split_and!.
Qed.

(** The sign test of [int]: a string that starts with neither sign is
    read as it stands. *)
Lemma int_of_str_unsigned c r :
  Py.int_strip (c :: r) = c :: r -> c <> 43%N -> c <> 45%N ->
  Py.int_of_str decimal_of (c :: r) = Py.int_unsigned decimal_of (c :: r).
Proof.
  intros Hs H1 H2. unfold Py.int_of_str. rewrite Hs.
  destruct c as [|p]; [done|].
  do 6 (try (destruct p as [p|p|]; try done)).
Qed.

Lemma digits_no_space ds :
  Forall (fun c => (48 <= c <= 57)%N) ds -> Forall (fun c => Py.is_space c = false) ds.
Proof. intros H. eapply Forall_impl; [exact H|]. intros c. apply is_space_digit. Qed.

Lemma digits_no_int_space ds :
  Forall (fun c => (48 <= c <= 57)%N) ds ->
  Forall (fun c => Py.is_int_space c = false) ds.
Proof. intros H. eapply Forall_impl; [exact H|]. intros c. apply is_int_space_digit. Qed.

(** Digits within the conversion limit are read as the number they
    spell. *)
Lemma int_unsigned_digits ds n :
  Forall (fun c => (48 <= c <= 57)%N) ds ->
  (length ds <= Py.MAX_STR_DIGITS)%nat ->
  Py.int_digits decimal_of ds 0 false = Some n ->
  Py.int_unsigned decimal_of ds = Some n.
Proof.
  intros Hd Hlen Hv. unfold Py.int_unsigned. rewrite Hv, digit_count_digits by done.
  by destruct (Nat.leb_spec (length ds) Py.MAX_STR_DIGITS); [|lia].
Qed.

(** [int (str (n)) = n], for a number within the conversion limit. *)
Lemma int_of_str_of_int n :
  Z.abs n < 10 ^ Z.of_nat Py.MAX_STR_DIGITS ->
  Py.int_of_str decimal_of (Py.str_of_int n) = Some n.
Proof.
  intros Hn. unfold Py.str_of_int. destruct (Z.ltb_spec n 0).
  - pose proof (str_of_nat_length (Z.to_nat (Z.log2 (- n)) + 1) (- n)
                  Py.MAX_STR_DIGITS ltac:(unfold Py.MAX_STR_DIGITS; lia) ltac:(lia))
      as Hlen.
    destruct (str_of_nat_spec (- n) ltac:(lia)) as (ds & E & Hne & Hd & Hv).
    rewrite E in Hlen |- *.
    unfold Py.int_of_str. rewrite int_strip_no_space.
    + rewrite (int_unsigned_digits ds (- n)); [simpl; f_equal; lia|done..|].
      specialize (Hv [] 0 false). by rewrite app_nil_r in Hv.
    + constructor; [done|by apply digits_no_int_space].
  - pose proof (str_of_nat_length (Z.to_nat (Z.log2 n) + 1) n
                  Py.MAX_STR_DIGITS ltac:(unfold Py.MAX_STR_DIGITS; lia) ltac:(lia))
      as Hlen.
    destruct (str_of_nat_spec n ltac:(lia)) as (ds & E & Hne & Hd & Hv).
    rewrite E in Hlen |- *.
    destruct ds as [|c r]; [done|].
    rewrite int_of_str_unsigned.
    + apply int_unsigned_digits; [done..|].
      specialize (Hv [] 0 false). by rewrite app_nil_r in Hv.
    + by apply int_strip_no_space, digits_no_int_space.
    + inversion Hd; lia.
    + inversion Hd; lia.
Qed.

(** What [str (n)] is made of: a minus sign, perhaps, and digits. *)
Lemma str_of_int_chars n :
  Py.str_of_int n <> []
  /\ Forall (fun c => c = 45%N \/ (48 <= c <= 57)%N) (Py.str_of_int n).
Proof.
  unfold Py.str_of_int. destruct (Z.ltb_spec n 0).
  - destruct (str_of_nat_spec (- n) ltac:(lia)) as (ds & -> & Hne & Hd & _).
    split; [done|]. constructor; [by left|].
    eapply Forall_impl; [exact Hd|]. by right.
  - destruct (str_of_nat_spec n ltac:(lia)) as (ds & -> & Hne & Hd & _).
    split; [done|]. eapply Forall_impl; [exact Hd|]. by right.
Qed.

(** A field that holds no separator ends at the first one. *)
Lemma split_first_field c a w cur :
  Forall (fun x => x <> c) a ->
  Py.split_go [c] (a ++ c :: w) 0 cur = (rev cur ++ a) :: Py.split_go [c] w 0 [].
Proof.
  revert cur. induction a as [|x a IH]; intros cur Ha; simpl.
  - rewrite N.eqb_refl. simpl. by rewrite app_nil_r.
  - inversion Ha as [|? ? Hx Ha']; subst.
    destruct (N.eqb_spec c x); [congruence|]. simpl.
    rewrite IH by done. simpl. by rewrite <- app_assoc.
Qed.

Lemma split_last_field c a cur :
  Forall (fun x => x <> c) a -> Py.split_go [c] a 0 cur = [rev cur ++ a].
Proof.
  revert cur. induction a as [|x a IH]; intros cur Ha; simpl.
  - by rewrite app_nil_r.
  - inversion Ha as [|? ? Hx Ha']; subst.
    destruct (N.eqb_spec c x); [congruence|]. simpl.
    rewrite IH by done. simpl. by rewrite <- app_assoc.
Qed.

(** The numbers of a machine word are well within the conversion
    limit. *)
Lemma within_limit n : Z.abs n < 2 ^ 63 -> Z.abs n < 10 ^ Z.of_nat Py.MAX_STR_DIGITS.
Proof.
  intros H. eapply Z.lt_le_trans; [exact H|].
  change (Z.of_nat Py.MAX_STR_DIGITS) with 4300.
  transitivity (10 ^ 63); [apply Z.pow_le_mono_l; lia|apply Z.pow_le_mono_r; lia].
Qed.

(** [int] at work: the white space of ASCII around a number is
    skipped, a separator such as U+001F, which [str.strip] discards, is
    not; single underscores may stand between digits; and a number of
    more than 4300 digits is refused. *)
Example int_of_str_at_work :
  Py.int_of_str decimal_of (Py.lit " 777" ++ [10%N]) = Some 777
  /\ Py.int_of_str decimal_of (Py.lit "777" ++ [31%N]) = None
  /\ Py.strip (Py.lit "777" ++ [31%N]) = Py.lit "777"
  /\ Py.int_of_str decimal_of (Py.lit "-1_000") = Some (-1000)
  /\ Py.int_of_str decimal_of (Py.lit "1__0") = None
  /\ Py.int_of_str decimal_of (List.repeat 49%N 4300) <> None
  /\ Py.int_of_str decimal_of (List.repeat 49%N 4301) = None.
Proof. vm_compute. by split_and!. Qed.

(** [f"{n:02d}"] for a natural [n]: digits that read back as [n]. *)
Lemma fmt02_spec n :
  0 <= n < 10 ^ Z.of_nat Py.MAX_STR_DIGITS ->
  Forall (fun c => (48 <= c <= 57)%N) (Py.fmt02 n)
  /\ Py.int_of_str decimal_of (Py.fmt02 n) = Some n.
Proof.
  intros Hn. unfold Py.fmt02.
  destruct (Z.leb_spec 0 n); [|lia]. simpl.
  pose proof (int_of_str_of_int n ltac:(lia)) as Hint. revert Hint.
  unfold Py.str_of_int. destruct (Z.ltb_spec n 0); [lia|].
  destruct (Z.ltb_spec n 10) as [Hsmall|]; [|
    destruct (str_of_nat_spec n ltac:(lia)) as (ds & -> & Hne & Hd & Hv); done].
  pose proof (str_of_nat_length (Z.to_nat (Z.log2 n) + 1) n 1
                ltac:(lia) ltac:(change (10 ^ Z.of_nat 1) with 10; lia)) as Hlen.
  destruct (str_of_nat_spec n ltac:(lia)) as (ds & E & Hne & Hd & Hv).
  rewrite E in Hlen |- *. intros _.
  assert (Hall : Forall (fun c => (48 <= c <= 57)%N) (48%N :: ds))
    by (constructor; [lia|done]).
  split; [done|].
  rewrite int_of_str_unsigned; [|by apply int_strip_no_space, digits_no_int_space|done..].
  apply int_unsigned_digits; [done|unfold Py.MAX_STR_DIGITS; simpl; lia|].
  rewrite (int_digits_digit 48) by lia.
  specialize (Hv [] (10 * 0 + Z.of_N (48 - 48)) true). rewrite app_nil_r in Hv.
  rewrite Hv. simpl. f_equal.
Qed.

End IntText.

Section LockRoundTrip.
Variable rt : runtime.

(** The line that [write_lock] writes reads back as the process id it
    was written with. *)
Lemma parse_pid_lock_line pid stamp :
  Z.abs pid < 10 ^ Z.of_nat Py.MAX_STR_DIGITS ->
  BnDaemon.parse_pid rt (Py.str_of_int pid ++ Py.lit "|" ++ stamp ++ [10%N]) = Some pid.
Proof.
  intros Hpid.
  destruct (str_of_int_chars (decimal_of rt) pid) as [Hne Hch].
  assert (Hsp : Forall (fun c => Py.is_space c = false) (Py.str_of_int pid)).
  { eapply Forall_impl; [exact Hch|]. intros c [->|H]; [done|by apply is_space_digit]. }
  unfold BnDaemon.parse_pid.
  change (Py.lit "|" ++ stamp ++ [10%N]) with (124%N :: stamp ++ [10%N]).
  assert (E : Py.strip (Py.str_of_int pid ++ 124%N :: stamp ++ [10%N])
              = Py.str_of_int pid ++ 124%N :: Py.rstrip (stamp ++ [10%N])).
  { unfold Py.strip. destruct (Py.str_of_int pid) as [|c r] eqn:Es; [done|].
    inversion Hsp as [|? ? Hc _]; subst.
    change (Py.lstrip ((c :: r) ++ 124%N :: stamp ++ [10%N]))
      with (if Py.is_space c then Py.lstrip (r ++ 124%N :: stamp ++ [10%N])
            else (c :: r) ++ 124%N :: stamp ++ [10%N]).
    rewrite Hc. by rewrite rstrip_app_stop. }
  rewrite E. unfold Py.split. change (Py.lit "|") with [124%N].
  rewrite split_first_field.
  - simpl. by apply int_of_str_of_int.
  - eapply Forall_impl; [exact Hch|]. intros c [->|H]; lia.
Qed.
End LockRoundTrip.


(** ** Runs that keep to one file *)

Section Keeps.
Context {A B : Type}.
Implicit Types q p : path.

Lemma keeps_ret q (a : A) : keeps q (ret a).
Proof. intros s. apply quiet_refl. Qed.

Lemma keeps_raise q e : keeps q (raise e : IO A).
Proof. intros s. apply quiet_refl. Qed.

Lemma keeps_bind q (m : IO A) (k : A -> IO B) :
  keeps q m -> (forall a, keeps q (k a)) -> keeps q (bind m k).
Proof.
  intros Hm Hk s. unfold bind. specialize (Hm s).
  destruct (m s) as [[a|e] s1]; simpl in *; [|done].
  eapply quiet_trans; [exact Hm|apply Hk].
Qed.

Lemma keeps_try_except q (m : IO A) (h : exn -> IO A) :
  keeps q m -> (forall e, keeps q (h e)) -> keeps q (try_except m h).
Proof.
  intros Hm Hh s. unfold try_except. specialize (Hm s).
  destruct (m s) as [[a|e] s1]; simpl in *; [done|].
  eapply quiet_trans; [exact Hm|apply Hh].
Qed.

Lemma keeps_lift_res q (r : res A) : keeps q (lift_res r).
Proof. intros s. apply quiet_refl. Qed.

Lemma keeps_lift_opt q e (o : option A) : keeps q (lift_opt e o).
Proof. destruct o; [apply keeps_ret|apply keeps_raise]. Qed.
End Keeps.

Lemma keeps_get_state q : keeps q get_state.
Proof. intros s. apply quiet_refl. Qed.

Lemma keeps_path_exists q p : keeps q (path_exists p).
Proof. intros s. apply quiet_refl. Qed.

Lemma keeps_fallible q : keeps q fallible.
Proof.
  intros s. destruct (fallible_run s) as (l & [-> | ->]); apply quiet_set_faults.
Qed.

Lemma keeps_read_file q p : keeps q (read_file p).
Proof.
  intros s. destruct (read_file_run p s) as [[_ ->]|(c & l & _ & [-> | ->])];
    [apply quiet_refl|apply quiet_set_faults..].
Qed.

Lemma keeps_open_read q p : keeps q (open_read p).
Proof.
  unfold open_read. apply keeps_bind; [apply keeps_get_state|]. intros s.
  destruct (fs s !! p); [apply keeps_fallible|apply keeps_raise].
Qed.

Lemma keeps_open_truncate q : keeps q (open_truncate q).
Proof.
  intros s. destruct (open_truncate_run q s) as (l & [-> | ->]); simpl.
  - eapply quiet_trans; [apply quiet_set_faults|apply quiet_put_file].
  - apply quiet_set_faults.
Qed.

Lemma keeps_write q d : keeps q (write q d).
Proof.
  intros s. destruct (write_run q d s) as (l & [-> | [n ->]]); simpl;
    (eapply quiet_trans; [apply quiet_set_faults|apply quiet_append_to]).
Qed.

Lemma keeps_open_append q : keeps q (open_append q).
Proof.
  unfold open_append. apply keeps_bind; [apply keeps_fallible|]. intros _.
  apply keeps_bind; [apply keeps_get_state|]. intros s.
  destruct (fs s !! q); [apply keeps_ret|]. intros s'. apply quiet_put_file.
Qed.

Lemma keeps_read_text rt q p : keeps q (read_text rt p).
Proof.
  unfold read_text. apply keeps_bind; [apply keeps_read_file|].
  intros b. apply keeps_lift_opt.
Qed.

Lemma keeps_read_text_universal rt q p : keeps q (read_text_universal rt p).
Proof.
  unfold read_text_universal. apply keeps_bind; [apply keeps_read_text|].
  intros t. apply keeps_ret.
Qed.

Lemma keeps_write_text rt q t : keeps q (write_text rt q t).
Proof.
  unfold write_text. apply keeps_bind; [apply keeps_lift_opt|].
  intros b. apply keeps_write.
Qed.

Section Steps.
Context {A B : Type}.

Lemma bind_lift_res (r : res A) (k : A -> IO B) s a :
  r = Ok a -> bind (lift_res r) k s = k a s.
Proof. by intros ->. Qed.

Lemma bind_lift_res_raise (r : res A) (k : A -> IO B) s e :
  r = Raise e -> bind (lift_res r) k s = (Raise e, s).
Proof. by intros ->. Qed.

Lemma bind_get_state (k : state -> IO B) s : bind get_state k s = k s s.
Proof. done. Qed.

Lemma bind_modify f (k : unit -> IO B) s : bind (modify f) k s = k tt (f s).
Proof. done. Qed.

Lemma bind_ret (a : A) (k : A -> IO B) s : bind (ret a) k s = k a s.
Proof. done. Qed.

Lemma bind_path_exists p (k : bool -> IO B) s :
  bind (path_exists p) k s = k (bool_decide (is_Some (fs s !! p))) s.
Proof. done. Qed.
End Steps.

(** A handler that swallows every exception leaves none. *)
Lemma swallowed (m : IO unit) s : fst (try_except m (fun _ => ret tt) s) = Ok tt.
Proof. unfold try_except. by destruct (m s) as [[[]|e] s1]. Qed.

Ltac keeps_steps :=
  repeat first
    [ apply keeps_ret | apply keeps_raise | apply keeps_get_state
    | apply keeps_path_exists | apply keeps_fallible | apply keeps_read_file
    | apply keeps_open_read | apply keeps_open_truncate | apply keeps_write
    | apply keeps_open_append | apply keeps_read_text
    | apply keeps_read_text_universal | apply keeps_write_text
    | apply keeps_lift_res | apply keeps_lift_opt
    | apply keeps_try_except; [|intros ?]
    | apply keeps_bind; [|intros ?] ].

Section DaemonFiles.
Variable rt : runtime.
Variable ev : environ.
Variable hs : host.

Lemma wal_log_keeps t : keeps (BnDaemon.WAL_PATH ev) (BnDaemon.wal_log rt ev t).
Proof. unfold BnDaemon.wal_log, close. keeps_steps. Qed.

Lemma outbox_write_keeps t :
  keeps (BnDaemon.outbox_path ev) (BnDaemon.outbox_write rt ev t).
Proof. unfold BnDaemon.outbox_write, close. keeps_steps. Qed.

Lemma hourly_backup_keeps :
  keeps (BnDaemon.hourly_path ev hs) (BnDaemon.hourly_backup_cycle rt ev hs).
Proof.
  unfold BnDaemon.hourly_backup_cycle, close. keeps_steps.
  match goal with |- keeps _ (if ?b then _ else _) => destruct b end; keeps_steps.
Qed.

Lemma panic_snapshot_keeps :
  keeps (BnDaemon.panic_path ev) (BnDaemon.panic_snapshot rt ev).
Proof. unfold BnDaemon.panic_snapshot, close. keeps_steps. Qed.
End DaemonFiles.

(** ** Dictionaries *)

Lemma dict_get_set_eq k v kv : dict_get k (dict_set k v kv) = Some v.
Proof.
  induction kv as [|[k' v'] kv IH]; simpl; unfold Py.text_eqb.
  - by rewrite bool_decide_eq_true_2.
  - case_bool_decide; simpl; unfold Py.text_eqb.
    + by rewrite bool_decide_eq_true_2.
    + by rewrite bool_decide_eq_false_2.
Qed.

Lemma dict_get_set_ne k k' v kv :
  k' <> k -> dict_get k' (dict_set k v kv) = dict_get k' kv.
Proof.
  intros Hne. induction kv as [|[k0 v0] kv IH]; simpl; unfold Py.text_eqb.
  - by rewrite bool_decide_eq_false_2.
  - case_bool_decide; simpl; unfold Py.text_eqb.
    + subst k0. by rewrite !bool_decide_eq_false_2.
    + case_bool_decide; [done|apply IH].
Qed.

(** ** The lock file, written and read back *)

(** X1.  The lock that [write_lock] writes is read back by
    [cleanup_stale_lock] as the process id of its writer: when no file
    operation fails and the codec gives the line back, a later start in
    the same directory probes exactly that process, leaves the lock
    alone and answers [False] while the writer is alive, and removes the
    lock and answers [True] once it is gone.  (The process id is one
    that [int] converts: it has no more digits than the conversion
    limit, as every process id of an operating system has.) *)
Theorem own_lock_reads_back (rt : runtime) (ev ev' : environ) s b :
  faults s = [] ->
  utf8_encode rt (lock_line ev) = Some b ->
  utf8_decode rt b = Some (lock_line ev) ->
  BASE_DIR ev' = BASE_DIR ev ->
  Z.abs (getpid ev) < 10 ^ Z.of_nat Py.MAX_STR_DIGITS ->
  let s1 := snd (BnDaemon.write_lock rt ev s) in
  fst (BnDaemon.write_lock rt ev s) = Ok tt
  /\ fs s1 !! BnDaemon.LOCK_PATH ev = Some b
  /\ recorded_pid rt b = Some (getpid ev)
  /\ BnDaemon.cleanup_stale_lock rt ev' s1
     = match kill0 ev' (getpid ev) with
       | None => (Ok false, s1)
       | Some _ => (Ok true, delete_file (BnDaemon.LOCK_PATH ev) s1)
       end.
Proof.
  intros Hf Hb Hd Hdir Hpid_small s1. subst s1.
  rewrite (write_lock_no_faults rt ev s b Hf Hb). simpl fst. simpl snd.
  set (s1 := append_to _ _ _).
  assert (Hfile : fs s1 !! BnDaemon.LOCK_PATH ev = Some b).
  { subst s1. simpl. by rewrite lookup_insert_eq, lookup_insert_eq. }
  assert (Hpid : recorded_pid rt b = Some (getpid ev)).
  { unfold recorded_pid. rewrite Hd. by apply parse_pid_lock_line. }
  split_and!; [done..|].
  assert (Hsame : BnDaemon.LOCK_PATH ev' = BnDaemon.LOCK_PATH ev).
  { unfold BnDaemon.LOCK_PATH, BnDaemon.STATE_DIR. by rewrite Hdir. }
  rewrite cleanup_stale_lock_no_faults, Hsame, Hfile by done.
  unfold probe_succeeds. rewrite Hpid. by destruct (kill0 ev' (getpid ev)).
Qed.

Lemma own_lock_reads_back_witness :
  let s1 := snd (BnDaemon.write_lock sample_rt offline first_start) in
  fst (BnDaemon.write_lock sample_rt offline first_start) = Ok tt
  /\ fs s1 !! BnDaemon.LOCK_PATH offline
     = Some (file_text "4242|2026-01-01T00:00:00+00:00
")
  /\ recorded_pid sample_rt (file_text "4242|2026-01-01T00:00:00+00:00
") = Some (getpid offline)
  /\ BnDaemon.cleanup_stale_lock sample_rt restarted s1
     = match kill0 restarted (getpid offline) with
       | None => (Ok false, s1)
       | Some _ => (Ok true, delete_file (BnDaemon.LOCK_PATH offline) s1)
       end.
Proof.
  apply (own_lock_reads_back sample_rt offline restarted first_start); vm_compute; reflexivity.
Defined.

(** ** Learned items *)

Section Learn.
Variable rt : runtime.
Variable ev : environ.

Lemma learn_run item s kv xs :
  mem s = JDict kv ->
  default (JList []) (dict_get (Py.lit "learned") kv) = JList xs ->
  let m' := JDict (dict_set (Py.lit "learned") (JList (xs ++ [JStr item])) kv) in
  exists s2,
    quiet (BnDaemon.WAL_PATH ev) (set_mem m' s) s2
    /\ BnDaemon.learn rt ev item s
       = (Ok tt, log_event EvRelease (set_mem_lock false
            (log_event (EvSetDirty true true)
               (set_mem_dirty true (log_event EvAcquire (set_mem_lock true s2)))))).
Proof.
  intros Hm Hl m'. unfold BnDaemon.learn, bind at 1, get_state. rewrite Hm, Hl.
  unfold bind at 1, modify. fold m'.
  pose proof (wal_log_keeps rt ev (Py.lit "learn:" ++ item) (set_mem m' s)) as Q.
  pose proof (swallowed
    (let* _ := open_append (BnDaemon.WAL_PATH ev) in
     let* _ := write_text rt (BnDaemon.WAL_PATH ev)
                 (utc_iso ev ++ Py.lit " " ++ (Py.lit "learn:" ++ item) ++ [10%N]) in
     close (BnDaemon.WAL_PATH ev)) (set_mem m' s)) as Hok.
  fold (BnDaemon.wal_log rt ev (Py.lit "learn:" ++ item)) in Hok.
  destruct (BnDaemon.wal_log rt ev (Py.lit "learn:" ++ item) (set_mem m' s))
    as [r s2] eqn:E.
  simpl in Q, Hok. subst r. exists s2. split; [done|].
  unfold bind. by rewrite E.
Qed.
End Learn.

Lemma learn_appends_and_marks_run (rt : runtime) (ev : environ) item s kv xs :
  mem s = JDict kv ->
  default (JList []) (dict_get (Py.lit "learned") kv) = JList xs ->
  mem (snd (BnDaemon.learn rt ev item s))
  = JDict (dict_set (Py.lit "learned") (JList (xs ++ [JStr item])) kv)
  /\ mem_dirty (snd (BnDaemon.learn rt ev item s)) = true.
Proof.
  intros Hm Hl. destruct (learn_run rt ev item s kv xs Hm Hl) as (s2 & Q & ->).
  simpl. by rewrite (quiet_mem _ _ _ Q).
Qed.

(** X2.  [learn] adds the item at the end of the learned items (a first
    one opens the list), marks the document dirty and raises nothing,
    whatever fails in the file system; it writes to the journal alone:
    no other file, the state file among them, is touched. *)
Theorem learn_appends_and_marks (rt : runtime) (ev : environ) item s kv xs :
  mem s = JDict kv ->
  default (JList []) (dict_get (Py.lit "learned") kv) = JList xs ->
  let out := BnDaemon.learn rt ev item s in
  fst out = Ok tt
  /\ mem (snd out)
     = JDict (dict_set (Py.lit "learned") (JList (xs ++ [JStr item])) kv)
  /\ mem_dirty (snd out) = true
  /\ forall p, p <> BnDaemon.WAL_PATH ev -> fs (snd out) !! p = fs s !! p.
Proof.
  intros Hm Hl out. subst out.
  destruct (learn_run rt ev item s kv xs Hm Hl) as (s2 & Q & ->).
  simpl. split_and!; [done|by rewrite (quiet_mem _ _ _ Q)|done|].
  intros p Hp. by rewrite (quiet_fs _ _ _ Q).
Qed.

Lemma learn_appends_and_marks_witness :
  let s := state_with [] [Fail 0] (BnDaemon.default_memory offline) in
  let out := BnDaemon.learn sample_rt offline (Py.lit "studied:sleep science") s in
  fst out = Ok tt
  /\ py_get (mem (snd out)) (Py.lit "learned") JNull
     = Ok (JList [JStr (Py.lit "studied:sleep science")])
  /\ mem_dirty (snd out) = true
  /\ fs (snd out) !! BnDaemon.MEM_PATH offline = None.
Proof.
  intros s out. subst out.
  destruct (learn_appends_and_marks sample_rt offline (Py.lit "studied:sleep science")
              s _ [] eq_refl eq_refl) as (H1 & H2 & H3 & H4).
  split_and!; [exact H1|rewrite H2; by vm_compute|exact H3|].
  rewrite H4; by vm_compute.
Defined.

(** X3.  After [learn], one turn of [autosave_loop] raises nothing and
    keeps the item in the document; and when that turn leaves the
    document marked clean, the state file holds the whole document, the
    new item included.  A failed save leaves the mark for a later
    turn. *)
Theorem learned_item_is_saved_or_still_marked (rt : runtime) (ev : environ)
    item s kv xs :
  mem s = JDict kv ->
  default (JList []) (dict_get (Py.lit "learned") kv) = JList xs ->
  let m' := JDict (dict_set (Py.lit "learned") (JList (xs ++ [JStr item])) kv) in
  let out := BnDaemon.autosave_cycle rt ev (snd (BnDaemon.learn rt ev item s)) in
  fst out = Ok tt
  /\ mem (snd out) = m'
  /\ (mem_dirty (snd out) = false ->
      fs (snd out) !! BnDaemon.MEM_PATH ev = Some (concat (json_dump rt m'))).
Proof.
  intros Hm Hl m' out. subst out.
  destruct (learn_appends_and_marks_run rt ev item s kv xs Hm Hl) as (Hmem & Hdirty).
  set (s1 := snd (BnDaemon.learn rt ev item s)) in *. fold m' in Hmem.
  rewrite autosave_cycle_run, Hdirty.
  destruct (fst (BnDaemon.sget (Py.lit "calm") s1)); simpl;
    [|split_and!; [done|done|congruence]].
  pose proof (save_memory_spec rt ev (after_peek s1))
    as (M & before & after & _ & _ & _ & _ & H).
  simpl in M, H. rewrite Hmem in M, H. split_and!; [done|done|].
  destruct (fst (BnDaemon.save_memory rt ev (after_peek s1))).
  - by destruct H as (H & _).
  - destruct H as (_ & _ & H). simpl in H. congruence.
Qed.
Lemma learned_item_is_saved_or_still_marked_witness :
  let s := state_with [] [] (BnDaemon.default_memory offline) in
  let item := Py.lit "studied:finance basics" in
  let out := BnDaemon.autosave_cycle sample_rt offline
               (snd (BnDaemon.learn sample_rt offline item s)) in
  fst out = Ok tt
  /\ py_get (mem (snd out)) (Py.lit "learned") JNull = Ok (JList [JStr item])
  /\ mem_dirty (snd out) = false
  /\ fs (snd out) !! BnDaemon.MEM_PATH offline
     = Some (concat (json_dump sample_rt (mem (snd out)))).
Proof.
  intros s item out. subst out.
  destruct (learned_item_is_saved_or_still_marked sample_rt offline item s _ []
              eq_refl eq_refl) as (H1 & H2 & H3).
  split_and!; [exact H1|rewrite H2; by vm_compute|by vm_compute|].
  rewrite H2. apply H3. by vm_compute.
Defined.

(** ** Settings *)

Section Settings.
Variable rt : runtime.
Variable ev : environ.

Lemma setdefault_setitem_run outer k v s kv inner :
  mem s = JDict kv ->
  default (JDict []) (dict_get outer kv) = JDict inner ->
  BnDaemon.setdefault_setitem outer k v s
  = (Ok tt, set_mem (JDict (dict_set outer (JDict (dict_set k v inner)) kv)) s).
Proof.
  intros Hm Hi. unfold BnDaemon.setdefault_setitem, bind, get_state. simpl.
  rewrite Hm, Hi. done.
Qed.

Lemma sget_run k s kv st :
  mem s = JDict kv ->
  default (JDict []) (dict_get (Py.lit "settings") kv) = JDict st ->
  BnDaemon.sget k s = (Ok (truthy (default (JBool false) (dict_get k st))), s).
Proof.
  intros Hm Hs. unfold BnDaemon.sget, bind, get_state, lift_res, py_get. simpl.
  rewrite Hm, Hs. done.
Qed.

Lemma sset_run k v s kv st :
  mem s = JDict kv ->
  default (JDict []) (dict_get (Py.lit "settings") kv) = JDict st ->
  let m' := JDict (dict_set (Py.lit "settings")
                     (JDict (dict_set k (JBool v) st)) kv) in
  let s1 := log_event EvRelease (set_mem_lock false
              (log_event (EvSetDirty true true)
                 (set_mem_dirty true
                    (log_event EvAcquire (set_mem_lock true (set_mem m' s)))))) in
  BnDaemon.sset rt ev k v s = BnDaemon.save_memory rt ev s1.
Proof.
  intros Hm Hs m' s1. unfold BnDaemon.sset.
  rewrite (bind_ok _ _ _ _ _ (setdefault_setitem_run _ k (JBool v) s kv st Hm Hs)).
  by rewrite (bind_ok _ _ _ _ _ (mark_dirty_run _)).
Qed.
End Settings.

(** X4.  A setting stored with [sset] is what [sget] then answers for
    it, other settings answer as before, and this holds whether or not
    the save that [sset] ends with succeeds; when it does succeed the
    state file holds the whole document with the new setting and the
    document is clean. *)
Theorem sset_then_sget (rt : runtime) (ev : environ) k v s kv st :
  mem s = JDict kv ->
  default (JDict []) (dict_get (Py.lit "settings") kv) = JDict st ->
  let out := BnDaemon.sset rt ev k v s in
  BnDaemon.sget k (snd out) = (Ok v, snd out)
  /\ (forall k', k' <> k -> fst (BnDaemon.sget k' (snd out)) = fst (BnDaemon.sget k' s))
  /\ (fst out = Ok tt ->
      mem_dirty (snd out) = false
      /\ fs (snd out) !! BnDaemon.MEM_PATH ev
         = Some (concat (json_dump rt (mem (snd out))))).
Proof.
  intros Hm Hs out. subst out. rewrite (sset_run rt ev k v s kv st Hm Hs).
  set (m' := JDict (dict_set (Py.lit "settings") (JDict (dict_set k (JBool v) st)) kv)).
  set (s1 := log_event _ _).
  pose proof (save_memory_spec rt ev s1) as (M & before & after & _ & _ & _ & _ & H).
  simpl in M, H. change (mem s1) with m' in M, H.
  set (s' := snd (BnDaemon.save_memory rt ev s1)) in *.
  assert (Hget : forall k', BnDaemon.sget k' s'
            = (Ok (truthy (default (JBool false)
                     (dict_get k' (dict_set k (JBool v) st)))), s')).
  { intros k'. apply (sget_run k' s' _ (dict_set k (JBool v) st) M).
    by rewrite dict_get_set_eq. }
  split_and!.
  - by rewrite Hget, dict_get_set_eq.
  - intros k' Hne. rewrite Hget, (sget_run k' s kv st Hm Hs). simpl.
    by rewrite dict_get_set_ne.
  - intros Hok. rewrite Hok in H. destruct H as (Hf & Hd & _). by rewrite M.
Qed.
Lemma sget_state k s : snd (BnDaemon.sget k s) = s.
Proof.
  unfold BnDaemon.sget, bind, get_state, lift_res. simpl.
  destruct (py_get (mem s) _ _) as [st|?]; [|done].
  by destruct (py_get st _ _).
Qed.

Lemma sset_then_sget_witness :
  let s := state_with [] [Fail 0] (BnDaemon.default_memory offline) in
  let out := BnDaemon.sset sample_rt offline (Py.lit "quiet") true s in
  fst out = Raise OSError
  /\ fs (snd out) !! BnDaemon.MEM_PATH offline = None
  /\ BnDaemon.sget (Py.lit "quiet") s = (Ok false, s)
  /\ BnDaemon.sget (Py.lit "quiet") (snd out) = (Ok true, snd out).
Proof.
  intros s out. subst out.
  destruct (sset_then_sget sample_rt offline (Py.lit "quiet") true s _ _
              eq_refl eq_refl) as (H1 & _ & _).
  split_and!; [by vm_compute..|exact H1].
Defined.

(** ** Quiet hours and speech *)

Section Speech.
Variable rt : runtime.
Variable ev : environ.
Variable hs : host.

Lemma within_quiet_hours_run s kv q s0 e0 a b :
  mem s = JDict kv ->
  default (JDict [(Py.lit "start", JInt 22); (Py.lit "end", JInt 6)])
          (dict_get (Py.lit "quiet_hours") kv) = JDict q ->
  dict_get (Py.lit "start") q = Some s0 -> py_int rt s0 = Ok a ->
  dict_get (Py.lit "end") q = Some e0 -> py_int rt e0 = Ok b ->
  BnDaemon.within_quiet_hours rt hs s
  = (Ok ((a <=? now_hour hs) || (now_hour hs <? b)), s).
Proof.
  intros Hm Hq Hs Ha He Hb.
  unfold BnDaemon.within_quiet_hours, try_except, bind, get_state, lift_res, py_get,
    py_getitem.
  simpl. rewrite Hm, Hq, Hs, Ha, He, Hb. done.
Qed.

Lemma outbox_write_run t s :
  exists s1, BnDaemon.outbox_write rt ev t s = (Ok tt, s1)
             /\ quiet (BnDaemon.outbox_path ev) s s1.
Proof.
  pose proof (outbox_write_keeps rt ev t s) as Q.
  pose proof (swallowed
    (let* _ := open_truncate (BnDaemon.outbox_path ev) in
     let* _ := write_text rt (BnDaemon.outbox_path ev) (Py.strip t ++ [10%N]) in
     close (BnDaemon.outbox_path ev)) s) as Hok.
  fold (BnDaemon.outbox_write rt ev t) in Hok.
  destruct (BnDaemon.outbox_write rt ev t s) as [r s1]. simpl in *. subst r.
  by exists s1.
Qed.

Lemma outbox_write_no_faults t s b :
  faults s = [] -> utf8_encode rt (Py.strip t ++ [10%N]) = Some b ->
  fs (snd (BnDaemon.outbox_write rt ev t s)) !! BnDaemon.outbox_path ev = Some b.
Proof.
  intros Hf Hb. unfold BnDaemon.outbox_write, try_except.
  rewrite (bind_ok _ _ _ _ _ (open_truncate_no_faults _ _ Hf)).
  unfold write_text. rewrite Hb. unfold bind at 1, bind at 1, lift_opt, ret.
  rewrite write_no_faults by done. unfold close. rewrite fallible_no_faults by done.
  simpl. by rewrite lookup_insert_eq, lookup_insert_eq.
Qed.

(** What [speak] leaves behind is what [outbox_write] left. *)
Lemma speak_state t s :
  snd (BnDaemon.speak rt ev hs t s) = snd (BnDaemon.outbox_write rt ev t s).
Proof.
  unfold BnDaemon.speak. destruct (outbox_write_run t s) as (s1 & E & Q).
  rewrite (bind_ok _ _ _ _ _ E), E. simpl.
  destruct (engine hs) as [utter|]; [|done].
  unfold bind at 1. unfold BnDaemon.sget, bind, get_state, lift_res. simpl.
  destruct (py_get (mem s1) (Py.lit "settings") (JDict [])) as [st|e]; [|done].
  destruct (py_get st (Py.lit "quiet") (JBool false)) as [v|e]; [|done].
  simpl. destruct (truthy v); [done|].
  unfold BnDaemon.within_quiet_hours, try_except.
  match goal with |- context [match ?m s1 with _ => _ end] =>
    assert (Hm : snd (m s1) = s1); [|destruct (m s1) as [[w|e] s2]; simpl in Hm; subst s2]
  end.
  { unfold bind, get_state, lift_res. simpl.
    repeat match goal with
           | |- context [match ?r with Ok _ => _ | Raise _ => _ end] => destruct r; simpl
           end; done. }
  - by destruct w.
  - done.
Qed.
End Speech.

(** X5.  With both hours of the quiet window readable as integers,
    [within_quiet_hours] answers [h >= start or h < end] for the hour
    [h] of the clock.  So a window that does not wrap past midnight
    ([start <= end]) counts every hour of the day as quiet, and [speak]
    never utters a text. *)
Theorem quiet_hours_without_wrap_last_all_day (rt : runtime) (ev : environ)
    (hs : host) s kv q s0 e0 a b :
  mem s = JDict kv ->
  default (JDict [(Py.lit "start", JInt 22); (Py.lit "end", JInt 6)])
          (dict_get (Py.lit "quiet_hours") kv) = JDict q ->
  dict_get (Py.lit "start") q = Some s0 -> py_int rt s0 = Ok a ->
  dict_get (Py.lit "end") q = Some e0 -> py_int rt e0 = Ok b ->
  BnDaemon.within_quiet_hours rt hs s
  = (Ok ((a <=? now_hour hs) || (now_hour hs <? b)), s)
  /\ (a <= b ->
      BnDaemon.within_quiet_hours rt hs s = (Ok true, s)
      /\ forall text, fst (BnDaemon.speak rt ev hs text s) <> Ok true).
Proof.
  intros Hm Hq Hs Ha He Hb.
  assert (Run : forall s', mem s' = mem s ->
            BnDaemon.within_quiet_hours rt hs s'
            = (Ok ((a <=? now_hour hs) || (now_hour hs <? b)), s')).
  { intros s' E. apply (within_quiet_hours_run rt hs s' kv q s0 e0); congruence. }
  split; [by apply Run|]. intros Hab.
  assert (All : (a <=? now_hour hs) || (now_hour hs <? b) = true).
  { destruct (Z.leb_spec a (now_hour hs)); [done|]. simpl. apply Z.ltb_lt. lia. }
  split; [by rewrite Run, All|].
  intros text. unfold BnDaemon.speak.
  destruct (outbox_write_run rt ev text s) as (s1 & E & Q).
  rewrite (bind_ok _ _ _ _ _ E).
  destruct (engine hs) as [utter|]; [|done].
  destruct (BnDaemon.sget (Py.lit "quiet") s1) as [[muted|e] s2] eqn:G.
  2: { by rewrite (bind_raise _ _ _ _ _ G). }
  rewrite (bind_ok _ _ _ _ _ G). destruct muted; [done|].
  assert (s2 = s1) as -> by (by rewrite <- (sget_state (Py.lit "quiet") s1), G).
  rewrite (bind_ok _ _ _ _ _ (Run s1 (quiet_mem _ _ _ Q))), All. done.
Qed.

Lemma quiet_hours_without_wrap_last_all_day_witness :
  let s := state_with [] []
             (JDict [(Py.lit "quiet_hours",
                      JDict [(Py.lit "start", JInt 9); (Py.lit "end", JInt 17)])]) in
  BnDaemon.within_quiet_hours sample_rt (sample_hs_at 3) s = (Ok true, s)
  /\ BnDaemon.within_quiet_hours sample_rt (sample_hs_at 12) s = (Ok true, s)
  /\ BnDaemon.within_quiet_hours sample_rt (sample_hs_at 20) s = (Ok true, s)
  /\ fst (BnDaemon.speak sample_rt offline (sample_hs_at 20) (Py.lit "Wake up.") s)
     <> Ok true.
Proof.
  intros s.
  pose proof (fun h => quiet_hours_without_wrap_last_all_day sample_rt offline
                (sample_hs_at h) s _ _ _ _ 9 17 eq_refl eq_refl eq_refl eq_refl
                eq_refl eq_refl) as H.
  split_and!.
  - apply (H 3). lia.
  - apply (H 12). lia.
  - apply (H 20). lia.
  - apply (H 20). lia.
Defined.

(** X6.  [speak] leaves its text in the outbox whether or not it is
    uttered: when no file operation fails and the text can be encoded,
    the outbox file of the current second holds the stripped text and
    a line feed, in place of whatever an earlier text of that second
    left there; and no other file and none of the globals change. *)
Theorem speak_queues_the_text (rt : runtime) (ev : environ) (hs : host) text s b :
  faults s = [] ->
  utf8_encode rt (Py.strip text ++ [10%N]) = Some b ->
  let out := BnDaemon.speak rt ev hs text s in
  fs (snd out) !! BnDaemon.outbox_path ev = Some b
  /\ quiet (BnDaemon.outbox_path ev) s (snd out).
Proof.
  intros Hf Hb out. subst out. rewrite speak_state. split.
  - by apply outbox_write_no_faults.
  - apply outbox_write_keeps.
Qed.

Lemma speak_queues_the_text_witness :
  let s := state_with [(BnDaemon.outbox_path offline, file_text "Sleep in 10 seconds.
")] []
             (BnDaemon.default_memory offline) in
  let out := BnDaemon.speak sample_rt offline (sample_hs_at 23)
               (Py.lit "  Sleep cancelled. ") s in
  fst out = Ok false
  /\ fs (snd out) !! BnDaemon.outbox_path offline = Some (file_text "Sleep cancelled.
").
Proof.
  intros s out. subst out. split; [by vm_compute|].
  by apply (speak_queues_the_text sample_rt offline (sample_hs_at 23)
              (Py.lit "  Sleep cancelled. ") s).
Defined.

(** ** Snapshots of the state file *)

Section Snapshots.
Variable rt : runtime.
Variable ev : environ.
Variable hs : host.

Lemma open_read_no_faults p s c :
  faults s = [] -> fs s !! p = Some c -> open_read p s = (Ok tt, s).
Proof.
  intros Hf Hc. unfold open_read, bind, get_state. simpl. rewrite Hc.
  by apply fallible_no_faults.
Qed.

Lemma read_text_universal_no_faults p s c t :
  faults s = [] -> fs s !! p = Some c -> utf8_decode rt c = Some t ->
  read_text_universal rt p s = (Ok (Py.universal_newlines t), s).
Proof.
  intros Hf Hc Ht. unfold read_text_universal, read_text, bind.
  rewrite read_file_no_faults, Hc by done. simpl. by rewrite Ht.
Qed.

(** A text file written in one go, when nothing fails. *)
Lemma write_file_no_faults p t b s :
  faults s = [] -> utf8_encode rt t = Some b ->
  (let* _ := open_truncate p in
   let* _ := write_text rt p t in
   close p) s
  = (Ok tt, append_to p b (put_file (EvTruncate p) p [] s)).
Proof.
  intros Hf Hb.
  rewrite (bind_ok _ _ _ _ _ (open_truncate_no_faults _ _ Hf)).
  unfold write_text. rewrite Hb. unfold bind at 1, bind at 1, lift_opt, ret.
  rewrite write_no_faults by done. unfold close. by rewrite fallible_no_faults.
Qed.

Lemma panic_path_is_not_primary : BnDaemon.panic_path ev <> BnDaemon.MEM_PATH ev.
Proof. unfold BnDaemon.panic_path, BnDaemon.MEM_PATH. intros [= _ ?]. Qed.

Lemma panic_snapshot_copy s c t b :
  fs s !! BnDaemon.MEM_PATH ev = Some c -> faults s = [] ->
  utf8_decode rt c = Some t -> utf8_encode rt (Py.universal_newlines t) = Some b ->
  fs (snd (BnDaemon.panic_snapshot rt ev s)) !! BnDaemon.panic_path ev = Some b.
Proof.
  intros Hc Hf Ht Hb. unfold BnDaemon.panic_snapshot, bind at 1, try_except.
  rewrite (bind_ok _ _ _ _ _ (open_read_no_faults _ _ _ Hf Hc)).
  rewrite (bind_ok _ _ _ _ _ (open_truncate_no_faults _ _ Hf)).
  set (s1 := put_file _ _ _ s).
  assert (Hc1 : fs s1 !! BnDaemon.MEM_PATH ev = Some c).
  { subst s1. simpl. rewrite lookup_insert_ne; [done|apply panic_path_is_not_primary]. }
  rewrite (bind_ok _ _ _ _ _ (read_text_universal_no_faults _ s1 c t Hf Hc1 Ht)).
  unfold write_text. rewrite Hb. unfold bind at 1, bind at 1, lift_opt, ret.
  rewrite write_no_faults by done. unfold close. rewrite fallible_no_faults by done.
  simpl. by rewrite lookup_insert_eq, lookup_insert_eq.
Qed.

Lemma hourly_backup_copy s c t b :
  fs s !! BnDaemon.MEM_PATH ev = Some c -> faults s = [] ->
  utf8_decode rt c = Some t -> utf8_encode rt (Py.universal_newlines t) = Some b ->
  fs (snd (BnDaemon.hourly_backup_cycle rt ev hs s)) !! BnDaemon.hourly_path ev hs
  = Some b.
Proof.
  intros Hc Hf Ht Hb. unfold BnDaemon.hourly_backup_cycle, try_except.
  unfold bind at 1, path_exists. rewrite Hc, bool_decide_eq_true_2 by eauto.
  rewrite (bind_ok _ _ _ _ _ (read_text_universal_no_faults _ s c t Hf Hc Ht)).
  rewrite (write_file_no_faults _ _ b) by done.
  simpl. by rewrite lookup_insert_eq, lookup_insert_eq.
Qed.
End Snapshots.

(** X7.  [panic_snapshot] raises nothing and always answers the path
    of the snapshot, [recovery/panic-<time>.json], whether or not a
    snapshot was made: with no state file to copy nothing is written at
    all.  It changes no file but the snapshot.  When nothing fails the
    snapshot holds the text of the state file, re-encoded, with line
    ends as text mode reads them. *)
Theorem panic_snapshot_answers_its_path (rt : runtime) (ev : environ) s :
  let out := BnDaemon.panic_snapshot rt ev s in
  fst out = Ok (BnDaemon.panic_path ev)
  /\ quiet (BnDaemon.panic_path ev) s (snd out)
  /\ (fs s !! BnDaemon.MEM_PATH ev = None -> snd out = s)
  /\ (forall c t b,
        fs s !! BnDaemon.MEM_PATH ev = Some c -> faults s = [] ->
        utf8_decode rt c = Some t ->
        utf8_encode rt (Py.universal_newlines t) = Some b ->
        fs (snd out) !! BnDaemon.panic_path ev = Some b).
Proof.
  intros out. subst out. split_and!.
  - unfold BnDaemon.panic_snapshot.
    by rewrite (bind_fst_ok _ _ _ tt (swallowed _ s)).
  - apply panic_snapshot_keeps.
  - intros Hnone. unfold BnDaemon.panic_snapshot, bind at 1, try_except.
    unfold open_read, bind at 1, bind at 1, get_state. by rewrite Hnone.
  - intros c t b. apply panic_snapshot_copy.
Qed.

(** X8.  A turn of [hourly_backup_loop] raises nothing and changes no
    file but the backup of the current minute; when nothing fails the
    backup holds the text of the state file, re-encoded, with line ends
    as text mode reads them, and with no state file nothing is
    written. *)
Theorem hourly_backup_copies_the_state_file (rt : runtime) (ev : environ)
    (hs : host) s :
  let out := BnDaemon.hourly_backup_cycle rt ev hs s in
  fst out = Ok tt
  /\ quiet (BnDaemon.hourly_path ev hs) s (snd out)
  /\ (fs s !! BnDaemon.MEM_PATH ev = None -> snd out = s)
  /\ (forall c t b,
        fs s !! BnDaemon.MEM_PATH ev = Some c -> faults s = [] ->
        utf8_decode rt c = Some t ->
        utf8_encode rt (Py.universal_newlines t) = Some b ->
        fs (snd out) !! BnDaemon.hourly_path ev hs = Some b).
Proof.
  intros out. subst out. split_and!.
  - apply swallowed.
  - apply hourly_backup_keeps.
  - intros Hnone. unfold BnDaemon.hourly_backup_cycle, try_except, bind at 1, path_exists.
    by rewrite Hnone.
  - intros c t b. apply hourly_backup_copy.
Qed.

(** ** The wake time *)

(** X9.  [parse_hhmm] reads back the time that the [wake at] command
    echoes with [f"{hh:02d}:{mm:02d}"], for every hour and minute of the
    day; and it answers nothing but hours from 0 to 23 with minutes
    from 0 to 59. *)
Theorem parse_hhmm_reads_the_echoed_time (rt : runtime) :
  (forall h m, 0 <= h < 24 -> 0 <= m < 60 ->
     BnDaemon.parse_hhmm rt (Py.fmt02 h ++ Py.lit ":" ++ Py.fmt02 m) = Some (h, m))
  /\ (forall s h m, BnDaemon.parse_hhmm rt s = Some (h, m) ->
        0 <= h < 24 /\ 0 <= m < 60).
Proof.
  split.
  - intros h m Hh Hm.
    pose proof (within_limit h ltac:(lia)) as Lh.
    pose proof (within_limit m ltac:(lia)) as Lm.
    destruct (fmt02_spec (decimal_of rt) h ltac:(lia)) as [Dh Ih].
    destruct (fmt02_spec (decimal_of rt) m ltac:(lia)) as [Dm Im].
    unfold BnDaemon.parse_hhmm. change (Py.lit ":") with [58%N].
    rewrite strip_no_space.
    2: { apply Forall_app. split; [by apply digits_no_space|].
         constructor; [done|by apply digits_no_space]. }
    unfold Py.split. change ([58%N] ++ Py.fmt02 m) with (58%N :: Py.fmt02 m).
    assert (No : forall l, Forall (fun c => (48 <= c <= 57)%N) l ->
                           Forall (fun x => x <> 58%N) l).
    { intros l H. eapply Forall_impl; [exact H|]. intros c Hc. simpl in Hc. lia. }
    rewrite split_first_field, split_last_field by auto.
    simpl. rewrite Ih, Im.
    destruct (Z.leb_spec 0 h), (Z.ltb_spec h 24), (Z.leb_spec 0 m),
      (Z.ltb_spec m 60); simpl; (done || lia).
  - intros s h m. unfold BnDaemon.parse_hhmm.
    destruct (Py.split _ _) as [|hh [|mm [|? ?]]]; try done.
    destruct (Py.int_of_str _ hh) as [h'|]; [|done].
    destruct (Py.int_of_str _ mm) as [m'|]; [|done].
    destruct (Z.leb_spec 0 h'), (Z.ltb_spec h' 24), (Z.leb_spec 0 m'),
      (Z.ltb_spec m' 60); simpl; intros [= <- <-]; lia.
Qed.

(** ** The vehicle of the configuration file *)

Section ConfigVehicle.
Variable rt : runtime.
Variable ev : environ.

Lemma json_load_no_faults p s c t j :
  faults s = [] -> fs s !! p = Some c -> utf8_decode rt c = Some t ->
  json_loads rt t = Some j -> json_load rt p s = (Ok j, s).
Proof.
  intros Hf Hc Ht Hj. unfold json_load, read_text, bind.
  rewrite read_file_no_faults, Hc by done. simpl. rewrite Ht. simpl. by rewrite Hj.
Qed.

Lemma vehicle_update_run veh vkv a b c :
  dict_get (Py.lit "make") vkv = Some a ->
  dict_get (Py.lit "model") vkv = Some b ->
  dict_get (Py.lit "year") vkv = Some c ->
  BnDaemon.vehicle_update (JDict veh) (JDict vkv)
  = Ok [(Py.lit "make", default a (dict_get (Py.lit "make") veh));
        (Py.lit "model", default b (dict_get (Py.lit "model") veh));
        (Py.lit "year", default c (dict_get (Py.lit "year") veh))].
Proof.
  intros Ha Hb Hc. unfold BnDaemon.vehicle_update, py_getitem, py_get.
  by rewrite Ha, Hb, Hc.
Qed.

Lemma load_config_vehicle_run s c t cfg veh kv vkv a b d :
  fs s !! BnDaemon.CONFIG_PATH ev = Some c -> faults s = [] ->
  utf8_decode rt c = Some t -> json_loads rt t = Some cfg ->
  py_get cfg (Py.lit "vehicle") JNull = Ok (JDict veh) ->
  existsb (fun k => truthy (default JNull (dict_get k veh)))
          [Py.lit "make"; Py.lit "model"; Py.lit "year"] = true ->
  mem s = JDict kv -> dict_get (Py.lit "vehicle") kv = Some (JDict vkv) ->
  dict_get (Py.lit "make") vkv = Some a ->
  dict_get (Py.lit "model") vkv = Some b ->
  dict_get (Py.lit "year") vkv = Some d ->
  BnDaemon.load_config_vehicle rt ev s
  = BnDaemon.mark_dirty
      (set_mem (JDict (dict_set (Py.lit "vehicle")
         (JDict (BnDaemon.dict_update
            [(Py.lit "make", default a (dict_get (Py.lit "make") veh));
             (Py.lit "model", default b (dict_get (Py.lit "model") veh));
             (Py.lit "year", default d (dict_get (Py.lit "year") veh))] vkv)) kv)) s).
Proof.
  intros Hc Hf Ht Hj Hveh Hany Hm Hv Ha Hb Hd.
  unfold BnDaemon.load_config_vehicle.
  rewrite bind_path_exists, Hc, bool_decide_eq_true_2 by eauto.
  cbn [negb]. cbv beta iota. unfold try_except.
  rewrite (bind_ok _ _ _ _ _ (json_load_no_faults _ s c t cfg Hf Hc Ht Hj)).
  rewrite (bind_lift_res _ _ _ _ Hveh).
  assert (Htrue : truthy (JDict veh) = true) by (by destruct veh).
  rewrite Htrue. unfold py_get at 1 2 3.
  rewrite !(bind_lift_res _ _ _ _ eq_refl).
  simpl in Hany. rewrite orb_false_r, orb_assoc in Hany. rewrite Hany.
  rewrite bind_get_state, Hm.
  rewrite (bind_lift_res _ _ _ (JDict vkv)) by (unfold py_getitem; by rewrite Hv).
  rewrite (bind_lift_res _ _ _ _ (vehicle_update_run veh vkv a b d Ha Hb Hd)).
  erewrite bind_lift_res by reflexivity.
  by rewrite bind_modify, !mark_dirty_run.
Qed.
End ConfigVehicle.

(** X10.  [load_config_vehicle], when the configuration file is read
    without a failure and its vehicle has a field that counts as true:
    each of [make], [model] and [year] takes the value the configuration
    gives for it, [null] included; a field the configuration does not
    name keeps its value, and so does every other key of the vehicle in
    memory.  The document is marked dirty, and no file changes. *)
Theorem load_config_vehicle_merges (rt : runtime) (ev : environ)
    s c t cfg veh kv vkv a b d :
  fs s !! BnDaemon.CONFIG_PATH ev = Some c -> faults s = [] ->
  utf8_decode rt c = Some t -> json_loads rt t = Some cfg ->
  py_get cfg (Py.lit "vehicle") JNull = Ok (JDict veh) ->
  existsb (fun k => truthy (default JNull (dict_get k veh)))
          [Py.lit "make"; Py.lit "model"; Py.lit "year"] = true ->
  mem s = JDict kv -> dict_get (Py.lit "vehicle") kv = Some (JDict vkv) ->
  dict_get (Py.lit "make") vkv = Some a ->
  dict_get (Py.lit "model") vkv = Some b ->
  dict_get (Py.lit "year") vkv = Some d ->
  let out := BnDaemon.load_config_vehicle rt ev s in
  fst out = Ok tt
  /\ fs (snd out) = fs s
  /\ mem_dirty (snd out) = true
  /\ exists vkv',
       mem (snd out) = JDict (dict_set (Py.lit "vehicle") (JDict vkv') kv)
       /\ (forall k, vehicle_key k -> dict_get k vkv' = merged_field veh vkv k)
       /\ (forall k, ~ vehicle_key k -> dict_get k vkv' = dict_get k vkv).
Proof.
  intros Hc Hf Ht Hj Hveh Hany Hm Hv Ha Hb Hd out. subst out.
  rewrite (load_config_vehicle_run rt ev s c t cfg veh kv vkv a b d) by done.
  rewrite mark_dirty_run. cbn [fst snd].
  split_and!; [done..|].
  eexists. split; [simpl; reflexivity|]. unfold BnDaemon.dict_update. cbn [fold_left fst snd].
  assert (K1 : Py.lit "make" <> Py.lit "model") by done.
  assert (K2 : Py.lit "make" <> Py.lit "year") by done.
  assert (K3 : Py.lit "model" <> Py.lit "year") by done.
  split.
  - intros k [-> | [-> | ->]]; unfold merged_field.
    + rewrite !dict_get_set_ne, dict_get_set_eq by done.
      rewrite Ha. by destruct (dict_get _ veh).
    + rewrite dict_get_set_ne, dict_get_set_eq by done.
      rewrite Hb. by destruct (dict_get _ veh).
    + rewrite dict_get_set_eq. rewrite Hd. by destruct (dict_get _ veh).
  - intros k Hk. rewrite !dict_get_set_ne; [done|..];
      intros ->; apply Hk; unfold vehicle_key; auto.
Qed.

Lemma load_config_vehicle_merges_witness :
  let out := BnDaemon.load_config_vehicle sample_rt offline beside_config in
  fst out = Ok tt
  /\ mem_dirty (snd out) = true
  /\ py_getitem (mem (snd out)) (Py.lit "vehicle")
     = Ok (JDict [(Py.lit "make", JStr (Py.lit "Honda"));
                  (Py.lit "model", JNull);
                  (Py.lit "year", JInt 2015)]).
Proof.
  intros out. subst out.
  pose proof (load_config_vehicle_merges sample_rt offline beside_config
              config_with_make (Py.lit "{" ++ quoted "vehicle" ++ Py.lit ": {"
                ++ quoted "make" ++ Py.lit ": " ++ quoted "Honda" ++ Py.lit ", "
                ++ quoted "model" ++ Py.lit ": null}}")
              (JDict [(Py.lit "vehicle",
                       JDict [(Py.lit "make", JStr (Py.lit "Honda"));
                              (Py.lit "model", JNull)])])
              [(Py.lit "make", JStr (Py.lit "Honda")); (Py.lit "model", JNull)]
              [(Py.lit "vehicle", JDict known_vehicle)] known_vehicle
              (JStr (Py.lit "Ford")) (JStr (Py.lit "Focus")) (JInt 2015)) as H.
  repeat match type of H with
         | ?P -> _ => let h := fresh in
                      assert (h : P) by (by vm_compute); specialize (H h); clear h
         end.
  destruct H as (H1 & _ & H3 & _).
  split_and!; [exact H1|exact H3|by vm_compute].
Defined.

(** ** The log file of the updater *)

Section Lines.

Lemma splitlines_go_line l rest cur :
  one_line l ->
  Py.splitlines_go (l ++ 10%N :: rest) cur false
  = (rev cur ++ l) :: Py.splitlines_go rest [] false.
Proof.
  revert cur. induction l as [|c l IH]; intros cur Hl.
  - simpl. by rewrite app_nil_r.
  - inversion Hl as [|? ? Hc Hl']; subst. cbn [app Py.splitlines_go andb].
    rewrite Hc, IH by done. simpl. by rewrite <- app_assoc.
Qed.

(** What [append_log] writes reads back, line by line. *)
Lemma splitlines_join lines :
  lines <> [] -> Forall one_line lines ->
  Py.splitlines (Py.join [10%N] lines ++ [10%N]) = lines.
Proof.
  unfold Py.splitlines. induction lines as [|l lines IH]; [done|].
  intros _ Hl. inversion Hl as [|? ? H1 H2]; subst.
  destruct lines as [|l' lines].
  - cbn [Py.join]. by rewrite splitlines_go_line.
  - change (Py.join [10%N] (l :: l' :: lines))
      with (l ++ [10%N] ++ Py.join [10%N] (l' :: lines)).
    rewrite <- !app_assoc. cbn [app].
    rewrite splitlines_go_line by done. cbn [rev app]. f_equal.
    by apply IH.
Qed.

Lemma splitlines_go_one_line s cur after_cr :
  one_line cur -> Forall one_line (Py.splitlines_go s cur after_cr).
Proof.
  revert cur after_cr. induction s as [|c s IH]; intros cur after_cr Hcur.
  - simpl. destruct cur; constructor; [|done]. by apply Forall_rev.
  - cbn [Py.splitlines_go].
    destruct (after_cr && (c =? 10)%N); [by apply IH|].
    destruct (Py.is_linebreak c) eqn:Hc.
    + constructor; [by apply Forall_rev|]. apply IH. constructor.
    + apply IH. by constructor.
Qed.

(** No line of [splitlines] holds a line boundary. *)
Lemma splitlines_one_line s : Forall one_line (Py.splitlines s).
Proof. apply splitlines_go_one_line. constructor. Qed.

Lemma universal_newlines_id s :
  Forall (fun c => c <> 13%N) s -> Py.universal_newlines s = s.
Proof.
  induction 1 as [|c s Hc _ IH]; [done|]. cbn [Py.universal_newlines].
  destruct (N.eqb_spec c 13); [done|]. by rewrite IH.
Qed.

Lemma one_line_no_cr l : one_line l -> Forall (fun c => c <> 13%N) l.
Proof.
  intros H. eapply Forall_impl; [exact H|]. by intros c Hc ->.
Qed.

Lemma join_no_cr lines :
  Forall one_line lines -> Forall (fun c => c <> 13%N) (Py.join [10%N] lines).
Proof.
  induction 1 as [|l lines Hl _ IH]; [constructor|].
  destruct lines as [|l' lines]; [by apply one_line_no_cr|].
  change (Py.join [10%N] (l :: l' :: lines))
    with (l ++ [10%N] ++ Py.join [10%N] (l' :: lines)).
  apply Forall_app. split; [by apply one_line_no_cr|].
  apply Forall_app. split; [by constructor|done].
Qed.

Lemma last_n_length {A} n (xs : list A) : (length (Py.last_n n xs) <= n)%nat.
Proof. unfold Py.last_n. rewrite length_drop. lia. Qed.

Lemma last_n_all {A} n (xs : list A) : (length xs <= n)%nat -> Py.last_n n xs = xs.
Proof.
  intros H. unfold Py.last_n. by replace (length xs - n)%nat with 0%nat by lia.
Qed.

Lemma last_n_snoc {A} n (xs : list A) x :
  exists ys, Py.last_n (S n) (xs ++ [x]) = ys ++ [x] /\ ys = Py.last_n n xs.
Proof.
  exists (Py.last_n n xs). split; [|done]. unfold Py.last_n.
  rewrite length_app. cbn [length].
  replace (length xs + 1 - S n)%nat with (length xs - n)%nat by lia.
  rewrite drop_app_le by lia. done.
Qed.

End Lines.

Section AppendLog.
Variable rt : runtime.
Variable hs : host.

Lemma rotation {A} (lines : list A) :
  (if (BnUpdater.MAX_LOG_LINES <? length lines)%nat
   then Py.last_n BnUpdater.MAX_LOG_LINES lines else lines)
  = Py.last_n BnUpdater.MAX_LOG_LINES lines.
Proof.
  destruct (Nat.ltb_spec BnUpdater.MAX_LOG_LINES (length lines)); [done|].
  by rewrite last_n_all.
Qed.

Lemma append_log_run line s old b :
  faults s = [] -> logged rt (fs s !! BnUpdater.LOG_PATH) = Some old ->
  utf8_encode rt (Py.join [10%N]
      (Py.last_n BnUpdater.MAX_LOG_LINES (old ++ [log_entry hs line])) ++ [10%N])
  = Some b ->
  BnUpdater.append_log rt hs line s
  = (Ok tt,
     log_event EvRelease (set_mem_lock false
       (append_to BnUpdater.LOG_PATH b
          (put_file (EvTruncate BnUpdater.LOG_PATH) BnUpdater.LOG_PATH []
             (log_event EvAcquire (set_mem_lock true s)))))).
Proof.
  intros Hf Hold Hb. unfold BnUpdater.append_log, try_except, with_lock.
  rewrite bind_modify. unfold try_finally.
  set (s0 := log_event EvAcquire (set_mem_lock true s)).
  assert (Hf0 : faults s0 = []) by done.
  fold (log_entry hs line).
  assert (Hwrite : forall lines : list Py.text, lines = old ->
    (let* _ := open_truncate BnUpdater.LOG_PATH in
     let* _ := write_text rt BnUpdater.LOG_PATH
                 (Py.join [10%N]
                    (if (BnUpdater.MAX_LOG_LINES <? length (lines ++ [log_entry hs line]))%nat
                     then Py.last_n BnUpdater.MAX_LOG_LINES (lines ++ [log_entry hs line])
                     else lines ++ [log_entry hs line]) ++ [10%N]) in
     close BnUpdater.LOG_PATH) s0
    = (Ok tt, append_to BnUpdater.LOG_PATH b
                (put_file (EvTruncate BnUpdater.LOG_PATH) BnUpdater.LOG_PATH [] s0))).
  { intros lines ->. rewrite rotation. by apply write_file_no_faults. }
  rewrite bind_path_exists. change (fs s0) with (fs s). revert Hold.
  unfold logged. destruct (fs s !! BnUpdater.LOG_PATH) as [c|] eqn:Hc.
  - rewrite bool_decide_eq_true_2 by eauto.
    destruct (utf8_decode rt c) as [t|] eqn:Ht; [|done]. intros [= <-].
    unfold bind at 1.
    rewrite (bind_ok _ _ _ _ _ (read_text_universal_no_faults rt _ s0 c t Hf0 Hc Ht)).
    unfold ret at 1. by rewrite Hwrite.
  - rewrite bool_decide_eq_false_2 by (by intros [? ?]). intros [= <-].
    rewrite bind_ret. by rewrite Hwrite.
Qed.
End AppendLog.

(** X11.  [append_log], when no file operation fails: the log file is
    rewritten with the lines it held and the new entry after them, cut
    to the newest [MAX_LOG_LINES]; the entry is always the last line,
    and at most 399 of the old lines stay.  When the entry holds no
    line boundary, the file reads back as exactly these lines, so the
    log never grows past [MAX_LOG_LINES] lines. *)
Theorem append_log_keeps_the_newest_lines (rt : runtime) (hs : host) line s old b :
  faults s = [] ->
  logged rt (fs s !! BnUpdater.LOG_PATH) = Some old ->
  let lines := Py.last_n BnUpdater.MAX_LOG_LINES (old ++ [log_entry hs line]) in
  utf8_encode rt (Py.join [10%N] lines ++ [10%N]) = Some b ->
  let out := BnUpdater.append_log rt hs line s in
  fst out = Ok tt
  /\ fs (snd out) !! BnUpdater.LOG_PATH = Some b
  /\ (length lines <= BnUpdater.MAX_LOG_LINES)%nat
  /\ lines = Py.last_n 399 old ++ [log_entry hs line]
  /\ (one_line (log_entry hs line) ->
      utf8_decode rt b = Some (Py.join [10%N] lines ++ [10%N]) ->
      logged rt (Some b) = Some lines).
Proof.
  intros Hf Hold lines Hb out. subst out.
  rewrite (append_log_run rt hs line s old b Hf Hold Hb). cbn [fst snd].
  assert (Hlines : lines = Py.last_n 399 old ++ [log_entry hs line]).
  { subst lines. change BnUpdater.MAX_LOG_LINES with (S 399).
    by destruct (last_n_snoc 399 old (log_entry hs line)) as (ys & -> & ->). }
  split_and!; [done| |apply last_n_length|done|].
  - simpl. by rewrite lookup_insert_eq, lookup_insert_eq.
  - intros Hentry Hd. unfold logged. rewrite Hd.
    assert (Hall : Forall one_line lines).
    { rewrite Hlines. apply Forall_app. split; [|by constructor].
      unfold Py.last_n. apply Forall_drop. clearbody lines.
      revert Hold. unfold logged.
      destruct (fs s !! BnUpdater.LOG_PATH) as [c|]; [|intros [= <-]; constructor].
      destruct (utf8_decode rt c); [|done]. intros [= <-].
      apply splitlines_one_line. }
    rewrite universal_newlines_id.
    + f_equal. apply splitlines_join; [|done]. rewrite Hlines. by intros [_ [=]]%app_eq_nil.
    + apply Forall_app. split; [by apply join_no_cr|by constructor].
Qed.

Lemma append_log_keeps_the_newest_lines_witness :
  let out := BnUpdater.append_log sample_rt sample_hs (Py.lit "Graceful shutdown.")
               small_log in
  fst out = Ok tt
  /\ fs (snd out) !! BnUpdater.LOG_PATH
     = Some (file_text "[2025-12-31 23:59:00] Core ready." ++ [10%N]
             ++ file_text "[2025-12-31 23:59:30] Heartbeat" ++ [10%N]
             ++ file_text "[2026-01-01 00:00:00] Graceful shutdown." ++ [10%N]).
Proof.
  intros out. subst out.
  edestruct (append_log_keeps_the_newest_lines sample_rt sample_hs
               (Py.lit "Graceful shutdown.") small_log
               [Py.lit "[2025-12-31 23:59:00] Core ready.";
                Py.lit "[2025-12-31 23:59:30] Heartbeat"])
    as (H1 & H2 & _).
  - by vm_compute.
  - by vm_compute.
  - vm_compute. reflexivity.
  - split; [exact H1|exact H2].
Defined.

(** ** Witnesses for the lock of a dead process and for the swap *)

Lemma dead_lock_is_removed_and_counted_witness :
  let out := BnDaemon.main_prologue sample_rt offline beside_dead_holder in
  BnDaemon.cleanup_stale_lock sample_rt offline beside_dead_holder
  = (Ok true, delete_file (BnDaemon.LOCK_PATH offline) beside_dead_holder)
  /\ fst out = Ok tt
  /\ py_get (mem (snd out)) (Py.lit "death_count") JNull = Ok (JInt 1)
  /\ fs (snd out) !! BnDaemon.LOCK_PATH offline
     = Some (file_text "4242|2026-01-01T00:00:00+00:00" ++ [10%N]).
Proof.
  intros out. subst out.
  edestruct (dead_lock_is_removed_and_counted sample_rt offline beside_dead_holder
               lock_of_999 999 ProcessLookupError) as (H1 & H2 & H3 & H4).
  - by vm_compute.
  - by vm_compute.
  - by vm_compute.
  - by vm_compute.
  - vm_compute. reflexivity.
  - vm_compute. reflexivity.
  - vm_compute. reflexivity.
  - split_and!; [exact H1|exact H2|rewrite H3; by vm_compute|exact H4].
Defined.

Lemma swap_keeps_the_prior_artifact_witness :
  let out := BnUpdater.swap offline newer_candidate target_path backup_path
               (updater_state move_fails_midway) in
  match fst out with
  | Ok _ => fs (snd out) !! target_path = Some newer_candidate
            /\ fs (snd out) !! backup_path = Some installed_artifact
  | Raise _ => fs (snd out) !! target_path = Some installed_artifact
               \/ fs (snd out) !! backup_path = Some installed_artifact
  end.
Proof.
  apply (swap_keeps_the_prior_artifact offline newer_candidate target_path backup_path
           (updater_state move_fails_midway) installed_artifact).
  - by vm_compute.
  - done.
  - intros n. split; intros [= ?].
Defined.

(** ** Commands *)

Lemma starts_with_app p s : Py.starts_with p s = true -> exists r, s = p ++ r.
Proof.
  revert s. induction p as [|a p IH]; intros s; [by exists s|].
  destruct s as [|b s]; [done|]. simpl.
  destruct (N.eqb_spec a b) as [->|]; [|done]. simpl.
  intros H. destruct (IH s H) as [r ->]. by exists r.
Qed.

Lemma strip_nil : Py.strip [] = [].
Proof. reflexivity. Qed.

Section Dispatch.
Variable rt : runtime.
Variable ev : environ.
Variable hs : host.

Lemma study_branch t k :
  Py.strip t <> [] ->
  Py.starts_with (Py.lit "study ") (str_lower hs (Py.strip t)) = true ->
  BnDaemon.handle_command rt ev hs (JStr t) k
  = (let+ _ := io (BnDaemon.learn rt ev
                     (Py.lit "studied:" ++ Py.strip (drop 6 (Py.strip t)))) in
     print [Py.lit "Studying" ++ [8230%N]])
      (set_LAST_CMD_TS (time_time hs) k).
Proof.
  intros Hne Hstarts.
  assert (Ht : truthy (JStr t) = true).
  { destruct t; [by rewrite strip_nil in Hne|done]. }
  unfold BnDaemon.handle_command, pbind at 1, assign.
  rewrite Ht. unfold pbind at 1, io at 1, ret.
  destruct (Py.strip t) as [|c0 c] eqn:Hc; [done|].
  destruct (starts_with_app _ _ Hstarts) as [r Hlow].
  cbv zeta. rewrite Hlow. reflexivity.
Qed.

Lemma learn_keeps_settings item s key :
  fst (BnDaemon.sget key (snd (BnDaemon.learn rt ev item s)))
  = fst (BnDaemon.sget key s).
Proof.
  destruct (mem s) as [| | | | | |kv] eqn:Hm;
    try (unfold BnDaemon.learn, bind, get_state; simpl; by rewrite Hm).
  destruct (default (JList []) (dict_get (Py.lit "learned") kv))
    as [| | | | |xs|] eqn:Hl;
    try (unfold BnDaemon.learn, bind, get_state; simpl; by rewrite Hm, Hl).
  destruct (learn_appends_and_marks_run rt ev item s kv xs Hm Hl) as [Hm' _].
  unfold BnDaemon.sget, bind, get_state, lift_res. simpl.
  rewrite Hm', Hm. cbn [py_get]. rewrite dict_get_set_ne by done.
  by destruct (default (JDict []) (dict_get (Py.lit "settings") kv)) as [| | | | | |st];
    [..|simpl; destruct (dict_get key st)].
Qed.
End Dispatch.

(** X14.  A command whose lower-case form starts with [study ] is taken
    as a topic to learn, and [study on] and [study off] are such
    commands: [handle_command] hands them to [learn], which records
    [studied:on] or [studied:off], and no setting changes; the tests
    for [study on] and [study off] that follow are never reached. *)
Theorem study_on_is_taken_as_a_topic (rt : runtime) (ev : environ) (hs : host) t k :
  Py.strip t <> [] ->
  Py.starts_with (Py.lit "study ") (str_lower hs (Py.strip t)) = true ->
  let out := BnDaemon.handle_command rt ev hs (JStr t) k in
  out = (let+ _ := io (BnDaemon.learn rt ev
                         (Py.lit "studied:" ++ Py.strip (drop 6 (Py.strip t)))) in
         print [Py.lit "Studying" ++ [8230%N]])
          (set_LAST_CMD_TS (time_time hs) k)
  /\ forall key, fst (BnDaemon.sget key (core (snd out)))
                 = fst (BnDaemon.sget key (core k)).
Proof.
  intros Hne Hstarts out. subst out.
  rewrite (study_branch rt ev hs t k Hne Hstarts). split; [done|].
  intros key. unfold pbind, io. cbn [core set_LAST_CMD_TS].
  pose proof (learn_keeps_settings rt ev
                (Py.lit "studied:" ++ Py.strip (drop 6 (Py.strip t))) (core k) key) as H.
  by destruct (BnDaemon.learn _ _ _ (core k)) as [[[]|e] s1].
Qed.

Lemma study_on_is_taken_as_a_topic_witness :
  let k := console_of (state_with [] [] (BnDaemon.default_memory offline)) in
  let out := BnDaemon.handle_command sample_rt offline sample_hs
               (JStr (Py.lit "Study ON")) k in
  fst out = Done tt
  /\ printed (snd out) = [Py.lit "Studying" ++ [8230%N]]
  /\ py_get (mem (core (snd out))) (Py.lit "learned") JNull
     = Ok (JList [JStr (Py.lit "studied:ON")])
  /\ BnDaemon.sget (Py.lit "enable_autostudy") (core (snd out))
     = (Ok false, core (snd out)).
Proof.
  intros k out. subst out.
  destruct (study_on_is_taken_as_a_topic sample_rt offline sample_hs
              (Py.lit "Study ON") k) as [H1 H2]; [done|done|].
  rewrite H1. by vm_compute.
Defined.

(** ** The [quiet hours] command *)

Lemma is_space_lower c : Py.is_space (lower_char c) = Py.is_space c.
Proof.
  unfold lower_char.
  destruct (N.leb_spec 65 c); [|done]. destruct (N.leb_spec c 90); [|done]. simpl.
  assert (E : In c [65; 66; 67; 68; 69; 70; 71; 72; 73; 74; 75; 76; 77; 78; 79; 80;
                    81; 82; 83; 84; 85; 86; 87; 88; 89; 90]%N) by (simpl; lia).
  simpl in E. by repeat destruct E as [<-|E].
Qed.

Lemma split_ws_go_lower s cur :
  Py.split_ws_go (Py.ascii_lower s) (Py.ascii_lower cur)
  = List.map Py.ascii_lower (Py.split_ws_go s cur).
Proof.
  unfold Py.ascii_lower. fold lower_char.
  revert cur. induction s as [|c s IH]; intros cur; simpl.
  - destruct cur; [done|]. simpl. by rewrite map_app, map_rev.
  - fold (lower_char c). rewrite is_space_lower. destruct (Py.is_space c).
    + destruct cur; simpl; [apply (IH [])|].
      rewrite map_app, map_rev. f_equal. apply (IH []).
    + apply (IH (c :: cur)).
Qed.

Lemma split_ws_lower s :
  Py.split_ws (Py.ascii_lower s) = List.map Py.ascii_lower (Py.split_ws s).
Proof. apply (split_ws_go_lower s []). Qed.

Lemma lower_char_inv c l :
  lower_char c = l -> (97 <= l <= 122)%N -> c = l \/ c = (l - 32)%N.
Proof.
  unfold lower_char. destruct (N.leb_spec 65 c), (N.leb_spec c 90); simpl; lia.
Qed.

(** No spelling of [hours] is an integer. *)
Lemma hours_is_no_integer decimal_of a :
  Py.ascii_lower a = Py.lit "hours" -> Py.int_of_str decimal_of a = None.
Proof.
  unfold Py.ascii_lower. fold lower_char.
  destruct a as [|c1 [|c2 [|c3 [|c4 [|c5 [|? ?]]]]]]; try done.
  intros [= H1 H2 H3 H4 H5].
  destruct (lower_char_inv _ _ H1 ltac:(lia)) as [E1 | E1],
    (lower_char_inv _ _ H2 ltac:(lia)) as [E2 | E2],
    (lower_char_inv _ _ H3 ltac:(lia)) as [E3 | E3],
    (lower_char_inv _ _ H4 ltac:(lia)) as [E4 | E4],
    (lower_char_inv _ _ H5 ltac:(lia)) as [E5 | E5];
    rewrite E1, E2, E3, E4, E5; reflexivity.
Qed.

Section QuietHours.
Variable rt : runtime.
Variable ev : environ.
Variable hs : host.

Lemma quiet_hours_branch t k :
  Py.strip t <> [] ->
  Py.starts_with (Py.lit "quiet hours ") (str_lower hs (Py.strip t)) = true ->
  BnDaemon.handle_command rt ev hs (JStr t) k
  = BnDaemon.cmd_quiet_hours rt ev hs (Py.strip t) (set_LAST_CMD_TS (time_time hs) k).
Proof.
  intros Hne Hstarts.
  assert (Ht : truthy (JStr t) = true).
  { destruct t; [by rewrite strip_nil in Hne|done]. }
  unfold BnDaemon.handle_command, pbind at 1, assign.
  rewrite Ht. unfold pbind at 1, io at 1, ret.
  destruct (Py.strip t) as [|c0 c] eqn:Hc; [done|].
  destruct (starts_with_app _ _ Hstarts) as [r Hlow].
  cbv zeta. rewrite Hlow. reflexivity.
Qed.

Lemma cmd_quiet_hours_fails c k :
  Py.starts_with (Py.lit "quiet hours ") (Py.ascii_lower c) = true ->
  BnDaemon.cmd_quiet_hours rt ev hs c k
  = (Done tt, add_printed (Py.lit "Usage: quiet hours <startHour> <endHour> (24h)") k).
Proof.
  intros Hstarts. destruct (starts_with_app _ _ Hstarts) as [r Hlow].
  pose proof (split_ws_lower c) as Hs. rewrite Hlow in Hs.
  change (Py.split_ws (Py.lit "quiet hours " ++ r))
    with (Py.lit "quiet" :: Py.lit "hours" :: Py.split_ws r) in Hs.
  unfold BnDaemon.cmd_quiet_hours, ptry.
  destruct (Py.split_ws c) as [|x [|a [|b [|? ?]]]]; try done.
  simpl in Hs. injection Hs as _ Ha _.
  unfold pbind at 1, io at 1, BnDaemon.int_of.
  by rewrite (hours_is_no_integer _ a (eq_sym Ha)).
Qed.
End QuietHours.

(** X15.  The [quiet hours] command never sets the quiet hours.  Every
    command whose lower-case form starts with [quiet hours ] (lower
    case taken letter by letter, as for a command in ASCII) ends with
    the usage line and changes nothing but the time of the last
    command: with two hours given the line has four words where three
    are unpacked, and with three words the first hour is the word
    [hours]. *)
Theorem quiet_hours_command_never_sets_them (rt : runtime) (ev : environ)
    (hs : host) t k :
  Py.strip t <> [] ->
  str_lower hs (Py.strip t) = Py.ascii_lower (Py.strip t) ->
  Py.starts_with (Py.lit "quiet hours ") (Py.ascii_lower (Py.strip t)) = true ->
  BnDaemon.handle_command rt ev hs (JStr t) k
  = (Done tt, add_printed (Py.lit "Usage: quiet hours <startHour> <endHour> (24h)")
                (set_LAST_CMD_TS (time_time hs) k)).
Proof.
  intros Hne Hlow Hstarts.
  rewrite quiet_hours_branch by (by rewrite ?Hlow).
  by apply cmd_quiet_hours_fails.
Qed.

Lemma quiet_hours_command_never_sets_them_witness :
  let k := console_of (state_with [] [] (BnDaemon.default_memory offline)) in
  let out := BnDaemon.handle_command sample_rt offline sample_hs
               (JStr (Py.lit "quiet hours 23 7")) k in
  fst out = Done tt
  /\ printed (snd out) = [Py.lit "Usage: quiet hours <startHour> <endHour> (24h)"]
  /\ py_get (mem (core (snd out))) (Py.lit "quiet_hours") JNull
     = Ok (JDict [(Py.lit "start", JInt 22); (Py.lit "end", JInt 6)]).
Proof.
  intros k out. subst out.
  rewrite (quiet_hours_command_never_sets_them sample_rt offline sample_hs
             (Py.lit "quiet hours 23 7") k); by vm_compute.
Defined.

(** ** The dirty flag and the mutations of the document *)

Section DirtyFlag.
Variable rt : runtime.
Variable ev : environ.

(** [learn] marks what it changes: it either returns with the flag set
    or raises with the document as it was. *)
Lemma learn_marks item s :
  let out := BnDaemon.learn rt ev item s in
  match fst out with
  | Ok _ => mem_dirty (snd out) = true
  | Raise _ => snd out = s
  end.
Proof.
  intros out. subst out.
  destruct (mem s) as [| | | | | |kv] eqn:Hm;
    try (unfold BnDaemon.learn, bind, get_state; simpl; by rewrite Hm).
  destruct (default (JList []) (dict_get (Py.lit "learned") kv))
    as [| | | | |xs|] eqn:Hl;
    try (unfold BnDaemon.learn, bind, get_state; simpl; by rewrite Hm, Hl).
  destruct (learn_run rt ev item s kv xs Hm Hl) as (s2 & Q & ->). done.
Qed.

(** [sset] saves what it changes: it returns with the new document in
    the state file and the flag clear, or raises with the flag set, or
    raises with the document as it was. *)
Lemma sset_marks k v s :
  let out := BnDaemon.sset rt ev k v s in
  match fst out with
  | Ok _ =>
      mem_dirty (snd out) = false
      /\ fs (snd out) !! BnDaemon.MEM_PATH ev
         = Some (concat (json_dump rt (mem (snd out))))
  | Raise _ => mem_dirty (snd out) = true \/ snd out = s
  end.
Proof.
  intros out. subst out.
  destruct (mem s) as [| | | | | |kv] eqn:Hm;
    try (unfold BnDaemon.sset, BnDaemon.setdefault_setitem, bind, get_state;
         simpl; rewrite Hm; by right).
  destruct (default (JDict []) (dict_get (Py.lit "settings") kv))
    as [| | | | | |st] eqn:Hs;
    try (unfold BnDaemon.sset, BnDaemon.setdefault_setitem, bind, get_state;
         simpl; rewrite Hm, Hs; by right).
  rewrite (sset_run rt ev k v s kv st Hm Hs). cbv zeta.
  match goal with |- context [BnDaemon.save_memory rt ev ?s1] =>
    pose proof (save_memory_spec rt ev s1) as (M & before & after & _ & _ & _ & _ & H);
    destruct (BnDaemon.save_memory rt ev s1) as [[[]|e] s2]
  end; simpl in *.
  - destruct H as (Hp & Hd & _). split; [done|]. by rewrite M.
  - destruct H as (_ & _ & Hd). by left.
Qed.

(** A turn of the loop that finds the flag set, and can read the
    settings, tries one save: afterwards the state file holds the
    document and the flag is clear, or the save has failed, the state
    file is as it was and the flag is still set. *)
Lemma autosave_cycle_dirty s calm :
  mem_dirty s = true ->
  fst (BnDaemon.sget (Py.lit "calm") s) = Ok calm ->
  let out := BnDaemon.autosave_cycle rt ev s in
  fst out = Ok tt /\ mem (snd out) = mem s
  /\ ((mem_dirty (snd out) = false
       /\ fs (snd out) !! BnDaemon.MEM_PATH ev = Some (concat (json_dump rt (mem s))))
      \/ (mem_dirty (snd out) = true
          /\ fs (snd out) !! BnDaemon.MEM_PATH ev = fs s !! BnDaemon.MEM_PATH ev)).
Proof.
  intros Hd Hs out. subst out. rewrite autosave_cycle_run, Hs, Hd.
  pose proof (save_memory_spec rt ev (after_peek s))
    as (M & before & after & _ & _ & _ & _ & H).
  destruct (BnDaemon.save_memory rt ev (after_peek s)) as [[[]|e] s2]; simpl in *.
  - destruct H as (Hp & Hd2 & _). split_and!; [done..|]. by left.
  - destruct H as (Hp & _ & Hd2). split_and!; [done..|]. right.
    split; [by rewrite Hd2|done].
Qed.
End DirtyFlag.

(** C9, as amended.  In the daemon ([Bn.py]) [mark_dirty] sets the dirty
    flag while it holds the lock, and [learn] and [sset] call it after
    they have changed the document: [learn] returns with the flag set,
    [sset] with the new document saved.  A turn of [autosave_loop]
    writes only when it finds the flag set: with the flag clear a turn,
    and any number of turns, changes no file and logs nothing but the
    taking and the release of the lock, whatever the document holds;
    with the flag set (and the settings readable) the turn is a
    [save_memory], after which the state file holds the document and
    the flag is clear, or, when the save has failed, the state file is
    as it was and the flag is still set; a turn that cannot read the
    settings does nothing at all.  A successful [save_memory] clears
    the flag, under the lock too. *)
Theorem daemon_autosave_only_when_dirty (rt : runtime) (ev : environ) (s : state) :
  (let out := BnDaemon.mark_dirty s in
   fst out = Ok tt /\ mem_dirty (snd out) = true /\ fs (snd out) = fs s
   /\ List.map fst (trace (snd out))
      = [EvRelease; EvSetDirty true true; EvAcquire] ++ List.map fst (trace s))
  /\ (mem_dirty s = false ->
      forall n,
        let out := BnDaemon.autosave_loop rt ev n s in
        fst out = Ok tt /\ fs (snd out) = fs s /\ mem_dirty (snd out) = false
        /\ exists evs, List.map fst (trace (snd out)) = evs ++ List.map fst (trace s)
                       /\ Forall lock_event evs)
  /\ (mem_dirty s = false ->
      let out := BnDaemon.autosave_cycle rt ev s in
      fst out = Ok tt /\ fs (snd out) = fs s /\ mem_dirty (snd out) = false
      /\ exists evs, List.map fst (trace (snd out)) = evs ++ List.map fst (trace s)
                     /\ Forall lock_event evs)
  /\ (mem_dirty s = true ->
      forall calm, fst (BnDaemon.sget (Py.lit "calm") s) = Ok calm ->
        BnDaemon.autosave_cycle rt ev s
        = (Ok tt, snd (BnDaemon.save_memory rt ev (after_peek s))))
  /\ (fst (BnDaemon.save_memory rt ev s) = Ok tt ->
      let saved := snd (BnDaemon.save_memory rt ev s) in
      mem_dirty saved = false
      /\ In (EvSetDirty false true) (List.map fst (trace saved))
      /\ fs (snd (BnDaemon.autosave_cycle rt ev saved)) = fs saved)
  /\ (forall item,
        let out := BnDaemon.learn rt ev item s in
        match fst out with
        | Ok _ => mem_dirty (snd out) = true
        | Raise _ => snd out = s
        end)
  /\ (forall k v,
        let out := BnDaemon.sset rt ev k v s in
        match fst out with
        | Ok _ =>
            mem_dirty (snd out) = false
            /\ fs (snd out) !! BnDaemon.MEM_PATH ev
               = Some (concat (json_dump rt (mem (snd out))))
        | Raise _ => mem_dirty (snd out) = true \/ snd out = s
        end)
  /\ (mem_dirty s = true ->
      forall calm, fst (BnDaemon.sget (Py.lit "calm") s) = Ok calm ->
        let out := BnDaemon.autosave_cycle rt ev s in
        fst out = Ok tt /\ mem (snd out) = mem s
        /\ ((mem_dirty (snd out) = false
             /\ fs (snd out) !! BnDaemon.MEM_PATH ev
                = Some (concat (json_dump rt (mem s))))
            \/ (mem_dirty (snd out) = true
                /\ fs (snd out) !! BnDaemon.MEM_PATH ev
                   = fs s !! BnDaemon.MEM_PATH ev)))
  /\ (forall e, fst (BnDaemon.sget (Py.lit "calm") s) = Raise e ->
        BnDaemon.autosave_cycle rt ev s = (Ok tt, s))
  /\ (mem_dirty s = false ->
      forall n, mem (snd (BnDaemon.autosave_loop rt ev n s)) = mem s).
Proof.
  split_and!.
  - by rewrite mark_dirty_run.
  - intros Hd n. destruct (autosave_loop_clean rt ev n s Hd) as (?&?&?&?&?); auto.
  - intros Hd. destruct (autosave_cycle_clean rt ev s Hd) as (?&?&?&?&?); auto.
  - intros Hd calm Hs. by rewrite autosave_cycle_run, Hs, Hd.
  - intros Hok saved.
    destruct (save_memory_spec rt ev s) as (_ & before & after & T & _ & _ & _ & H).
    fold saved in T, H. rewrite Hok in H. destruct H as (_ & Hd & tmp & _ & _ & Hev).
    split_and!; [done| |by apply autosave_cycle_clean].
    rewrite T, map_app. apply in_or_app. left.
    apply (f_equal (@rev event)) in Hev. rewrite map_rev, rev_involutive in Hev.
    rewrite Hev. apply in_rev. rewrite rev_involutive.
    simpl. right. right. apply in_or_app. right. simpl. auto.
  - intros item. apply learn_marks.
  - intros k v. apply sset_marks.
  - intros Hd calm Hs. by apply (autosave_cycle_dirty rt ev s calm).
  - intros e He. by rewrite autosave_cycle_run, He.
  - intros Hd n. by destruct (autosave_loop_clean rt ev n s Hd) as (?&?&?&?&?).
Qed.

(** C9 fails as stated in three ways.  The command [caretaker list],
    on a document without a caretaker entry, adds an empty one and
    does not mark it: the flag stays clear and three turns of the
    autosave later the state file still holds the old document.  After
    a save that failed the flag is still set, and the next turn writes
    the state file though nothing has changed the document in between.
    And the updater ([bn.py]) has no dirty flag: every turn of its
    [autosave_loop] opens the primary path for writing again. *)
Lemma autosave_follows_the_flag_alone :
  (let k := snd (BnDaemon.handle_command sample_rt offline sample_hs
                   (JStr (Py.lit "caretaker list")) (console_of settled)) in
   let later := snd (BnDaemon.autosave_loop sample_rt offline 3 (core k)) in
   mem settled = old_document
   /\ mem_dirty settled = false
   /\ printed k = [Py.lit "(empty)"]
   /\ mem (core k)
      = JDict [(Py.lit "death_count", JInt 3); (Py.lit "caretaker", JDict [])]
   /\ mem_dirty (core k) = false
   /\ mem later = mem (core k)
   /\ map_to_list (fs later)
      = [(BnDaemon.MEM_PATH offline, concat (SampleJson.dump old_document))])
  /\ (let first := snd (BnDaemon.autosave_cycle sample_rt offline unsaved_change) in
      let second := snd (BnDaemon.autosave_cycle sample_rt offline first) in
      mem_dirty unsaved_change = true
      /\ map_to_list (fs first) = map_to_list (fs unsaved_change)
      /\ mem_dirty first = true
      /\ mem first = mem unsaved_change
      /\ mem second = mem first
      /\ fs first !! BnDaemon.MEM_PATH offline
         = Some (concat (SampleJson.dump old_document))
      /\ fs second !! BnDaemon.MEM_PATH offline
         = Some (concat (SampleJson.dump (mem first)))
      /\ mem_dirty second = false)
  /\ (let saved := snd (BnUpdater.autosave_cycle sample_rt offline unsaved_updater) in
      let out := BnUpdater.autosave_cycle sample_rt offline saved in
      fst out = Ok tt
      /\ mem (snd out) = mem saved
      /\ mem_dirty saved = false
      /\ take 3 (events_since saved (snd out))
         = [EvAcquire; EvTruncate BnUpdater.MEM_PATH;
            EvWrite BnUpdater.MEM_PATH (Py.lit "{")]).
Proof. vm_compute. by split_and!. Qed.

(** ** A lock that holds no process id *)

(** ** Operations and the fault schedule *)

Lemma next_fault_exact s :
  next_fault s = (Ok (nth 0 (faults s) NoFault), set_faults (drop 1 (faults s)) s).
Proof.
  unfold next_fault. destruct (faults s) eqn:E; simpl; [|done].
  by rewrite <- E, set_faults_same.
Qed.

Lemma fallible_exact s :
  fallible s = (match nth 0 (faults s) NoFault with
                | NoFault => Ok tt
                | Fail _ => Raise OSError
                end, set_faults (drop 1 (faults s)) s).
Proof.
  unfold fallible. rewrite (bind_ok _ _ _ _ _ (next_fault_exact s)).
  by destruct (nth 0 (faults s) NoFault).
Qed.

Lemma read_file_exact p s c :
  fs s !! p = Some c ->
  read_file p s = (match nth 0 (faults s) NoFault with
                   | NoFault => Ok c
                   | Fail _ => Raise OSError
                   end, set_faults (drop 1 (faults s)) s).
Proof.
  intros Hc. unfold read_file. rewrite bind_get_state, Hc. simpl lift_opt.
  rewrite bind_ret. unfold bind. rewrite fallible_exact.
  by destruct (nth 0 (faults s) NoFault).
Qed.

Lemma remove_exact p s c :
  fs s !! p = Some c ->
  remove p s = match nth 0 (faults s) NoFault with
               | NoFault => (Ok tt, delete_file p (set_faults (drop 1 (faults s)) s))
               | Fail _ => (Raise OSError, set_faults (drop 1 (faults s)) s)
               end.
Proof.
  intros Hc. unfold remove. rewrite bind_get_state, Hc.
  unfold bind. rewrite fallible_exact.
  by destruct (nth 0 (faults s) NoFault).
Qed.

Section UnreadableLock.
Variable rt : runtime.
Variable ev : environ.

(** A lock that holds no process id gives [None], whether or not the
    read itself fails. *)
Lemma read_old_pid_unreadable s c :
  fs s !! BnDaemon.LOCK_PATH ev = Some c ->
  recorded_pid rt c = None ->
  BnDaemon.read_old_pid rt ev s = (Ok None, set_faults (drop 1 (faults s)) s).
Proof.
  intros Hc Hpid. unfold BnDaemon.read_old_pid, try_except, read_text.
  unfold bind at 1, bind at 1. rewrite (read_file_exact _ _ _ Hc).
  destruct (nth 0 (faults s) NoFault); [|done].
  unfold recorded_pid in Hpid. unfold lift_opt.
  destruct (utf8_decode rt c) as [t|]; [|done]. unfold ret, bind.
  by rewrite Hpid.
Qed.

(** Next to such a lock the file operations of [cleanup_stale_lock] are
    the read of the lock and its removal: the second fault of the
    schedule decides. *)
Lemma cleanup_unreadable s c :
  fs s !! BnDaemon.LOCK_PATH ev = Some c ->
  recorded_pid rt c = None ->
  BnDaemon.cleanup_stale_lock rt ev s
  = match nth 1 (faults s) NoFault with
    | NoFault =>
        (Ok true, delete_file (BnDaemon.LOCK_PATH ev) (set_faults (drop 2 (faults s)) s))
    | Fail _ => (Raise OSError, set_faults (drop 2 (faults s)) s)
    end.
Proof.
  intros Hc Hpid.
  unfold BnDaemon.cleanup_stale_lock. rewrite bind_path_exists. cbv beta.
  rewrite bool_decide_eq_true_2 by (rewrite Hc; eauto). cbn [negb]. cbv beta iota.
  rewrite (bind_ok _ _ _ _ _ (read_old_pid_unreadable s c Hc Hpid)).
  unfold try_except, bind at 1, BnDaemon.probe, raise.
  unfold bind at 1, BnDaemon.remove_lock, ignore_file_not_found.
  rewrite (remove_exact _ _ c) by done.
  change (faults (set_faults (drop 1 (faults s)) s)) with (drop 1 (faults s)).
  assert (E1 : nth 0 (drop 1 (faults s)) NoFault = nth 1 (faults s) NoFault)
    by by destruct (faults s) as [|? [|? ?]].
  assert (E2 : drop 1 (drop 1 (faults s)) = drop 2 (faults s))
    by by destruct (faults s) as [|? [|? ?]].
  rewrite E1, E2. by destruct (nth 1 (faults s) NoFault).
Qed.

Lemma write_lock_keeps : keeps (BnDaemon.LOCK_PATH ev) (BnDaemon.write_lock rt ev).
Proof. unfold BnDaemon.write_lock, close. keeps_steps. Qed.

(** Counting a death: for a document that is a dictionary with a
    count that [int] converts, whatever fails afterwards in the journal
    or in the writing of the lock. *)
Lemma count_and_lock_counts s kv n :
  mem s = JDict kv ->
  py_int rt (default (JInt 0) (dict_get (Py.lit "death_count") kv)) = Ok n ->
  let out := count_and_lock rt ev s in
  mem (snd out) = JDict (dict_set (Py.lit "death_count") (JInt (n + 1)) kv)
  /\ mem_dirty (snd out) = true.
Proof.
  intros Hm Hn out. subst out. unfold count_and_lock.
  set (m' := JDict (dict_set (Py.lit "death_count") (JInt (n + 1)) kv)).
  assert (Hcount : BnDaemon.count_death rt s = (Ok tt, set_mem m' s)).
  { unfold BnDaemon.count_death, bind, get_state, lift_res. rewrite Hm. simpl.
    by rewrite Hn. }
  pose proof (wal_log_keeps rt ev (Py.lit "death:1") (set_mem m' s)) as Q.
  pose proof (swallowed (let* _ := open_append (BnDaemon.WAL_PATH ev) in
                         let* _ := write_text rt (BnDaemon.WAL_PATH ev)
                                     (utc_iso ev ++ Py.lit " " ++ Py.lit "death:1"
                                      ++ [10%N]) in
                         close (BnDaemon.WAL_PATH ev)) (set_mem m' s)) as Hok.
  fold (BnDaemon.wal_log rt ev (Py.lit "death:1")) in Hok.
  destruct (BnDaemon.wal_log rt ev (Py.lit "death:1") (set_mem m' s))
    as [r s2] eqn:W. simpl in Hok, Q. subst r.
  assert (Hbranch :
    (let* _ := BnDaemon.count_death rt in
     let* _ := BnDaemon.wal_log rt ev (Py.lit "death:1") in
     BnDaemon.mark_dirty) s = BnDaemon.mark_dirty s2).
  { rewrite (bind_ok _ _ _ _ _ Hcount). by rewrite (bind_ok _ _ _ _ _ W). }
  rewrite mark_dirty_run in Hbranch. rewrite (bind_ok _ _ _ _ _ Hbranch).
  match goal with |- context [BnDaemon.write_lock rt ev ?s3] =>
    pose proof (write_lock_keeps s3) as Q3 end.
  rewrite (quiet_mem _ _ _ Q3), (quiet_dirty _ _ _ Q3). simpl.
  by rewrite (quiet_mem _ _ _ Q).
Qed.

Lemma main_prologue_stale s s1 :
  BnDaemon.cleanup_stale_lock rt ev s = (Ok true, s1) ->
  BnDaemon.main_prologue rt ev s = count_and_lock rt ev s1.
Proof. intros H. unfold BnDaemon.main_prologue. by rewrite (bind_ok _ _ _ _ _ H). Qed.

Lemma count_and_lock_raises s e :
  fst (BnDaemon.count_death rt s) = Raise e -> fst (count_and_lock rt ev s) = Raise e.
Proof.
  intros H. unfold count_and_lock, bind.
  by destruct (BnDaemon.count_death rt s) as [[[]|e'] s1]; simpl in H; simplify_eq.
Qed.
End UnreadableLock.

(** C10, as amended.  When the lock file is there but no process id can
    be read from it (its bytes do not decode, or the first field of its
    text is no integer for [int]), [cleanup_stale_lock] does not fail on
    that: it takes the lock for stale and removes it.  Its file
    operations are the read of the lock and the removal, and the
    removal decides.  When it succeeds the answer is [True] with the
    lock file gone, and [main] goes on to count a death and to write
    its own lock: for a document that is a dictionary with a count that
    [int] converts, the count is one more and the dirty flag is set,
    whatever fails later; when counting raises, [main] raises.  When
    the removal fails, [OSError] leaves [cleanup_stale_lock] and [main]:
    the lock stays, no death is counted and the process does not
    start.  When no file operation fails, [main] returns with its own
    lock written. *)
Theorem unreadable_lock_is_stale (rt : runtime) (ev : environ) s c :
  fs s !! BnDaemon.LOCK_PATH ev = Some c ->
  recorded_pid rt c = None ->
  let lock := BnDaemon.LOCK_PATH ev in
  let cleaned := BnDaemon.cleanup_stale_lock rt ev s in
  let out := BnDaemon.main_prologue rt ev s in
  let later := set_faults (drop 2 (faults s)) s in
  cleaned = match nth 1 (faults s) NoFault with
            | NoFault => (Ok true, delete_file lock later)
            | Fail _ => (Raise OSError, later)
            end
  /\ (forall e, fst cleaned = Raise e ->
        out = (Raise e, later) /\ fs later !! lock = Some c /\ mem later = mem s
        /\ mem_dirty later = mem_dirty s)
  /\ (fst cleaned = Ok true ->
        fs (snd cleaned) !! lock = None
        /\ out = count_and_lock rt ev (snd cleaned)
        /\ (forall e, fst (BnDaemon.count_death rt (snd cleaned)) = Raise e ->
              fst out = Raise e)
        /\ (forall kv n,
              mem s = JDict kv ->
              py_int rt (default (JInt 0) (dict_get (Py.lit "death_count") kv)) = Ok n ->
              mem (snd out) = JDict (dict_set (Py.lit "death_count") (JInt (n + 1)) kv)
              /\ mem_dirty (snd out) = true))
  /\ (faults s = [] ->
      cleaned = (Ok true, delete_file lock s)
      /\ forall kv n b,
           mem s = JDict kv ->
           py_int rt (default (JInt 0) (dict_get (Py.lit "death_count") kv)) = Ok n ->
           utf8_encode rt (lock_line ev) = Some b ->
           fst out = Ok tt
           /\ mem (snd out) = JDict (dict_set (Py.lit "death_count") (JInt (n + 1)) kv)
           /\ mem_dirty (snd out) = true
           /\ fs (snd out) !! lock = Some b).
Proof.
  intros Hc Hpid lock cleaned out later.
  pose proof (cleanup_unreadable rt ev s c Hc Hpid) as Hclean.
  fold cleaned lock later in Hclean.
  split; [exact Hclean|]. split_and!.
  - intros e He. rewrite Hclean in He.
    destruct (nth 1 (faults s) NoFault) eqn:Hn; [done|]. simpl in He.
    injection He as <-. split_and!; try done.
    subst out. unfold BnDaemon.main_prologue.
    fold cleaned. by rewrite (bind_raise _ _ _ _ _ Hclean).
  - intros Hok. rewrite Hclean in Hok |- *.
    destruct (nth 1 (faults s) NoFault) eqn:Hn; [|done]. simpl.
    assert (Hout : out = count_and_lock rt ev (delete_file lock later))
      by by apply main_prologue_stale.
    split_and!.
    + apply lookup_delete_eq.
    + done.
    + intros e He. rewrite Hout. by apply count_and_lock_raises.
    + intros kv n Hm Hcount. rewrite Hout. by apply count_and_lock_counts.
  - intros Hf.
    assert (Hclean' : cleaned = (Ok true, delete_file lock s)).
    { rewrite Hclean. subst later. rewrite Hf. simpl. by rewrite <- Hf, set_faults_same. }
    split; [done|]. intros kv n b Hm Hn Hb.
    destruct (main_prologue_after_stale rt ev s _ kv n b Hclean' Hf Hm Hn Hb)
      as (?&?&?&?&?).
    by split_and!.
Qed.

Lemma unreadable_lock_is_stale_witness :
  let s := beside_garbled_lock in
  let lock := BnDaemon.LOCK_PATH offline in
  let cleaned := BnDaemon.cleanup_stale_lock sample_rt offline s in
  let out := BnDaemon.main_prologue sample_rt offline s in
  let later := set_faults (drop 2 (faults s)) s in
  cleaned = match nth 1 (faults s) NoFault with
            | NoFault => (Ok true, delete_file lock later)
            | Fail _ => (Raise OSError, later)
            end
  /\ (forall e, fst cleaned = Raise e ->
        out = (Raise e, later) /\ fs later !! lock = Some garbled_lock
        /\ mem later = mem s /\ mem_dirty later = mem_dirty s)
  /\ (fst cleaned = Ok true ->
        fs (snd cleaned) !! lock = None
        /\ out = count_and_lock sample_rt offline (snd cleaned)
        /\ (forall e, fst (BnDaemon.count_death sample_rt (snd cleaned)) = Raise e ->
              fst out = Raise e)
        /\ (forall kv n,
              mem s = JDict kv ->
              py_int sample_rt (default (JInt 0) (dict_get (Py.lit "death_count") kv))
              = Ok n ->
              mem (snd out) = JDict (dict_set (Py.lit "death_count") (JInt (n + 1)) kv)
              /\ mem_dirty (snd out) = true))
  /\ (faults s = [] ->
      cleaned = (Ok true, delete_file lock s)
      /\ forall kv n b,
           mem s = JDict kv ->
           py_int sample_rt (default (JInt 0) (dict_get (Py.lit "death_count") kv))
           = Ok n ->
           utf8_encode sample_rt (lock_line offline) = Some b ->
           fst out = Ok tt
           /\ mem (snd out) = JDict (dict_set (Py.lit "death_count") (JInt (n + 1)) kv)
           /\ mem_dirty (snd out) = true
           /\ fs (snd out) !! lock = Some b).
Proof.
  apply (unreadable_lock_is_stale sample_rt offline beside_garbled_lock garbled_lock);
    vm_compute; reflexivity.
Defined.

(** A lock whose process id is followed by the separator U+001F is one
    of the unreadable ones: [int] refuses its first field, and so does
    a version with such a component, which counts as [(0,)]. *)
Example separator_beside_the_digits :
  recorded_pid sample_rt (file_text "777" ++ [31%N] ++ file_text "|2025") = None
  /\ BnUpdater.version_tuple sample_rt (Py.lit "15." ++ [31%N] ++ Py.lit "0") = [0]
  /\ BnUpdater.version_gt sample_rt (Py.lit "15." ++ [31%N] ++ Py.lit "0")
       BnUpdater.CURRENT_VERSION = false.
Proof. vm_compute. by split_and!. Qed.

(** C10 fails as stated: next to a garbled lock that cannot be removed
    the start of the daemon raises [OSError]; the lock file is as it
    was and no death has been counted. *)
Lemma stuck_lock_blocks_the_start :
  let out := BnDaemon.main_prologue sample_rt offline beside_stuck_lock in
  fs beside_stuck_lock !! BnDaemon.LOCK_PATH offline = Some garbled_lock
  /\ recorded_pid sample_rt garbled_lock = None
  /\ fst (BnDaemon.cleanup_stale_lock sample_rt offline beside_stuck_lock)
     = Raise OSError
  /\ fst out = Raise OSError
  /\ fs (snd out) !! BnDaemon.LOCK_PATH offline = Some garbled_lock
  /\ mem (snd out) = mem beside_stuck_lock
  /\ death_count (snd out) = Ok (JInt 0)
  /\ mem_dirty (snd out) = false.
Proof. vm_compute. by split_and!. Qed.

(** ** Steps of a command *)

Lemma set_core_same k : set_core (core k) k = k.
Proof. by destruct k. Qed.

Section ProgSteps.
Context {A B : Type}.

Lemma pbind_io_ok (m : IO A) (f : A -> Prog B) k a s :
  m (core k) = (Ok a, s) -> pbind (io m) f k = f a (set_core s k).
Proof. unfold pbind, io. by intros ->. Qed.

Lemma pbind_io_raise (m : IO A) (f : A -> Prog B) k e s :
  m (core k) = (Raise e, s) -> pbind (io m) f k = (Failed e, set_core s k).
Proof. unfold pbind, io. by intros ->. Qed.

Lemma pbind_io_res (r : res A) (f : A -> Prog B) k a :
  r = Ok a -> pbind (io (lift_res r)) f k = f a k.
Proof. intros ->. unfold pbind, io, lift_res. by rewrite set_core_same. Qed.

Lemma pbind_io_get_state (f : state -> Prog B) k :
  pbind (io get_state) f k = f (core k) k.
Proof. unfold pbind, io, get_state. by rewrite set_core_same. Qed.
End ProgSteps.

Section Caretaker.
Variable rt : runtime.
Variable ev : environ.
Variable hs : host.

Lemma speak_keeps t : keeps (BnDaemon.outbox_path ev) (BnDaemon.speak rt ev hs t).
Proof. intros s. rewrite speak_state. apply outbox_write_keeps. Qed.

(** [say] touches the outbox and nothing else. *)
Lemma say_msg_keeps x : keeps (BnDaemon.outbox_path ev) (BnDaemon.say_msg rt ev hs x).
Proof.
  unfold BnDaemon.say_msg. apply keeps_bind.
  - destruct (truthy x); [destruct x|]; keeps_steps.
  - intros [|c0 c]; [keeps_steps|].
    apply keeps_bind; [apply speak_keeps|intros ?; keeps_steps].
Qed.
End Caretaker.

(** ** The caretaker program *)

Section CaretakerTick.
Variable rt : runtime.
Variable ev : environ.
Variable hs : host.

(** What a step of the caretaker program does: it may fill the outbox
    or start a thread, it fails for nobody, and it leaves the document
    alone. *)
Lemma caretaker_step_run step k :
  let out := ptry
      (let+ kind := io (lift_res (py_get step (Py.lit "type") JNull)) in
       if py_eq_str kind (Py.lit "say")
       then let+ text := io (lift_res (py_get step (Py.lit "text") (JStr []))) in
            io (BnDaemon.say_msg rt ev hs text)
       else if py_eq_str kind (Py.lit "cmd")
       then let+ cmd := io (lift_res (py_get step (Py.lit "cmd") (JStr []))) in
            start_thread (HandleCommand cmd)
       else pret tt)
      (pret tt) k in
  fst out = Done tt
  /\ mem (core (snd out)) = mem (core k)
  /\ mem_dirty (core (snd out)) = mem_dirty (core k).
Proof.
  intros out. subst out. unfold ptry.
  destruct (py_get step (Py.lit "type") JNull) as [kind|e] eqn:Hk.
  2: { unfold pbind, io, lift_res. by rewrite set_core_same. }
  rewrite (pbind_io_res _ _ _ _ eq_refl).
  destruct (py_eq_str kind (Py.lit "say")).
  - destruct (py_get step (Py.lit "text") (JStr [])) as [text|e] eqn:Ht.
    2: { unfold pbind, io, lift_res. by rewrite set_core_same. }
    rewrite (pbind_io_res _ _ _ _ eq_refl). unfold io.
    pose proof (say_msg_keeps rt ev hs text (core k)) as Q.
    destruct (BnDaemon.say_msg rt ev hs text (core k)) as [[[]|e] s1]; simpl in *;
      by rewrite (quiet_mem _ _ _ Q), (quiet_dirty _ _ _ Q).
  - destruct (py_eq_str kind (Py.lit "cmd")); [|done].
    destruct (py_get step (Py.lit "cmd") (JStr [])) as [cmd|e] eqn:Hc.
    2: { unfold pbind, io, lift_res. by rewrite set_core_same. }
    by rewrite (pbind_io_res _ _ _ _ eq_refl).
Qed.
End CaretakerTick.

(** X16.  [caretaker_tick] keeps its index inside the program.  For a
    program of [n] steps and any integer under [_idx] (negative, or
    past the end after the program was shortened), the tick takes step
    [_idx mod n], stores [(_idx + 1) mod n], which lies from 0 to
    [n - 1], marks the document dirty and raises nothing, whatever the
    step does. *)
Theorem caretaker_tick_stays_in_range (rt : runtime) (ev : environ) (hs : host)
    k kv ct prog idx :
  mem (core k) = JDict kv ->
  dict_get (Py.lit "caretaker") kv = Some (JDict ct) ->
  dict_get (Py.lit "program") ct = Some (JList prog) -> prog <> [] ->
  py_int rt (default (JInt 0) (dict_get (Py.lit "_idx") ct)) = Ok idx ->
  let n := Z.of_nat (length prog) in
  let out := BnDaemon.caretaker_tick rt ev hs k in
  fst out = Done tt
  /\ is_Some (prog !! Z.to_nat (idx mod n))
  /\ mem (core (snd out))
     = JDict (dict_set (Py.lit "caretaker")
                (JDict (dict_set (Py.lit "_idx") (JInt ((idx + 1) mod n)) ct)) kv)
  /\ 0 <= (idx + 1) mod n < n
  /\ mem_dirty (core (snd out)) = true.
Proof.
  intros Hm Hct Hprog Hne Hidx n out. subst out.
  assert (Hn : 0 < n) by (subst n; destruct prog; [done|simpl; lia]).
  assert (Hin : is_Some (prog !! Z.to_nat (idx mod n))).
  { apply lookup_lt_is_Some. pose proof (Z.mod_pos_bound idx n Hn). lia. }
  destruct Hin as [step Hstep].
  unfold BnDaemon.caretaker_tick.
  rewrite pbind_io_get_state, Hm.
  rewrite (pbind_io_res _ _ _ (JDict ct)) by (unfold py_get; by rewrite Hct).
  rewrite (pbind_io_res _ _ _ (JList prog)) by (unfold py_get; by rewrite Hprog).
  assert (Htrue : truthy (JList prog) = true) by (by destruct prog).
  rewrite Htrue. cbn [negb].
  erewrite pbind_io_res by reflexivity.
  rewrite (pbind_io_res _ _ _ _ Hidx).
  erewrite pbind_io_res by reflexivity. fold n.
  rewrite (pbind_io_res _ _ _ step) by (unfold py_index; by rewrite Hstep).
  erewrite pbind_io_res by reflexivity.
  erewrite pbind_io_res by reflexivity.
  rewrite Z.max_r by lia.
  erewrite pbind_io_ok by reflexivity.
  erewrite pbind_io_ok by apply mark_dirty_run.
  match goal with |- context [ptry ?m ?h ?k'] =>
    pose proof (caretaker_step_run rt ev hs step k') as (H1 & H2 & H3)
  end.
  pose proof (Z.mod_pos_bound (idx + 1) n Hn).
  split_and!; [exact H1|by eexists|by rewrite H2|lia|lia|by rewrite H3].
Qed.

Lemma caretaker_tick_stays_in_range_witness :
  let out := BnDaemon.caretaker_tick sample_rt offline sample_hs caretaker_past_the_end in
  fst out = Done tt
  /\ started (snd out) = [HandleCommand (JStr (Py.lit "status"))]
  /\ mem (core (snd out))
     = JDict [(Py.lit "caretaker",
               JDict [(Py.lit "program", JList two_steps); (Py.lit "_idx", JInt 0)])]
  /\ mem_dirty (core (snd out)) = true.
Proof.
  intros out. subst out.
  edestruct (caretaker_tick_stays_in_range sample_rt offline sample_hs
               caretaker_past_the_end) as (H1 & _ & H3 & _ & H5);
    [reflexivity|reflexivity|reflexivity|done|reflexivity|].
  split_and!; [exact H1|by vm_compute|exact H3|exact H5].
Defined.

(** ** The [learned] command *)

Section Learned.
Variable rt : runtime.
Variable ev : environ.
Variable hs : host.

Lemma learned_branch t k :
  Py.strip t <> [] ->
  Py.starts_with (Py.lit "learned") (str_lower hs (Py.strip t)) = true ->
  BnDaemon.handle_command rt ev hs (JStr t) k
  = BnDaemon.cmd_learned rt hs (Py.strip t) (set_LAST_CMD_TS (time_time hs) k).
Proof.
  intros Hne Hstarts.
  assert (Ht : truthy (JStr t) = true).
  { destruct t; [by rewrite strip_nil in Hne|done]. }
  unfold BnDaemon.handle_command, pbind at 1, assign.
  rewrite Ht. unfold pbind at 1, io at 1, ret.
  destruct (Py.strip t) as [|c0 c] eqn:Hc; [done|].
  destruct (starts_with_app _ _ Hstarts) as [r Hlow].
  cbv zeta. rewrite Hlow. reflexivity.
Qed.

Lemma print_each xs k :
  (fix each (xs : list json) : Prog unit :=
     match xs with
     | [] => pret tt
     | it :: rest => let+ _ := print [Py.lit "-"; py_str hs it] in each rest
     end) xs k
  = (Done tt, shown (List.map (fun it => Py.lit "- " ++ py_str hs it) xs) k).
Proof.
  revert k. induction xs as [|it xs IH]; intros k; [done|].
  unfold pbind, print. cbn [fst snd]. rewrite IH. done.
Qed.

Lemma cmd_learned_run c k kv xs :
  mem (core k) = JDict kv ->
  default (JList []) (dict_get (Py.lit "learned") kv) = JList xs ->
  let n := learned_count rt c in
  let tail := if 0 <? n then Py.last_n (Z.to_nat n) xs else [] in
  BnDaemon.cmd_learned rt hs c k
  = (Done tt,
     shown (match tail with
            | [] => [Py.lit "(no learned items yet)"]
            | _ :: _ => List.map (fun it => Py.lit "- " ++ py_str hs it) tail
            end) k).
Proof.
  intros Hm Hl n tail. unfold BnDaemon.cmd_learned. fold (learned_count rt c). fold n.
  rewrite pbind_io_get_state, Hm.
  rewrite (pbind_io_res _ _ _ (JList xs)) by (unfold py_get; by rewrite Hl).
  subst tail. destruct (0 <? n).
  - erewrite pbind_io_res by reflexivity.
    destruct (Py.last_n (Z.to_nat n) xs) as [|x l] eqn:E; [done|].
    exact (print_each (x :: l) k).
  - done.
Qed.
End Learned.

(** X17.  The [learned] command shows the end of the list of learned
    items: for a count [n] above zero (10 when none is given or [int]
    rejects it) it prints the last [n] items, or all of them when
    there are fewer, oldest first, each after a dash; for any other
    count, or with nothing learned, it prints one line that says so.
    Nothing but the output and the time of the last command changes. *)
Theorem learned_command_shows_the_last_items (rt : runtime) (ev : environ)
    (hs : host) t k kv xs :
  Py.strip t <> [] ->
  Py.starts_with (Py.lit "learned") (str_lower hs (Py.strip t)) = true ->
  mem (core k) = JDict kv ->
  default (JList []) (dict_get (Py.lit "learned") kv) = JList xs ->
  let n := learned_count rt (Py.strip t) in
  let tail := if 0 <? n then Py.last_n (Z.to_nat n) xs else [] in
  BnDaemon.handle_command rt ev hs (JStr t) k
  = (Done tt,
     shown (match tail with
            | [] => [Py.lit "(no learned items yet)"]
            | _ :: _ => List.map (fun it => Py.lit "- " ++ py_str hs it) tail
            end) (set_LAST_CMD_TS (time_time hs) k))
  /\ (0 < n -> exists older, xs = older ++ tail
                /\ length tail = Nat.min (Z.to_nat n) (length xs)).
Proof.
  intros Hne Hstarts Hm Hl n tail. split.
  - rewrite learned_branch by done. by apply (cmd_learned_run rt hs _ _ kv xs).
  - intros Hn. subst tail. destruct (Z.ltb_spec 0 n); [|lia].
    exists (take (length xs - Z.to_nat n) xs). unfold Py.last_n.
    split; [by rewrite take_drop|]. rewrite length_drop. lia.
Qed.

Lemma learned_command_shows_the_last_items_witness :
  let k := console_of (state_with [] []
             (JDict [(Py.lit "learned",
                      JList [JStr (Py.lit "a"); JStr (Py.lit "b"); JStr (Py.lit "c")])])) in
  let out := BnDaemon.handle_command sample_rt offline sample_hs
               (JStr (Py.lit "learned 2")) k in
  fst out = Done tt /\ printed (snd out) = [Py.lit "- c"; Py.lit "- b"].
Proof.
  intros k out. subst out.
  edestruct (learned_command_shows_the_last_items sample_rt offline sample_hs
               (Py.lit "learned 2") k) as [H _];
    [done|reflexivity|reflexivity|reflexivity|].
  rewrite H. by vm_compute.
Defined.
